(** * Zayko canteen: wallet ledger and auto-order demand forecast

    A shallow embedding of
    - [src/lib/canteen-wallet.ts] ([updateCanteenWallet]),
    - [src/app/api/admin/wallet/withdraw/route.ts] ([POST]),
    - [src/app/api/admin/auto-orders-forecast/route.ts] ([getISTDate],
      [getScheduledDays], [GET]),
    followed by the properties the specification states about them.

    Conventions of the embedding.
    - JavaScript numbers that hold rupee amounts, stock levels and order
      quantities are integers of [Z].
    - A Firestore field that may be absent from a document is an [option].
    - [new Date()] is an input: an ISO timestamp for the ledger, epoch
      milliseconds for the forecast.
    - A Firestore transaction is a buffer of writes issued against a read
      snapshot; the buffer is applied in order at commit, or dropped as a
      whole when the body throws.
    - A JavaScript [Map] is an association list in insertion order with
      unique keys. *)

From Stdlib Require Import ZArith List Lia Ascii String Sorting.Sorted Permutation.
From Stdlib Require OrderedTypeEx.
From stdpp Require Import gmap strings list fin_maps pretty.

Local Open Scope string_scope.
Local Open Scope Z_scope.

(** ** JavaScript operators on optional fields *)
Module JS.

(** [x || d] on a number field: [undefined], [null] and [0] are falsy. *)
Definition num_or (x : option Z) (d : Z) : Z :=
  match x with
  | Some v => if v =? 0 then d else v
  | None => d
  end.

(** [x ?? d] on a number field: only an absent value is replaced. *)
Definition num_nullish (x : option Z) (d : Z) : Z :=
  match x with
  | Some v => v
  | None => d
  end.

(** [x || d] on a string field: [undefined], [null] and the empty string are falsy. *)
Definition str_or (x : option string) (d : string) : string :=
  match x with
  | Some EmptyString => d
  | Some s => s
  | None => d
  end.

(** [x === s] for a field that may be absent and a string literal. *)
Definition strict_eq (x : option string) (s : string) : bool :=
  match x with
  | Some v => String.eqb v s
  | None => false
  end.

(** [s.split(c)[0]]: the prefix of [s] before the first [c]. *)
Fixpoint split_head (c : ascii) (s : string) : string :=
  match s with
  | EmptyString => EmptyString
  | String a r => if Ascii.eqb a c then EmptyString else String a (split_head c r)
  end.

(** [s.padStart(2, "0")] on a string of decimal digits. *)
Definition padStart2 (s : string) : string :=
  match s with
  | EmptyString => "00"
  | String a EmptyString => String "0" (String a EmptyString)
  | _ => s
  end.

End JS.

(** ** An insertion-ordered [Map] with string keys *)
Module JSMap.
Section Defs.
Context {V : Type}.

Definition t := list (string * V).

Definition empty : t := [].

Fixpoint get (m : t) (k : string) : option V :=
  match m with
  | [] => None
  | (k', v) :: r => if String.eqb k' k then Some v else get r k
  end.

(** [m.set(k, v)]: an existing key keeps its position. *)
Fixpoint set (m : t) (k : string) (v : V) : t :=
  match m with
  | [] => [(k, v)]
  | (k', v') :: r =>
      if String.eqb k' k then (k', v) :: r else (k', v') :: set r k v
  end.

Definition keys (m : t) : list string := map fst m.
Definition values (m : t) : list V := map snd m.
Definition entries (m : t) : list (string * V) := m.
End Defs.
Arguments t : clear implicits.
End JSMap.

(** ** The wallet ledger *)
Module Ledger.

(** The document [wallets/canteen_owner]. *)
Record Wallet := mkWallet {
  totalBalance : Z;
  pendingAmount : Z;
  todayCollection : Z;
  todayDate : string;
  lastUpdated : string
}.

Inductive TxnType := credit | withdrawal | refund_deduction.

(** A document of [canteenTransactions]. *)
Record WalletTransaction := mkWalletTransaction {
  amount : Z;
  type : TxnType;
  orderId : option string;
  description : string;
  createdAt : string
}.

(** A document of [withdrawals]. *)
Record Withdrawal := mkWithdrawal {
  wd_amount : Z;
  wd_status : string;
  requestedAt : string;
  processedAt : string
}.

Record Store := mkStore {
  wallet : option Wallet;
  canteenTransactions : list WalletTransaction;
  withdrawals : list Withdrawal
}.

(** Values written to a field by [transaction.update]. *)
Inductive FieldValue :=
| Increment (d : Z)
| NumVal (v : Z)
| StrVal (s : string).

Inductive Write :=
| SetWallet (w : Wallet)
| UpdateWallet (updates : gmap string FieldValue)
| AddCanteenTransaction (t : WalletTransaction)
| AddWithdrawal (r : Withdrawal).

Definition apply_num (f : option FieldValue) (old : Z) : Z :=
  match f with
  | Some (Increment d) => old + d
  | Some (NumVal v) => v
  | _ => old
  end.

Definition apply_str (f : option FieldValue) (old : string) : string :=
  match f with
  | Some (StrVal s) => s
  | _ => old
  end.

Definition update_wallet (u : gmap string FieldValue) (w : Wallet) : Wallet :=
  {| totalBalance := apply_num (u !! "totalBalance") (totalBalance w);
     pendingAmount := apply_num (u !! "pendingAmount") (pendingAmount w);
     todayCollection := apply_num (u !! "todayCollection") (todayCollection w);
     todayDate := apply_str (u !! "todayDate") (todayDate w);
     lastUpdated := apply_str (u !! "lastUpdated") (lastUpdated w) |}.

(** One buffered write; [update] of a missing document fails. *)
Definition apply_write (st : Store) (w : Write) : option Store :=
  match w with
  | SetWallet d =>
      Some {| wallet := Some d;
              canteenTransactions := canteenTransactions st;
              withdrawals := withdrawals st |}
  | UpdateWallet u =>
      match wallet st with
      | Some d =>
          Some {| wallet := Some (update_wallet u d);
                  canteenTransactions := canteenTransactions st;
                  withdrawals := withdrawals st |}
      | None => None
      end
  | AddCanteenTransaction t =>
      Some {| wallet := wallet st;
              canteenTransactions := canteenTransactions st ++ [t];
              withdrawals := withdrawals st |}
  | AddWithdrawal r =>
      Some {| wallet := wallet st;
              canteenTransactions := canteenTransactions st;
              withdrawals := withdrawals st ++ [r] |}
  end.

Fixpoint commit (st : Store) (ws : list Write) : option Store :=
  match ws with
  | [] => Some st
  | w :: r =>
      match apply_write st w with
      | Some st' => commit st' r
      | None => None
      end
  end.

(** *** The transaction monad: a read snapshot, a write buffer, [throw] *)
Inductive Outcome (A : Type) :=
| Done (a : A) (ws : list Write)
| Throw (msg : string).
Arguments Done {A} a ws.
Arguments Throw {A} msg.

Definition Txn (A : Type) := Store -> list Write -> Outcome A.

#[global] Instance txn_ret : MRet Txn := fun A a _ ws => Done a ws.

#[global] Instance txn_bind : MBind Txn := fun A B f m st ws =>
  match m st ws with
  | Done a ws' => f a st ws'
  | Throw e => Throw e
  end.

Definition tx_get_wallet : Txn (option Wallet) :=
  fun st ws => Done (wallet st) ws.

Definition tx_write (w : Write) : Txn unit :=
  fun _ ws => Done tt (ws ++ [w]).

Definition throw {A} (msg : string) : Txn A := fun _ _ => Throw msg.

Definition when (b : bool) (m : Txn unit) : Txn unit :=
  if b then m else mret tt.

(** The message of the store when a commit is rejected. *)
Definition commit_failed : string := "No document to update".

(** [adminDb.runTransaction(body)]: the new store, or the old store and
    the error message. *)
Definition runTransaction {A} (st : Store) (body : Txn A) : Store * option string :=
  match body st [] with
  | Done _ ws =>
      match commit st ws with
      | Some st' => (st', None)
      | None => (st, Some commit_failed)
      end
  | Throw e => (st, Some e)
  end.

Definition includes (l : list string) (s : string) : bool :=
  existsb (String.eqb s) l.

Definition active_statuses : list string := ["confirmed"; "preparing"; "ready"].

(** The branches of [updateCanteenWallet] on the status pair: the
    [updates] object and the transaction record they leave. *)
Definition transition
    (now : string) (oldStatus newStatus : string) (amount : Z) (orderId : string)
    : gmap string FieldValue * option WalletTransaction :=
  let updates : gmap string FieldValue := {[ "lastUpdated" := StrVal now ]} in
  let isNewConfirmed :=
    String.eqb oldStatus "pending" && includes active_statuses newStatus in
  let updates :=
    if isNewConfirmed then <[ "pendingAmount" := Increment amount ]> updates
    else updates in
  let isNewCompleted :=
    includes active_statuses oldStatus && String.eqb newStatus "completed" in
  let isDirectCompleted :=
    String.eqb oldStatus "pending" && String.eqb newStatus "completed" in
  let '(updates, record) :=
    if isNewCompleted then
      (<[ "todayCollection" := Increment amount ]>
         (<[ "totalBalance" := Increment amount ]>
            (<[ "pendingAmount" := Increment (- amount) ]> updates)),
       Some {| amount := amount; type := credit; orderId := Some orderId;
               description := "Order Completed - #" +:+ orderId;
               createdAt := now |})
    else if isDirectCompleted then
      (<[ "todayCollection" := Increment amount ]>
         (<[ "totalBalance" := Increment amount ]> updates),
       Some {| amount := amount; type := credit; orderId := Some orderId;
               description := "Order Completed (Direct) - #" +:+ orderId;
               createdAt := now |})
    else (updates, None) in
  let isCancellingActive :=
    includes active_statuses oldStatus && String.eqb newStatus "cancelled" in
  let updates :=
    if isCancellingActive then <[ "pendingAmount" := Increment (- amount) ]> updates
    else updates in
  let isCancellingCompleted :=
    String.eqb oldStatus "completed" && String.eqb newStatus "cancelled" in
  if isCancellingCompleted then
    (<[ "totalBalance" := Increment (- amount) ]> updates,
     Some {| amount := amount; type := refund_deduction; orderId := Some orderId;
             description := "Order Refunded - #" +:+ orderId;
             createdAt := now |})
  else (updates, record).

(** [updateCanteenWallet(transaction, oldStatus, newStatus, amount, orderId)];
    [now] is [new Date().toISOString()]. *)
Definition updateCanteenWallet
    (now : string) (oldStatus newStatus : string) (amount : Z) (orderId : string)
    : Txn unit :=
  if (amount <=? 0) || String.eqb oldStatus newStatus then mret tt
  else
    walletDoc ← tx_get_wallet;
    let todayDate := JS.split_head "T" now in
    match walletDoc with
    | None =>
        tx_write (SetWallet {| totalBalance := 0; pendingAmount := 0;
                               todayCollection := 0; todayDate := todayDate;
                               lastUpdated := now |})
    | Some data =>
        when (negb (String.eqb data.(Ledger.todayDate) todayDate))
          (tx_write (UpdateWallet
             (<[ "todayDate" := StrVal todayDate ]>
                {[ "todayCollection" := NumVal 0 ]})))
    end;;
    let '(updates, record) := transition now oldStatus newStatus amount orderId in
    when (1 <? Z.of_nat (size updates)) (tx_write (UpdateWallet updates));;
    match record with
    | Some details => tx_write (AddCanteenTransaction details)
    | None => mret tt
    end.

(** *** The withdrawal route *)
Inductive Response :=
| JsonSuccess (status : Z) (message : string)
| JsonError (status : Z) (error : string).

Definition withdraw_body (now : string) (amount : Z) : Txn unit :=
  walletDoc ← tx_get_wallet;
  match walletDoc with
  | None => throw "Wallet not found"
  | Some data =>
      let currentBalance := JS.num_or (Some data.(totalBalance)) 0 in
      if currentBalance <? amount then throw "Insufficient balance for withdrawal"
      else
        tx_write (UpdateWallet
          (<[ "lastUpdated" := StrVal now ]>
             {[ "totalBalance" := Increment (- amount) ]}));;
        tx_write (AddCanteenTransaction
          {| amount := amount; type := withdrawal; orderId := None;
             description := "Wallet Withdrawal"; createdAt := now |});;
        tx_write (AddWithdrawal
          {| wd_amount := amount; wd_status := "completed";
             requestedAt := now; processedAt := now |})
  end.

(** [POST] once the admin token is verified; [amount] is the field of the
    request body. *)
Definition POST (st : Store) (now : string) (amount : option Z) : Store * Response :=
  match amount with
  | None => (st, JsonError 400 "Invalid withdrawal amount")
  | Some a =>
      if (a =? 0) || (a <=? 0) then (st, JsonError 400 "Invalid withdrawal amount")
      else
        match runTransaction st (withdraw_body now a) with
        | (st', None) => (st', JsonSuccess 200 "Withdrawal successful")
        | (st', Some msg) => (st', JsonError 500 msg)
        end
  end.

(** [updateCanteenWallet] run in a transaction of its own. *)
Definition applyTransition
    (st : Store) (now : string) (oldStatus newStatus : string) (amount : Z)
    (orderId : string) : Store * option string :=
  runTransaction st (updateCanteenWallet now oldStatus newStatus amount orderId).

End Ledger.

(** ** The auto-order demand forecast *)
Module Forecast.

(** Modelled from the spec: the type [DayOfWeek] of [@/types], imported by
    the route and absent from the sources; its weekday tags are the seven
    listed by [ALL_DAYS] and [DAY_MAP]. *)
Inductive DayOfWeek := Mon | Tue | Wed | Thu | Fri | Sat | Sun.

#[global] Instance DayOfWeek_eq_dec : EqDecision DayOfWeek.
Proof. solve_decision. Defined.

(** The tag as it is spliced into a template string. *)
Definition day_tag (d : DayOfWeek) : string :=
  match d with
  | Mon => "Mon" | Tue => "Tue" | Wed => "Wed" | Thu => "Thu"
  | Fri => "Fri" | Sat => "Sat" | Sun => "Sun"
  end.

Definition ALL_DAYS : list DayOfWeek := [Mon; Tue; Wed; Thu; Fri; Sat; Sun].
Definition WEEKDAYS : list DayOfWeek := [Mon; Tue; Wed; Thu; Fri].

(** [DAY_MAP[i]] for the result [i] of [getUTCDay()], which lies in 0..6. *)
Definition DAY_MAP (i : Z) : DayOfWeek :=
  match i with
  | 0 => Sun | 1 => Mon | 2 => Tue | 3 => Wed | 4 => Thu | 5 => Fri | _ => Sat
  end.

(** [5.5 * 60 * 60 * 1000] *)
Definition IST_OFFSET_MS : Z := 19800000.

Definition MS_PER_DAY : Z := 24 * 60 * 60 * 1000.

(** *** The UTC getters of [Date] on epoch milliseconds *)

(** [Day(t)] of ECMAScript: whole days since 1970-01-01. *)
Definition epoch_day (t : Z) : Z := t / MS_PER_DAY.

(** [getUTCDay()]: 1970-01-01 was a Thursday. *)
Definition getUTCDay (t : Z) : Z := (epoch_day t + 4) mod 7.

(** Year, month (1..12) and day of month of a day number in the
    proleptic Gregorian calendar. *)
Definition civil_from_days (z : Z) : Z * Z * Z :=
  let z := z + 719468 in
  let era := z / 146097 in
  let doe := z - era * 146097 in
  let yoe := (doe - doe / 1460 + doe / 36524 - doe / 146096) / 365 in
  let y := yoe + era * 400 in
  let doy := doe - (365 * yoe + yoe / 4 - yoe / 100) in
  let mp := (5 * doy + 2) / 153 in
  let d := doy - (153 * mp + 2) / 5 + 1 in
  let m := if mp <? 10 then mp + 3 else mp - 9 in
  (if m <=? 2 then y + 1 else y, m, d).

Definition getUTCFullYear (t : Z) : Z := (civil_from_days (epoch_day t)).1.1.
(** [getUTCMonth()] counts from 0. *)
Definition getUTCMonth (t : Z) : Z := (civil_from_days (epoch_day t)).1.2 - 1.
Definition getUTCDate (t : Z) : Z := (civil_from_days (epoch_day t)).2.

Record ISTDate := mkISTDate {
  dateStr : string;
  dayOfWeek : DayOfWeek;
  dayIndex : Z
}.

Definition getISTDate (date : Z) : ISTDate :=
  let ist := date + IST_OFFSET_MS in
  let yyyy := getUTCFullYear ist in
  let mo := JS.padStart2 (pretty (getUTCMonth ist + 1)) in
  let dd := JS.padStart2 (pretty (getUTCDate ist)) in
  {| dateStr := pretty yyyy +:+ "-" +:+ mo +:+ "-" +:+ dd;
     dayOfWeek := DAY_MAP (getUTCDay ist);
     dayIndex := getUTCDay ist |}.

(** [getScheduledDays(frequency, customDays)]; [customDays] is [Some]
    exactly when [Array.isArray(customDays)]. *)
Definition getScheduledDays
    (frequency : option string) (customDays : option (list DayOfWeek))
    : list DayOfWeek :=
  if JS.strict_eq frequency "daily" then ALL_DAYS
  else if JS.strict_eq frequency "weekdays" then WEEKDAYS
  else
    match JS.strict_eq frequency "custom", customDays with
    | true, Some days => days
    | _, _ => []
    end.

(** *** Documents read from the store *)

(** A document of [menuItems]. *)
Module MenuDoc.
Record t := mk {
  id : string;
  name : option string;
  price : option Z;
  quantity : option Z;
  available : option bool;
  category : option string
}.
End MenuDoc.

(** A document of [autoOrders]. *)
Module AutoOrderDoc.
Record t := mk {
  id : string;
  userId : string;
  itemId : string;
  itemName : option string;
  itemPrice : option Z;
  quantity : option Z;
  time : option string;
  frequency : option string;
  customDays : option (list DayOfWeek);
  status : string
}.
End AutoOrderDoc.

(** The value of [menuMap]. *)
Module MenuItem.
Record t := mk {
  id : string;
  name : string;
  price : Z;
  stock : Z;
  available : bool;
  category : string
}.
End MenuItem.

Module EnrichedAutoOrder.
Record t := mk {
  id : string;
  userId : string;
  userName : string;
  itemId : string;
  itemName : string;
  itemPrice : Z;
  quantity : Z;
  time : string;
  frequency : string;
  customDays : option (list DayOfWeek);
  scheduledDays : list DayOfWeek;
  status : string
}.
End EnrichedAutoOrder.

(** The value of [demandMap]. *)
Module DemandEntry.
Record t := mk {
  itemId : string;
  itemName : string;
  day : DayOfWeek;
  totalQuantity : Z
}.
End DemandEntry.

(** The value of [dailyTotalMap]. *)
Module DailyTotal.
Record t := mk {
  itemId : string;
  itemName : string;
  totalDaily : Z
}.
End DailyTotal.

Module ForecastDayItem.
Record t := mk {
  itemId : string;
  itemName : string;
  demand : Z;
  currentStock : Z;
  cumulativeDemand : Z;
  remaining : Z;
  risk : bool
}.
End ForecastDayItem.

Module ForecastDay.
Record t := mk {
  date : string;
  dayName : DayOfWeek;
  items : list ForecastDayItem.t
}.
End ForecastDay.

Record Summary := mkSummary {
  totalActiveOrders : Z;
  itemsAtRisk : Z;
  dailyDemandByItem : list DailyTotal.t
}.

Record Report := mkReport {
  autoOrders : list EnrichedAutoOrder.t;
  aggregateDemand : list DemandEntry.t;
  forecast : list ForecastDay.t;
  summary : Summary
}.

(** *** [Array.prototype.sort] *)
Section Sort.
Context {A : Type} (cmp : A -> A -> Z).

(** [x] stood before every element of [l]: it stays first among equals. *)
Fixpoint insert_sorted (x : A) (l : list A) : list A :=
  match l with
  | [] => [x]
  | y :: r => if cmp x y <=? 0 then x :: y :: r else y :: insert_sorted x r
  end.

(** A stable sort by the comparator [cmp]. *)
Fixpoint js_sort (l : list A) : list A :=
  match l with
  | [] => []
  | x :: r => insert_sorted x (js_sort r)
  end.
End Sort.

(** [ALL_DAYS.indexOf(d)] *)
Definition day_index (d : DayOfWeek) : Z :=
  match d with
  | Mon => 0 | Tue => 1 | Wed => 2 | Thu => 3 | Fri => 4 | Sat => 5 | Sun => 6
  end.

(** The key of [demandMap]: the template [`${itemId}::${day}`]. *)
Definition demand_key (itemId : string) (day : DayOfWeek) : string :=
  itemId +:+ "::" +:+ day_tag day.

(** *** Steps 1 to 3 of [GET]: the lookup maps and the enriched orders *)

Definition menu_item (d : MenuDoc.t) : MenuItem.t :=
  {| MenuItem.id := MenuDoc.id d;
     MenuItem.name := JS.str_or (MenuDoc.name d) "Unknown";
     MenuItem.price := JS.num_or (MenuDoc.price d) 0;
     MenuItem.stock := JS.num_nullish (MenuDoc.quantity d) 0;
     MenuItem.available :=
       match MenuDoc.available d with Some false => false | _ => true end;
     MenuItem.category := JS.str_or (MenuDoc.category d) EmptyString |}.

Definition build_menuMap (docs : list MenuDoc.t) : JSMap.t MenuItem.t :=
  fold_left (fun m d => JSMap.set m (MenuDoc.id d) (menu_item d)) docs JSMap.empty.

(** [users] maps the id of an existing user document to its [name]
    field. *)
Definition user_name (users : gmap string (option string)) (id : string) : string :=
  match users !! id with
  | Some name => JS.str_or name "Unknown User"
  | None => "Unknown User"
  end.

Definition build_userMap
    (users : gmap string (option string)) (docs : list AutoOrderDoc.t)
    : gmap string string :=
  let userIds : gset string := list_to_set (map AutoOrderDoc.userId docs) in
  set_to_map (fun id => (id, user_name users id)) userIds.

(** [a || b] where [b] may itself be [undefined]. *)
Definition str_or_else (a b : option string) : option string :=
  match a with
  | Some EmptyString | None => b
  | Some s => Some s
  end.

Definition num_or_else (a b : option Z) : option Z :=
  match a with
  | Some v => if v =? 0 then b else Some v
  | None => b
  end.

Definition enrich
    (menuMap : JSMap.t MenuItem.t) (userMap : gmap string string)
    (d : AutoOrderDoc.t) : EnrichedAutoOrder.t :=
  let scheduledDays :=
    getScheduledDays (AutoOrderDoc.frequency d) (AutoOrderDoc.customDays d) in
  let item := JSMap.get menuMap (AutoOrderDoc.itemId d) in
  {| EnrichedAutoOrder.id := AutoOrderDoc.id d;
     EnrichedAutoOrder.userId := AutoOrderDoc.userId d;
     EnrichedAutoOrder.userName :=
       JS.str_or (userMap !! AutoOrderDoc.userId d) "Unknown User";
     EnrichedAutoOrder.itemId := AutoOrderDoc.itemId d;
     EnrichedAutoOrder.itemName :=
       JS.str_or (str_or_else (AutoOrderDoc.itemName d) (MenuItem.name <$> item))
         "Unknown";
     EnrichedAutoOrder.itemPrice :=
       JS.num_or (num_or_else (AutoOrderDoc.itemPrice d) (MenuItem.price <$> item)) 0;
     EnrichedAutoOrder.quantity := JS.num_or (AutoOrderDoc.quantity d) 1;
     EnrichedAutoOrder.time := JS.str_or (AutoOrderDoc.time d) "00:00";
     EnrichedAutoOrder.frequency := JS.str_or (AutoOrderDoc.frequency d) "daily";
     EnrichedAutoOrder.customDays := AutoOrderDoc.customDays d;
     EnrichedAutoOrder.scheduledDays := scheduledDays;
     EnrichedAutoOrder.status := AutoOrderDoc.status d |}.

(** *** Step 4: demand per item per day *)

Definition demand_add
    (order : EnrichedAutoOrder.t) (demandMap : JSMap.t DemandEntry.t)
    (day : DayOfWeek) : JSMap.t DemandEntry.t :=
  let key := demand_key (EnrichedAutoOrder.itemId order) day in
  match JSMap.get demandMap key with
  | Some existing =>
      JSMap.set demandMap key
        {| DemandEntry.itemId := DemandEntry.itemId existing;
           DemandEntry.itemName := DemandEntry.itemName existing;
           DemandEntry.day := DemandEntry.day existing;
           DemandEntry.totalQuantity :=
             DemandEntry.totalQuantity existing + EnrichedAutoOrder.quantity order |}
  | None =>
      JSMap.set demandMap key
        {| DemandEntry.itemId := EnrichedAutoOrder.itemId order;
           DemandEntry.itemName := EnrichedAutoOrder.itemName order;
           DemandEntry.day := day;
           DemandEntry.totalQuantity := EnrichedAutoOrder.quantity order |}
  end.

Definition demand_of_order
    (demandMap : JSMap.t DemandEntry.t) (order : EnrichedAutoOrder.t)
    : JSMap.t DemandEntry.t :=
  fold_left (demand_add order) (EnrichedAutoOrder.scheduledDays order) demandMap.

Definition build_demandMap (orders : list EnrichedAutoOrder.t) : JSMap.t DemandEntry.t :=
  fold_left demand_of_order orders JSMap.empty.

(** *** Step 5: the largest single-day demand per item *)

Definition daily_add
    (dailyTotalMap : JSMap.t DailyTotal.t) (entry : DemandEntry.t)
    : JSMap.t DailyTotal.t :=
  let key := DemandEntry.itemId entry in
  match JSMap.get dailyTotalMap key with
  | Some existing =>
      JSMap.set dailyTotalMap key
        {| DailyTotal.itemId := DailyTotal.itemId existing;
           DailyTotal.itemName := DailyTotal.itemName existing;
           DailyTotal.totalDaily :=
             Z.max (DailyTotal.totalDaily existing) (DemandEntry.totalQuantity entry) |}
  | None =>
      JSMap.set dailyTotalMap key
        {| DailyTotal.itemId := DemandEntry.itemId entry;
           DailyTotal.itemName := DemandEntry.itemName entry;
           DailyTotal.totalDaily := DemandEntry.totalQuantity entry |}
  end.

Definition build_dailyTotalMap (aggregate : list DemandEntry.t) : JSMap.t DailyTotal.t :=
  fold_left daily_add aggregate JSMap.empty.

(** *** Step 6: the seven-day walk *)

(** The body of the loop over [menuMap.entries()]. *)
Definition item_step
    (demandMap : JSMap.t DemandEntry.t) (dayOfWeek : DayOfWeek)
    (acc : gmap string Z * list ForecastDayItem.t) (e : string * MenuItem.t)
    : gmap string Z * list ForecastDayItem.t :=
  let '(cumulativeDemandTracker, dayItems) := acc in
  let '(itemId, menuItem) := e in
  let demandKey := demand_key itemId dayOfWeek in
  let demandEntry := JSMap.get demandMap demandKey in
  let todayDemand := JS.num_or (DemandEntry.totalQuantity <$> demandEntry) 0 in
  if todayDemand =? 0 then acc
  else
    let prevCumulative := JS.num_or (cumulativeDemandTracker !! itemId) 0 in
    let newCumulative := prevCumulative + todayDemand in
    let remaining := MenuItem.stock menuItem - newCumulative in
    (<[ itemId := newCumulative ]> cumulativeDemandTracker,
     (dayItems ++ [ {| ForecastDayItem.itemId := itemId;
                      ForecastDayItem.itemName := MenuItem.name menuItem;
                      ForecastDayItem.demand := todayDemand;
                      ForecastDayItem.currentStock := MenuItem.stock menuItem;
                      ForecastDayItem.cumulativeDemand := newCumulative;
                      ForecastDayItem.remaining := remaining;
                      ForecastDayItem.risk := remaining <? 0 |} ])%list).

Section WithCollation.
(** [String.prototype.localeCompare] of the runtime's locale. *)
Context (localeCompare : string -> string -> Z).

(** The comparator of [aggregateDemand]: [c || (i - j)]. *)
Definition demand_cmp (a b : DemandEntry.t) : Z :=
  let c := localeCompare (DemandEntry.itemName a) (DemandEntry.itemName b) in
  if c =? 0 then day_index (DemandEntry.day a) - day_index (DemandEntry.day b)
  else c.

(** The comparator of [dayItems]: risky items first, then by name. *)
Definition item_cmp (a b : ForecastDayItem.t) : Z :=
  if negb (Bool.eqb (ForecastDayItem.risk a) (ForecastDayItem.risk b)) then
    if ForecastDayItem.risk a then -1 else 1
  else localeCompare (ForecastDayItem.itemName a) (ForecastDayItem.itemName b).

(** The body of the loop over [offset]. *)
Definition day_step
    (menuMap : JSMap.t MenuItem.t) (demandMap : JSMap.t DemandEntry.t) (now : Z)
    (acc : gmap string Z * list ForecastDay.t) (offset : Z)
    : gmap string Z * list ForecastDay.t :=
  let '(cumulativeDemandTracker, forecast) := acc in
  let futureDate := now + offset * 24 * 60 * 60 * 1000 in
  let ist := getISTDate futureDate in
  let '(tracker, dayItems) :=
    fold_left (item_step demandMap (dayOfWeek ist)) (JSMap.entries menuMap)
      (cumulativeDemandTracker, []) in
  (tracker,
   (forecast ++ [ {| ForecastDay.date := dateStr ist;
                    ForecastDay.dayName := dayOfWeek ist;
                    ForecastDay.items := js_sort item_cmp dayItems |} ])%list).

Definition offsets : list Z := [0; 1; 2; 3; 4; 5; 6].

Definition walk
    (menuMap : JSMap.t MenuItem.t) (demandMap : JSMap.t DemandEntry.t) (now : Z)
    : gmap string Z * list ForecastDay.t :=
  fold_left (day_step menuMap demandMap now) offsets (∅, []).

(** *** Step 7: the items flagged on some day *)
Definition risk_ids (forecast : list ForecastDay.t) : gset string :=
  list_to_set
    (map ForecastDayItem.itemId
       (filter (fun i => ForecastDayItem.risk i = true)
          (concat (map ForecastDay.items forecast)))).

(** [GET] once the admin token is verified: [autoOrderDocs] is the
    collection [autoOrders], [menuDocs] the collection [menuItems],
    [users] the collection [users], [now] is [new Date().getTime()]. *)
Definition GET
    (autoOrderDocs : list AutoOrderDoc.t) (menuDocs : list MenuDoc.t)
    (users : gmap string (option string)) (now : Z) : Report :=
  let active :=
    filter (fun d => AutoOrderDoc.status d = "active") autoOrderDocs in
  let menuMap := build_menuMap menuDocs in
  let userMap := build_userMap users active in
  let autoOrders := map (enrich menuMap userMap) active in
  let demandMap := build_demandMap autoOrders in
  let aggregateDemand := js_sort demand_cmp (JSMap.values demandMap) in
  let dailyTotalMap := build_dailyTotalMap aggregateDemand in
  let forecast := (walk menuMap demandMap now).2 in
  {| autoOrders := autoOrders;
     aggregateDemand := aggregateDemand;
     forecast := forecast;
     summary :=
       {| totalActiveOrders := Z.of_nat (length autoOrders);
          itemsAtRisk := Z.of_nat (size (risk_ids forecast));
          dailyDemandByItem :=
            js_sort (fun a b => DailyTotal.totalDaily b - DailyTotal.totalDaily a)
              (JSMap.values dailyTotalMap) |} |}.
End WithCollation.

End Forecast.

(** ** The ledger rules as the specification words them *)
Module LedgerSpec.
Import Ledger.

(** The effect column of the transition table. *)
Record Effect := mkEffect {
  d_pendingAmount : Z;
  d_totalBalance : Z;
  d_todayCollection : Z;
  logged_type : option TxnType
}.

Definition is_active (s : string) : bool :=
  bool_decide (s ∈ ["confirmed"; "preparing"; "ready"]).

(** The transition table, row by row; [None] when no row has an effect. *)
Definition table (oldStatus newStatus : string) (a : Z) : option Effect :=
  if String.eqb oldStatus "pending" && is_active newStatus then
    Some (mkEffect a 0 0 None)
  else if is_active oldStatus && String.eqb newStatus "completed" then
    Some (mkEffect (- a) a a (Some credit))
  else if String.eqb oldStatus "pending" && String.eqb newStatus "completed" then
    Some (mkEffect 0 a a (Some credit))
  else if is_active oldStatus && String.eqb newStatus "cancelled" then
    Some (mkEffect (- a) 0 0 None)
  else if String.eqb oldStatus "completed" && String.eqb newStatus "cancelled" then
    Some (mkEffect 0 (- a) 0 (Some refund_deduction))
  else None.

(** The current date of a call made at [now]. *)
Definition today (now : string) : string := JS.split_head "T" now.

(** The wallet the deltas are applied to: a missing wallet is created
    zeroed; a wallet of an earlier day has its collection reset. *)
Definition base_wallet (st : Store) (now : string) : Wallet :=
  match wallet st with
  | None =>
      {| totalBalance := 0; pendingAmount := 0; todayCollection := 0;
         todayDate := today now; lastUpdated := now |}
  | Some w =>
      if String.eqb (todayDate w) (today now) then w
      else
        {| totalBalance := totalBalance w; pendingAmount := pendingAmount w;
           todayCollection := 0; todayDate := today now;
           lastUpdated := lastUpdated w |}
  end.

Definition apply_effect (now : string) (e : option Effect) (w : Wallet) : Wallet :=
  match e with
  | None => w
  | Some e =>
      {| totalBalance := totalBalance w + d_totalBalance e;
         pendingAmount := pendingAmount w + d_pendingAmount e;
         todayCollection := todayCollection w + d_todayCollection e;
         todayDate := todayDate w;
         lastUpdated := now |}
  end.

(** The log after the call: one entry of the row's type, or none. *)
Definition logged
    (e : option Effect) (a : Z) (orderId : string)
    (before after : list WalletTransaction) : Prop :=
  match e ≫= logged_type with
  | Some ty =>
      ∃ t, after = (before ++ [t])%list ∧ amount t = a ∧ type t = ty ∧
           Ledger.orderId t = Some orderId
  | None => after = before
  end.

(** What a completion contributes to today's collection. *)
Definition contribution (oldStatus newStatus : string) (a : Z) : Z :=
  match table oldStatus newStatus a with
  | Some e => d_todayCollection e
  | None => 0
  end.

(** *** The writes of a call, in two groups *)

(** Initialisation of a missing wallet, or the reset of a new day. *)
Definition init_writes (st : Store) (now : string) : list Write :=
  match wallet st with
  | None =>
      [SetWallet {| totalBalance := 0; pendingAmount := 0; todayCollection := 0;
                    todayDate := today now; lastUpdated := now |}]
  | Some data =>
      if String.eqb (todayDate data) (today now) then []
      else [UpdateWallet (<[ "todayDate" := StrVal (today now) ]>
                            {[ "todayCollection" := NumVal 0 ]})]
  end.

(** The wallet update and the log entry of the status pair. *)
Definition transition_writes
    (p : gmap string FieldValue * option WalletTransaction) : list Write :=
  ((if 1 <? Z.of_nat (size p.1) then [UpdateWallet p.1] else []) ++
   match p.2 with Some t => [AddCanteenTransaction t] | None => [] end)%list.

(** The store after a successful withdrawal of [a] from wallet [w]. *)
Definition withdrawn (now : string) (a : Z) (st : Store) (w : Wallet) : Store :=
  {| wallet := Some {| totalBalance := totalBalance w - a;
                       pendingAmount := pendingAmount w;
                       todayCollection := todayCollection w;
                       todayDate := todayDate w;
                       lastUpdated := now |};
     canteenTransactions :=
       (canteenTransactions st ++
        [{| amount := a; type := withdrawal; orderId := None;
            description := "Wallet Withdrawal"; createdAt := now |}])%list;
     withdrawals :=
       (withdrawals st ++
        [{| wd_amount := a; wd_status := "completed";
            requestedAt := now; processedAt := now |}])%list |}.

(** *** The five classes of status strings the code distinguishes *)
Inductive StatusClass := CPending | CActive | CCompleted | CCancelled | COther.

Definition classify (s : string) : StatusClass :=
  if String.eqb s "pending" then CPending
  else if includes active_statuses s then CActive
  else if String.eqb s "completed" then CCompleted
  else if String.eqb s "cancelled" then CCancelled
  else COther.

(** *** Wallets of the worked examples *)
Definition stale_wallet : Wallet :=
  {| totalBalance := 0; pendingAmount := 0; todayCollection := 500;
     todayDate := "2024-01-01"; lastUpdated := "2024-01-01T09:00:00.000Z" |}.

Definition stale_store : Store :=
  {| wallet := Some stale_wallet; canteenTransactions := []; withdrawals := [] |}.

Definition settled_wallet : Wallet :=
  {| totalBalance := 1000; pendingAmount := 250; todayCollection := 40;
     todayDate := "2024-01-02"; lastUpdated := "2024-01-02T08:00:00.000Z" |}.

Definition settled_store : Store :=
  {| wallet := Some settled_wallet; canteenTransactions := []; withdrawals := [] |}.

End LedgerSpec.

(** ** The forecast as the specification words it *)
Module ForecastSpec.
Import Forecast.

(** The calendar day the walk resolves for an offset. *)
Definition future (now : Z) (offset : nat) : ISTDate :=
  getISTDate (now + Z.of_nat offset * 24 * 60 * 60 * 1000).

Definition weekday (now : Z) (offset : nat) : DayOfWeek := dayOfWeek (future now offset).

(** What one order adds to the demand of [item] on [day]: its quantity,
    once for every time [day] is listed in its schedule. *)
Definition order_demand (o : EnrichedAutoOrder.t) (item : string) (day : DayOfWeek) : Z :=
  if String.eqb (EnrichedAutoOrder.itemId o) item then
    EnrichedAutoOrder.quantity o *
    Z.of_nat (count_occ DayOfWeek_eq_dec (EnrichedAutoOrder.scheduledDays o) day)
  else 0.

(** Aggregated demand: the sum over all orders. *)
Fixpoint demand_total
    (orders : list EnrichedAutoOrder.t) (item : string) (day : DayOfWeek) : Z :=
  match orders with
  | [] => 0
  | o :: r => order_demand o item day + demand_total r item day
  end.

(** The demand a list of demand records carries for [item] on [day]. *)
Fixpoint demand_of
    (agg : list DemandEntry.t) (item : string) (day : DayOfWeek) : Z :=
  match agg with
  | [] => 0
  | e :: r =>
      (if String.eqb (DemandEntry.itemId e) item && bool_decide (DemandEntry.day e = day)
       then DemandEntry.totalQuantity e else 0) + demand_of r item day
  end.

(** Every record of [demandMap] sits under the key of its own item and
    day, and no key occurs twice. *)
Definition keyed (m : JSMap.t DemandEntry.t) : Prop :=
  NoDup (JSMap.keys m) ∧
  ∀ k e, (k, e) ∈ m → k = demand_key (DemandEntry.itemId e) (DemandEntry.day e).

(** [dailyTotalMap] after the records [l]: one row per item id, holding
    a quantity that occurs among the records of the item and bounds them
    all. *)
Definition daily_max (l : list DemandEntry.t) (m : JSMap.t DailyTotal.t) : Prop :=
  NoDup (JSMap.keys m) ∧
  (∀ k r, (k, r) ∈ m →
     DailyTotal.itemId r = k ∧
     ∃ e, e ∈ l ∧ DemandEntry.itemId e = k ∧
          DemandEntry.totalQuantity e = DailyTotal.totalDaily r) ∧
  (∀ e, e ∈ l →
     ∃ r, JSMap.get m (DemandEntry.itemId e) = Some r ∧
          DemandEntry.totalQuantity e <= DailyTotal.totalDaily r).

(** A menu document with its stock replaced. *)
Definition with_stock (d : MenuDoc.t) (s : Z) : MenuDoc.t :=
  {| MenuDoc.id := MenuDoc.id d; MenuDoc.name := MenuDoc.name d;
     MenuDoc.price := MenuDoc.price d; MenuDoc.quantity := Some s;
     MenuDoc.available := MenuDoc.available d;
     MenuDoc.category := MenuDoc.category d |}.

(** An auto-order document with its quantity replaced. *)
Definition with_quantity (d : AutoOrderDoc.t) (q : option Z) : AutoOrderDoc.t :=
  {| AutoOrderDoc.id := AutoOrderDoc.id d;
     AutoOrderDoc.userId := AutoOrderDoc.userId d;
     AutoOrderDoc.itemId := AutoOrderDoc.itemId d;
     AutoOrderDoc.itemName := AutoOrderDoc.itemName d;
     AutoOrderDoc.itemPrice := AutoOrderDoc.itemPrice d;
     AutoOrderDoc.quantity := q;
     AutoOrderDoc.time := AutoOrderDoc.time d;
     AutoOrderDoc.frequency := AutoOrderDoc.frequency d;
     AutoOrderDoc.customDays := AutoOrderDoc.customDays d;
     AutoOrderDoc.status := AutoOrderDoc.status d |}.

(** The days an auto-order document is scheduled on. *)
Definition scheduled (d : AutoOrderDoc.t) : list DayOfWeek :=
  getScheduledDays (AutoOrderDoc.frequency d) (AutoOrderDoc.customDays d).

(** The auto-orders [GET] reads: those whose status is ["active"]. *)
Definition active (docs : list AutoOrderDoc.t) : list AutoOrderDoc.t :=
  filter (fun d => AutoOrderDoc.status d = "active") docs.

(** Stock may only have dropped from [m1] to [m2]. *)
Definition stock_le (m1 m2 : JSMap.t MenuItem.t) : Prop :=
  ∀ id mi, JSMap.get m1 id = Some mi →
    ∃ mi', JSMap.get m2 id = Some mi' ∧ MenuItem.stock mi' <= MenuItem.stock mi.

(** The aggregated demand of a report, from the orders it lists. *)
Definition demand (r : Report) : string -> DayOfWeek -> Z :=
  demand_total (autoOrders r).

(** The demand [item_step] reads from [demandMap]. *)
Definition read_demand
    (demandMap : JSMap.t DemandEntry.t) (item : string) (day : DayOfWeek) : Z :=
  JS.num_or (DemandEntry.totalQuantity <$> JSMap.get demandMap (demand_key item day)) 0.

(** Alphabetical order of two rows under the collation. *)
Definition by_name
    (localeCompare : string -> string -> Z) (a b : ForecastDayItem.t) : Prop :=
  localeCompare (ForecastDayItem.itemName a) (ForecastDayItem.itemName b) <= 0.

(** The row [item_step] pushes for a menu entry, given the cumulative
    demand [prev] of the days before. *)
Definition row_of
    (dem : string -> DayOfWeek -> Z) (day : DayOfWeek) (prev : string -> Z)
    (e : string * MenuItem.t) : list ForecastDayItem.t :=
  let demand := dem e.1 day in
  if demand =? 0 then []
  else
    [ {| ForecastDayItem.itemId := e.1;
         ForecastDayItem.itemName := MenuItem.name e.2;
         ForecastDayItem.demand := demand;
         ForecastDayItem.currentStock := MenuItem.stock e.2;
         ForecastDayItem.cumulativeDemand := prev e.1 + demand;
         ForecastDayItem.remaining := MenuItem.stock e.2 - (prev e.1 + demand);
         ForecastDayItem.risk := MenuItem.stock e.2 - (prev e.1 + demand) <? 0 |} ].

(** [cumulativeDemandTracker.get(id) || 0] *)
Definition tracked (t : gmap string Z) (id : string) : Z := JS.num_or (t !! id) 0.

Section Walk.
(** Demand per item and weekday, and the reference instant. *)
Context (dem : string -> DayOfWeek -> Z) (now : Z).

(** The running sum of an item's demand over offsets [0..k]. *)
Fixpoint cumulative (item : string) (k : nat) : Z :=
  match k with
  | O => dem item (weekday now 0)
  | S k' => cumulative item k' + dem item (weekday now k)
  end.

(** The running sum before offset [k]. *)
Definition cumulative_before (item : string) (k : nat) : Z :=
  match k with
  | O => 0
  | S k' => cumulative item k'
  end.

(** The row of a menu item on offset [k], if it has demand that day. *)
Definition expected_item (k : nat) (e : string * MenuItem.t) : list ForecastDayItem.t :=
  let demand := dem e.1 (weekday now k) in
  if demand =? 0 then []
  else
    let remaining := MenuItem.stock e.2 - cumulative e.1 k in
    [ {| ForecastDayItem.itemId := e.1;
         ForecastDayItem.itemName := MenuItem.name e.2;
         ForecastDayItem.demand := demand;
         ForecastDayItem.currentStock := MenuItem.stock e.2;
         ForecastDayItem.cumulativeDemand := cumulative e.1 k;
         ForecastDayItem.remaining := remaining;
         ForecastDayItem.risk := remaining <? 0 |} ].

Definition expected_items (menuMap : JSMap.t MenuItem.t) (k : nat)
    : list ForecastDayItem.t :=
  flat_map (expected_item k) menuMap.

Definition expected_day
    (localeCompare : string -> string -> Z) (menuMap : JSMap.t MenuItem.t) (k : nat)
    : ForecastDay.t :=
  {| ForecastDay.date := dateStr (future now k);
     ForecastDay.dayName := weekday now k;
     ForecastDay.items := js_sort (item_cmp localeCompare) (expected_items menuMap k) |}.

Definition expected_forecast
    (localeCompare : string -> string -> Z) (menuMap : JSMap.t MenuItem.t)
    : list ForecastDay.t :=
  map (expected_day localeCompare menuMap) (seq 0 7).
End Walk.

(** *** Inputs of the worked examples *)

(** A collation: comparison by character codes. *)
Definition code_compare (a b : string) : Z :=
  match String.compare a b with
  | Lt => -1
  | Eq => 0
  | Gt => 1
  end.

(** Monday 2024-01-01, 09:00 in India. *)
Definition monday_morning : Z := 1704079800000.

Definition samosa : MenuDoc.t :=
  {| MenuDoc.id := "i1"; MenuDoc.name := Some "Samosa"; MenuDoc.price := Some 12;
     MenuDoc.quantity := Some 10; MenuDoc.available := Some true;
     MenuDoc.category := Some "snacks" |}.

Definition chai : MenuDoc.t :=
  {| MenuDoc.id := "i2"; MenuDoc.name := Some "Chai"; MenuDoc.price := Some 10;
     MenuDoc.quantity := Some 100; MenuDoc.available := None;
     MenuDoc.category := None |}.

(** Four samosas every day. *)
Definition samosa_daily : AutoOrderDoc.t :=
  {| AutoOrderDoc.id := "a1"; AutoOrderDoc.userId := "u1";
     AutoOrderDoc.itemId := "i1"; AutoOrderDoc.itemName := None;
     AutoOrderDoc.itemPrice := None; AutoOrderDoc.quantity := Some 4;
     AutoOrderDoc.time := Some "08:30"; AutoOrderDoc.frequency := Some "daily";
     AutoOrderDoc.customDays := None; AutoOrderDoc.status := "active" |}.

(** A chai on weekdays, quantity left out. *)
Definition chai_weekdays : AutoOrderDoc.t :=
  {| AutoOrderDoc.id := "a2"; AutoOrderDoc.userId := "u2";
     AutoOrderDoc.itemId := "i2"; AutoOrderDoc.itemName := None;
     AutoOrderDoc.itemPrice := None; AutoOrderDoc.quantity := None;
     AutoOrderDoc.time := None; AutoOrderDoc.frequency := Some "weekdays";
     AutoOrderDoc.customDays := None; AutoOrderDoc.status := "active" |}.

(** A chai order with a frequency the route does not know. *)
Definition chai_monthly : AutoOrderDoc.t :=
  {| AutoOrderDoc.id := "a3"; AutoOrderDoc.userId := "u3";
     AutoOrderDoc.itemId := "i2"; AutoOrderDoc.itemName := None;
     AutoOrderDoc.itemPrice := None; AutoOrderDoc.quantity := Some 50;
     AutoOrderDoc.time := None; AutoOrderDoc.frequency := Some "monthly";
     AutoOrderDoc.customDays := Some [Mon; Tue]; AutoOrderDoc.status := "active" |}.

(** Chai on Mondays, listed twice, quantity left out. *)
Definition chai_monday_twice : AutoOrderDoc.t :=
  {| AutoOrderDoc.id := "a4"; AutoOrderDoc.userId := "u4";
     AutoOrderDoc.itemId := "i2"; AutoOrderDoc.itemName := None;
     AutoOrderDoc.itemPrice := None; AutoOrderDoc.quantity := None;
     AutoOrderDoc.time := None; AutoOrderDoc.frequency := Some "custom";
     AutoOrderDoc.customDays := Some [Mon; Mon]; AutoOrderDoc.status := "active" |}.

End ForecastSpec.

(** ** [Date.prototype.toISOString] *)
Module Clock.
Import Forecast.

(** The largest time value of a [Date], in milliseconds either side of
    the epoch. *)
Definition MAX_TIME : Z := 8640000000000000.

(** [s.padStart(n, "0")] *)
Definition padStart (n : nat) (s : string) : string :=
  String.concat EmptyString (repeat "0" (n - String.length s)) +:+ s.

(** Four digits for the years 0 to 9999, a sign and six digits
    otherwise. *)
Definition year_string (y : Z) : string :=
  if (0 <=? y) && (y <=? 9999) then padStart 4 (pretty y)
  else if y <? 0 then "-" +:+ padStart 6 (pretty (- y))
  else "+" +:+ padStart 6 (pretty y).

(** [new Date(t).toISOString()]; [None] stands for the [RangeError] of
    an invalid date. *)
Definition toISOString (t : Z) : option string :=
  if (- MAX_TIME <=? t) && (t <=? MAX_TIME) then
    Some (year_string (getUTCFullYear t) +:+ "-" +:+
          padStart 2 (pretty (getUTCMonth t + 1)) +:+ "-" +:+
          padStart 2 (pretty (getUTCDate t)) +:+ "T" +:+
          padStart 2 (pretty ((t / 3600000) mod 24)) +:+ ":" +:+
          padStart 2 (pretty ((t / 60000) mod 60)) +:+ ":" +:+
          padStart 2 (pretty ((t / 1000) mod 60)) +:+ "." +:+
          padStart 3 (pretty (t mod 1000)) +:+ "Z")
  else None.

End Clock.

(** ** The admin orders route: status updates, cancellation and refund *)
Module Orders.
Import Ledger.

(** A document of [orders], with the fields [PATCH] reads or writes;
    [None] in [readyAt] and [estimatedReadyAt] is [null]. *)
Record Order := mkOrder {
  status : string;
  userId : string;
  total : Z;
  orderId : string;
  updatedAt : string;
  prepTime : option Z;
  estimatedReadyAt : option string;
  readyAt : option string
}.

(** A document of [walletTransactions]. *)
Record UserTransaction := mkUserTransaction {
  ut_userId : string;
  ut_type : string;
  ut_amount : Z;
  ut_description : string;
  transactionId : string;
  ut_createdAt : string
}.

(** The collections the route touches; a user document is its
    [walletBalance]. *)
Record Db := mkDb {
  ledger : Store;
  orders : gmap string Order;
  users : gmap string Z;
  walletTransactions : list UserTransaction
}.

(** The object [updateData]: an absent key is [None]. *)
Record OrderUpdate := mkOrderUpdate {
  u_updatedAt : option string;
  u_status : option string;
  u_prepTime : option Z;
  u_estimatedReadyAt : option (option string);
  u_readyAt : option (option string)
}.

Inductive DbWrite :=
| WalletWrite (w : Write)
| UpdateOrder (id : string) (u : OrderUpdate)
| IncrementUserBalance (id : string) (d : Z)
| AddUserTransaction (t : UserTransaction).

Definition update_order (u : OrderUpdate) (o : Order) : Order :=
  {| status := default (status o) (u_status u);
     userId := userId o;
     total := total o;
     orderId := orderId o;
     updatedAt := default (updatedAt o) (u_updatedAt u);
     prepTime := match u_prepTime u with Some p => Some p | None => prepTime o end;
     estimatedReadyAt := default (estimatedReadyAt o) (u_estimatedReadyAt u);
     readyAt := default (readyAt o) (u_readyAt u) |}.

(** One buffered write; [update] of a missing document fails. *)
Definition apply_db_write (db : Db) (w : DbWrite) : option Db :=
  match w with
  | WalletWrite w =>
      st ← apply_write (ledger db) w;
      Some {| ledger := st; orders := orders db; users := users db;
              walletTransactions := walletTransactions db |}
  | UpdateOrder id u =>
      o ← orders db !! id;
      Some {| ledger := ledger db; orders := <[ id := update_order u o ]> (orders db);
              users := users db; walletTransactions := walletTransactions db |}
  | IncrementUserBalance id d =>
      b ← users db !! id;
      Some {| ledger := ledger db; orders := orders db;
              users := <[ id := b + d ]> (users db);
              walletTransactions := walletTransactions db |}
  | AddUserTransaction t =>
      Some {| ledger := ledger db; orders := orders db; users := users db;
              walletTransactions := (walletTransactions db ++ [t])%list |}
  end.

Fixpoint commit_db (db : Db) (ws : list DbWrite) : option Db :=
  match ws with
  | [] => Some db
  | w :: r =>
      match apply_db_write db w with
      | Some db' => commit_db db' r
      | None => None
      end
  end.

(** *** The transaction over the whole database *)
Inductive DbOutcome (A : Type) :=
| DbDone (a : A) (ws : list DbWrite)
| DbThrow (msg : string).
Arguments DbDone {A} a ws.
Arguments DbThrow {A} msg.

Definition DbTxn (A : Type) := Db -> list DbWrite -> DbOutcome A.

#[global] Instance dbtxn_ret : MRet DbTxn := fun A a _ ws => DbDone a ws.

#[global] Instance dbtxn_bind : MBind DbTxn := fun A B f m db ws =>
  match m db ws with
  | DbDone a ws' => f a db ws'
  | DbThrow e => DbThrow e
  end.

Definition db_get_order (id : string) : DbTxn (option Order) :=
  fun db ws => DbDone (orders db !! id) ws.

Definition db_write (w : DbWrite) : DbTxn unit :=
  fun _ ws => DbDone tt (ws ++ [w])%list.

Definition db_throw {A} (msg : string) : DbTxn A := fun _ _ => DbThrow msg.

(** A function of the wallet library called with this transaction: its
    read sees the wallet of the snapshot, its writes join the buffer. *)
Definition with_wallet {A} (m : Txn A) : DbTxn A :=
  fun db ws =>
    match m (ledger db) [] with
    | Done a lws => DbDone a (ws ++ map WalletWrite lws)%list
    | Throw e => DbThrow e
    end.

Definition runDbTransaction {A} (db : Db) (body : DbTxn A) : Db * option string :=
  match body db [] with
  | DbDone _ ws =>
      match commit_db db ws with
      | Some db' => (db', None)
      | None => (db, Some commit_failed)
      end
  | DbThrow e => (db, Some e)
  end.

(** [!s] on a string field. *)
Definition str_falsy (s : option string) : bool :=
  match s with
  | Some EmptyString | None => true
  | Some _ => false
  end.

(** The block of [PATCH] that cancels and refunds. *)
Definition cancel_block
    (now newTxnId : string) (id : string) (orderData : Order) : DbTxn unit :=
  let oldStatus := status orderData in
  if String.eqb oldStatus "cancelled" then db_throw "Order is already cancelled"
  else
    let userId := userId orderData in
    let total := total orderData in
    let orderIdDisplay := orderId orderData in
    with_wallet (updateCanteenWallet now oldStatus "cancelled" total orderIdDisplay);;
    db_write (UpdateOrder id
      {| u_updatedAt := Some now; u_status := Some "cancelled"; u_prepTime := None;
         u_estimatedReadyAt := None; u_readyAt := None |});;
    db_write (IncrementUserBalance userId total);;
    db_write (AddUserTransaction
      {| ut_userId := userId; ut_type := "refund"; ut_amount := total;
         ut_description := "Refund - Order #" +:+ orderIdDisplay +:+ " Cancelled";
         transactionId := newTxnId; ut_createdAt := now |}).

(** [if (x)] on a number field. *)
Definition num_truthy (x : option Z) : option Z :=
  match x with
  | Some v => if v =? 0 then None else Some v
  | None => None
  end.

Definition empty_update (now : string) : OrderUpdate :=
  {| u_updatedAt := Some now; u_status := None; u_prepTime := None;
     u_estimatedReadyAt := None; u_readyAt := None |}.

Definition set_ready (v : option string) (u : OrderUpdate) : OrderUpdate :=
  {| u_updatedAt := u_updatedAt u; u_status := u_status u; u_prepTime := u_prepTime u;
     u_estimatedReadyAt := Some v; u_readyAt := Some v |}.

Definition set_prepTime (p : Z) (u : OrderUpdate) : OrderUpdate :=
  {| u_updatedAt := u_updatedAt u; u_status := u_status u; u_prepTime := Some p;
     u_estimatedReadyAt := u_estimatedReadyAt u; u_readyAt := u_readyAt u |}.

Definition set_status (s : string) (u : OrderUpdate) : OrderUpdate :=
  {| u_updatedAt := u_updatedAt u; u_status := Some s; u_prepTime := u_prepTime u;
     u_estimatedReadyAt := u_estimatedReadyAt u; u_readyAt := u_readyAt u |}.

(** The block of [PATCH] that updates the status or the preparation
    time; [nowMs] is [Date.now()]. *)
Definition update_block
    (now : string) (nowMs : Z) (id : string) (orderData : Order)
    (status : option string) (prepTime : option Z) : DbTxn unit :=
  let oldStatus := Orders.status orderData in
  let updateData := empty_update now in
  let newStatus := JS.str_or status oldStatus in
  let updateData :=
    if String.eqb newStatus "ready" then set_ready None updateData else updateData in
  '(updateData, newStatus) ←
    match num_truthy prepTime with
    | Some p =>
        match Clock.toISOString (nowMs + p * 60 * 1000) with
        | Some readyAtISO =>
            mret (set_ready (Some readyAtISO) (set_prepTime p updateData),
                  if str_falsy status && String.eqb oldStatus "pending"
                  then "confirmed" else newStatus)
        | None => db_throw "Invalid time value"
        end
    | None => mret (updateData, newStatus)
    end;
  updateData ←
    (if negb (String.eqb newStatus oldStatus) then
       with_wallet (updateCanteenWallet now oldStatus newStatus
                      (total orderData) (orderId orderData));;
       mret (set_status newStatus updateData)
     else mret updateData);
  db_write (UpdateOrder id updateData).

Definition patch_body
    (now : string) (nowMs : Z) (newTxnId : string) (id : string)
    (status : option string) (prepTime : option Z) : DbTxn unit :=
  orderDoc ← db_get_order id;
  match orderDoc with
  | None => db_throw "Order not found"
  | Some orderData =>
      if JS.strict_eq status "cancelled" then cancel_block now newTxnId id orderData
      else update_block now nowMs id orderData status prepTime
  end.

Inductive Response :=
| JsonOk (refunded : bool)
| JsonError (code : Z) (error : string).

(** [PATCH]: [authorized] is [verifyAdmin(req)], [now] is
    [new Date().toISOString()], [nowMs] is [Date.now()], [newTxnId] is the
    id of the fresh [walletTransactions] document; the other arguments
    are the fields of the request body, which is taken to parse to an
    object whose [orderId] and [status], when present, are strings and
    whose [prepTime], when present, is an integer. *)
Definition PATCH
    (db : Db) (authorized : bool) (now : string) (nowMs : Z) (newTxnId : string)
    (orderId status : option string) (prepTime : option Z) : Db * Response :=
  if negb authorized then (db, JsonError 401 "Unauthorized")
  else
    match orderId with
    | None | Some EmptyString => (db, JsonError 400 "Order ID required")
    | Some id =>
        match runDbTransaction db (patch_body now nowMs newTxnId id status prepTime) with
        | (db', None) => (db', JsonOk (JS.strict_eq status "cancelled"))
        | (db', Some message) => (db', JsonError 500 message)
        end
    end.

End Orders.

(** ** Views of the stores used to state further properties *)
Module Views.
Import Ledger.


(** The statuses between confirmation and completion. *)
Definition active_status (s : string) : Prop :=
  s = "confirmed" ∨ s = "preparing" ∨ s = "ready".

End Views.

(** ** The orders route as its parts *)
Module OrdersSpec.
Import Ledger Orders.

(** The order document after its cancellation at [now]. *)
Definition cancelled_order (now : string) (o : Order) : Order :=
  {| status := "cancelled"; userId := userId o; total := total o;
     orderId := orderId o; updatedAt := now; prepTime := prepTime o;
     estimatedReadyAt := estimatedReadyAt o; readyAt := readyAt o |}.

(** The refund entry written for the customer. *)
Definition refund_entry (now newTxnId : string) (o : Order) : UserTransaction :=
  {| ut_userId := userId o; ut_type := "refund"; ut_amount := total o;
     ut_description := "Refund - Order #" +:+ orderId o +:+ " Cancelled";
     transactionId := newTxnId; ut_createdAt := now |}.

(** The canteen wallet after the transition of order [o] to [newStatus]. *)
Definition synced_ledger (db : Db) (now : string) (o : Order) (newStatus : string)
    : Store :=
  (applyTransition (ledger db) now (status o) newStatus (total o) (orderId o)).1.

(** The database after the cancellation of order [o], stored under [id],
    whose customer holds the balance [b]. *)
Definition cancel_result
    (db : Db) (now newTxnId : string) (id : string) (o : Order) (b : Z) : Db :=
  {| ledger := synced_ledger db now o "cancelled";
     orders := <[ id := cancelled_order now o ]> (orders db);
     users := <[ userId o := b + total o ]> (users db);
     walletTransactions :=
       (walletTransactions db ++ [refund_entry now newTxnId o])%list |}.

(** The end of [update_block]: the wallet call when the status changes,
    then the write of [updateData]. *)
Definition finish_update
    (now : string) (id : string) (orderData : Order)
    (updateData : OrderUpdate) (newStatus : string) : DbTxn unit :=
  updateData ←
    (if negb (String.eqb newStatus (status orderData)) then
       with_wallet (updateCanteenWallet now (status orderData) newStatus
                      (total orderData) (orderId orderData));;
       mret (set_status newStatus updateData)
     else mret updateData);
  db_write (UpdateOrder id updateData).

(** The database after [finish_update]. *)
Definition update_result
    (db : Db) (now : string) (id : string) (o : Order)
    (updateData : OrderUpdate) (newStatus : string) : Db :=
  {| ledger := synced_ledger db now o newStatus;
     orders :=
       <[ id := update_order
                  (if negb (String.eqb newStatus (status o))
                   then set_status newStatus updateData else updateData) o ]>
         (orders db);
     users := users db;
     walletTransactions := walletTransactions db |}.

(** What [update_block] decides before it writes: the update object and
    the new status, or [None] when the preparation time leads to an
    invalid date. *)
Definition plan
    (now : string) (nowMs : Z) (o : Order) (status : option string)
    (prepTime : option Z) : option (OrderUpdate * string) :=
  let newStatus := JS.str_or status (Orders.status o) in
  let updateData :=
    if String.eqb newStatus "ready" then set_ready None (empty_update now)
    else empty_update now in
  match num_truthy prepTime with
  | Some p =>
      match Clock.toISOString (nowMs + p * 60 * 1000) with
      | Some readyAtISO =>
          Some (set_ready (Some readyAtISO) (set_prepTime p updateData),
                if str_falsy status && String.eqb (Orders.status o) "pending"
                then "confirmed" else newStatus)
      | None => None
      end
  | None => Some (updateData, newStatus)
  end.

(** [PATCH] with the transaction carried out: every outcome of the
    route. *)
Definition PATCH_outcome
    (db : Db) (authorized : bool) (now : string) (nowMs : Z) (newTxnId : string)
    (orderId status : option string) (prepTime : option Z) : Db * Response :=
  if negb authorized then (db, JsonError 401 "Unauthorized")
  else
    match orderId with
    | None | Some EmptyString => (db, JsonError 400 "Order ID required")
    | Some id =>
        match orders db !! id with
        | None => (db, JsonError 500 "Order not found")
        | Some o =>
            if JS.strict_eq status "cancelled" then
              if String.eqb (Orders.status o) "cancelled"
              then (db, JsonError 500 "Order is already cancelled")
              else
                match users db !! userId o with
                | Some b => (cancel_result db now newTxnId id o b, JsonOk true)
                | None => (db, JsonError 500 commit_failed)
                end
            else
              match plan now nowMs o status prepTime with
              | Some (updateData, newStatus) =>
                  (update_result db now id o updateData newStatus, JsonOk false)
              | None => (db, JsonError 500 "Invalid time value")
              end
        end
    end.

(** *** A database for the worked examples *)
Definition order_a : Order :=
  {| status := "preparing"; userId := "u1"; total := 120; orderId := "ORD-1";
     updatedAt := "2024-01-01T08:00:00.000Z"; prepTime := None;
     estimatedReadyAt := None; readyAt := None |}.

Definition order_b : Order :=
  {| status := "pending"; userId := "u1"; total := 80; orderId := "ORD-2";
     updatedAt := "2024-01-01T08:05:00.000Z"; prepTime := None;
     estimatedReadyAt := None; readyAt := None |}.

(** An order of a customer whose account is gone. *)
Definition order_c : Order :=
  {| status := "confirmed"; userId := "u9"; total := 50; orderId := "ORD-3";
     updatedAt := "2024-01-01T08:10:00.000Z"; prepTime := None;
     estimatedReadyAt := None; readyAt := None |}.

Definition example_db : Db :=
  {| ledger := LedgerSpec.settled_store;
     orders := <[ "a" := order_a ]> (<[ "b" := order_b ]> (<[ "c" := order_c ]> ∅));
     users := <[ "u1" := 5 ]> ∅;
     walletTransactions := [] |}.

(** 2024-01-02, 10:00 UTC. *)
Definition example_now : string := "2024-01-02T10:00:00.000Z".
Definition example_nowMs : Z := 1704189600000.

End OrdersSpec.

(** ** Views of the report used to state further properties *)
Module ForecastViews.
Import Forecast ForecastSpec.

(** The weekday after [d]. *)
Definition next_day (d : DayOfWeek) : DayOfWeek :=
  match d with
  | Mon => Tue | Tue => Wed | Wed => Thu | Thu => Fri
  | Fri => Sat | Sat => Sun | Sun => Mon
  end.

(** The demand of an item over one week, Monday to Sunday. *)
Definition weekly (dem : string -> DayOfWeek -> Z) (item : string) : Z :=
  fold_right (fun d acc => dem item d + acc) 0 ALL_DAYS.

(** Two demand records in the order of the report: by item name under
    the collation, and from Monday to Sunday within one name. *)
Definition by_name_then_day
    (localeCompare : string -> string -> Z) (a b : DemandEntry.t) : Prop :=
  localeCompare (DemandEntry.itemName a) (DemandEntry.itemName b) < 0 ∨
  (localeCompare (DemandEntry.itemName a) (DemandEntry.itemName b) = 0 ∧
   day_index (DemandEntry.day a) <= day_index (DemandEntry.day b)).

(** The quantities of a list of orders, added up. *)
Definition total_quantity (l : list EnrichedAutoOrder.t) : Z :=
  fold_right (fun o acc => EnrichedAutoOrder.quantity o + acc) 0 l.

(** The largest peak first. *)
Definition by_peak (a b : DailyTotal.t) : Prop :=
  DailyTotal.totalDaily b <= DailyTotal.totalDaily a.

(** An auto-order document with no frequency, set to run on Mondays if
    its frequency were read as [custom]. *)
Definition chai_unscheduled : AutoOrderDoc.t :=
  {| AutoOrderDoc.id := "a5"; AutoOrderDoc.userId := "u5";
     AutoOrderDoc.itemId := "i2"; AutoOrderDoc.itemName := None;
     AutoOrderDoc.itemPrice := None; AutoOrderDoc.quantity := Some 3;
     AutoOrderDoc.time := None; AutoOrderDoc.frequency := None;
     AutoOrderDoc.customDays := Some [Mon]; AutoOrderDoc.status := "active" |}.

(** An auto-order that is paused. *)
Definition samosa_paused : AutoOrderDoc.t :=
  {| AutoOrderDoc.id := "a6"; AutoOrderDoc.userId := "u1";
     AutoOrderDoc.itemId := "i1"; AutoOrderDoc.itemName := None;
     AutoOrderDoc.itemPrice := None; AutoOrderDoc.quantity := Some 9;
     AutoOrderDoc.time := None; AutoOrderDoc.frequency := Some "daily";
     AutoOrderDoc.customDays := None; AutoOrderDoc.status := "paused" |}.

(** An auto-order for an item that is not on the menu. *)
Definition ghost_daily : AutoOrderDoc.t :=
  {| AutoOrderDoc.id := "a7"; AutoOrderDoc.userId := "u2";
     AutoOrderDoc.itemId := "gone"; AutoOrderDoc.itemName := Some "Vada";
     AutoOrderDoc.itemPrice := None; AutoOrderDoc.quantity := Some 500;
     AutoOrderDoc.time := None; AutoOrderDoc.frequency := Some "daily";
     AutoOrderDoc.customDays := None; AutoOrderDoc.status := "active" |}.

End ForecastViews.

(** ** The forecast page: the filters over the report *)
Module Page.
Import Forecast.

(** [filteredOrders]; [data] is [None] until the report has arrived,
    [filterItem] and [filterDay] are the two selections, ["all"] when
    nothing is selected. *)
Definition filteredOrders
    (data : option Report) (filterItem filterDay : string)
    : list EnrichedAutoOrder.t :=
  match data with
  | None => []
  | Some data =>
      let orders := autoOrders data in
      let orders :=
        if negb (String.eqb filterItem "all")
        then List.filter (fun o => String.eqb (EnrichedAutoOrder.itemId o) filterItem) orders
        else orders in
      if negb (String.eqb filterDay "all")
      then List.filter
             (fun o => existsb (fun d => String.eqb (day_tag d) filterDay)
                         (EnrichedAutoOrder.scheduledDays o)) orders
      else orders
  end.

(** [filteredDemand] *)
Definition filteredDemand
    (data : option Report) (filterItem filterDay : string) : list DemandEntry.t :=
  match data with
  | None => []
  | Some data =>
      let demand := aggregateDemand data in
      let demand :=
        if negb (String.eqb filterItem "all")
        then List.filter (fun d => String.eqb (DemandEntry.itemId d) filterItem) demand
        else demand in
      if negb (String.eqb filterDay "all")
      then List.filter (fun d => String.eqb (day_tag (DemandEntry.day d)) filterDay) demand
      else demand
  end.

(** The rows of a day that pass the item and the risk filter. *)
Definition filter_items
    (filterItem : string) (riskOnly : bool) (items : list ForecastDayItem.t)
    : list ForecastDayItem.t :=
  let items :=
    if negb (String.eqb filterItem "all")
    then List.filter (fun i => String.eqb (ForecastDayItem.itemId i) filterItem) items
    else items in
  if riskOnly then List.filter (fun i => ForecastDayItem.risk i) items else items.

(** [filteredForecast] *)
Definition filteredForecast
    (data : option Report) (filterItem filterDay : string) (riskOnly : bool)
    : list ForecastDay.t :=
  match data with
  | None => []
  | Some data =>
      List.filter
        (fun day =>
           if negb (String.eqb filterDay "all") &&
              negb (String.eqb (day_tag (ForecastDay.dayName day)) filterDay)
           then false
           else (0 <? Z.of_nat (length (ForecastDay.items day))) || negb riskOnly)
        (map (fun day =>
                {| ForecastDay.date := ForecastDay.date day;
                   ForecastDay.dayName := ForecastDay.dayName day;
                   ForecastDay.items :=
                     filter_items filterItem riskOnly (ForecastDay.items day) |})
           (forecast data))
  end.

End Page.

(** * Properties *)

Local Open Scope list_scope.

(** ** The insertion-ordered map *)
Module JSMapFacts.
Section Facts.
Context {V : Type}.
Implicit Types (m : JSMap.t V) (k : string) (v : V).

Lemma get_set_eq m k v : JSMap.get (JSMap.set m k v) k = Some v.
Proof.
  induction m as [|[k' v'] m IH]; cbn.
  - by rewrite String.eqb_refl.
  - destruct (String.eqb_spec k' k) as [->|Hne]; cbn.
    + by rewrite String.eqb_refl.
    + apply String.eqb_neq in Hne. by rewrite Hne.
Qed.

Lemma get_set_ne m k k' v :
  k ≠ k' → JSMap.get (JSMap.set m k v) k' = JSMap.get m k'.
Proof.
  intros Hne. induction m as [|[k0 v0] m IH]; cbn.
  - apply String.eqb_neq in Hne. by rewrite Hne.
  - destruct (String.eqb_spec k0 k) as [->|Hk]; cbn.
    + apply String.eqb_neq in Hne. by rewrite Hne.
    + by rewrite IH.
Qed.

Lemma get_None_keys m k : JSMap.get m k = None ↔ k ∉ JSMap.keys m.
Proof.
  unfold JSMap.keys.
  induction m as [|[k' v'] m IH]; cbn.
  - split; [intros _; apply not_elem_of_nil|done].
  - rewrite not_elem_of_cons.
    destruct (String.eqb_spec k' k) as [->|Hne]; [split; [done|tauto]|].
    rewrite IH. split; [intros H; split; [by intros ->|done]|by intros [_ H]].
Qed.

Lemma keys_set m k v :
  JSMap.keys (JSMap.set m k v) =
  match JSMap.get m k with
  | Some _ => JSMap.keys m
  | None => JSMap.keys m ++ [k]
  end.
Proof.
  unfold JSMap.keys.
  induction m as [|[k' v'] m IH]; cbn; [done|].
  destruct (String.eqb_spec k' k) as [->|Hne]; cbn; [done|].
  rewrite IH. by destruct (JSMap.get m k).
Qed.

Lemma keys_set_NoDup m k v :
  NoDup (JSMap.keys m) → NoDup (JSMap.keys (JSMap.set m k v)).
Proof.
  intros Hnd. rewrite keys_set.
  destruct (JSMap.get m k) eqn:Hg; [done|].
  apply NoDup_app. split; [done|]. split; [|apply NoDup_singleton].
  intros x Hx. rewrite list_elem_of_singleton. intros ->.
  by apply get_None_keys in Hg.
Qed.

Lemma get_Some_elem m k v : JSMap.get m k = Some v → (k, v) ∈ m.
Proof.
  induction m as [|[k' v'] m IH]; cbn; [done|].
  destruct (String.eqb_spec k' k) as [->|Hne].
  - intros [= ->]. apply elem_of_cons. by left.
  - intros H. apply elem_of_cons. right. by apply IH.
Qed.

Lemma elem_get_Some m k v :
  NoDup (JSMap.keys m) → (k, v) ∈ m → JSMap.get m k = Some v.
Proof.
  unfold JSMap.keys.
  induction m as [|[k' v'] m IH]; cbn; intros Hnd Hin.
  - by apply elem_of_nil in Hin.
  - apply NoDup_cons in Hnd as [Hk' Hnd].
    apply elem_of_cons in Hin as [[= <- <-]|Hin].
    + by rewrite String.eqb_refl.
    + destruct (String.eqb_spec k' k) as [->|Hne]; [|by apply IH].
      exfalso. apply Hk'. apply list_elem_of_fmap. by exists (k, v).
Qed.

(** Entries after a [set]: the entry of [k] is replaced or appended. *)
Lemma elem_set m k v k' v' :
  NoDup (JSMap.keys m) →
  (k', v') ∈ JSMap.set m k v ↔
  (k' = k ∧ v' = v) ∨ (k' ≠ k ∧ (k', v') ∈ m).
Proof.
  intros Hnd.
  assert (Hnd' := keys_set_NoDup m k v Hnd).
  split.
  - intros Hin. apply (elem_get_Some _ _ _ Hnd') in Hin.
    destruct (decide (k' = k)) as [->|Hne].
    + rewrite get_set_eq in Hin. left. split; congruence.
    + rewrite get_set_ne in Hin by done. right. split; [done|].
      by apply get_Some_elem.
  - intros [[-> ->]|[Hne Hin]]; apply get_Some_elem.
    + apply get_set_eq.
    + rewrite get_set_ne by done. by apply elem_get_Some.
Qed.
End Facts.
End JSMapFacts.

(** ** The wallet ledger *)
Module LedgerFacts.
Import Ledger LedgerSpec.

Lemma classify_tests s :
  String.eqb s "pending" = match classify s with CPending => true | _ => false end ∧
  includes active_statuses s = match classify s with CActive => true | _ => false end ∧
  is_active s = match classify s with CActive => true | _ => false end ∧
  String.eqb s "completed" = match classify s with CCompleted => true | _ => false end ∧
  String.eqb s "cancelled" = match classify s with CCancelled => true | _ => false end.
Proof.
  unfold classify, is_active, includes, active_statuses.
  destruct (String.eqb_spec s "pending") as [->|?]; [by vm_compute|].
  destruct (String.eqb_spec s "confirmed") as [->|?]; [by vm_compute|].
  destruct (String.eqb_spec s "preparing") as [->|?]; [by vm_compute|].
  destruct (String.eqb_spec s "ready") as [->|?]; [by vm_compute|].
  destruct (String.eqb_spec s "completed") as [->|?]; [by vm_compute|].
  destruct (String.eqb_spec s "cancelled") as [->|?]; [by vm_compute|].
  rewrite (bool_decide_eq_false_2 (s ∈ _))
    by (rewrite !elem_of_cons, elem_of_nil; tauto).
  cbn [existsb].
  repeat match goal with H : s ≠ _ |- _ => apply String.eqb_neq in H; rewrite H end.
  by vm_compute.
Qed.

Lemma guard_passes (a : Z) old new :
  0 < a → old ≠ new → (a <=? 0) || String.eqb old new = false.
Proof.
  intros Ha Hne. apply orb_false_iff. split; [lia|]. by apply String.eqb_neq.
Qed.

Lemma updateCanteenWallet_writes st ws now old new a oid :
  0 < a → old ≠ new →
  updateCanteenWallet now old new a oid st ws =
  Done tt (ws ++ init_writes st now ++ transition_writes (transition now old new a oid)).
Proof.
  intros Ha Hne. unfold updateCanteenWallet.
  rewrite guard_passes by done.
  unfold init_writes, transition_writes, today.
  destruct (transition now old new a oid) as [updates record]. cbn [fst snd].
  unfold mbind, txn_bind, tx_get_wallet, when, tx_write, mret, txn_ret.
  destruct (wallet st) as [data|]; [destruct (String.eqb _ _)|];
    destruct (1 <? _); destruct record; cbn [negb];
    rewrite <- ?app_assoc, ?app_nil_r; reflexivity.
Qed.

Lemma commit_app st ws1 ws2 :
  commit st (ws1 ++ ws2) = commit st ws1 ≫= fun st' => commit st' ws2.
Proof.
  revert st. induction ws1 as [|w ws1 IH]; intros st; [done|].
  cbn. destruct (apply_write st w); [apply IH|done].
Qed.

Lemma commit_init st now :
  commit st (init_writes st now) =
  Some {| wallet := Some (base_wallet st now);
          canteenTransactions := canteenTransactions st;
          withdrawals := withdrawals st |}.
Proof.
  unfold init_writes, base_wallet. destruct st as [[w|] txs wds]; cbn.
  - destruct (String.eqb_spec (todayDate w) (today now)); cbn; [done|].
    destruct w; done.
  - done.
Qed.

Ltac eval_maps :=
  repeat match goal with
    | |- context [@lookup _ _ (gmap string FieldValue) _ ?k ?m] =>
        let r := eval vm_compute in (m !! k) in change (m !! k) with r
    | |- context [1 <? Z.of_nat (size ?m)] =>
        let r := eval vm_compute in (1 <? Z.of_nat (size m)) in
        change (1 <? Z.of_nat (size m)) with r
    end.

Lemma commit_transition st w now old new a oid :
  wallet st = Some w →
  ∃ st',
    commit st (transition_writes (transition now old new a oid)) = Some st' ∧
    wallet st' = Some (apply_effect now (table old new a) w) ∧
    logged (table old new a) a oid (canteenTransactions st) (canteenTransactions st') ∧
    withdrawals st' = withdrawals st.
Proof.
  intros Hw. unfold transition_writes, transition, table, logged.
  destruct (classify_tests old) as (Ho1 & Ho2 & Ho3 & Ho4 & Ho5).
  destruct (classify_tests new) as (Hn1 & Hn2 & Hn3 & Hn4 & Hn5).
  rewrite ?Ho1, ?Ho2, ?Ho3, ?Ho4, ?Ho5, ?Hn1, ?Hn2, ?Hn3, ?Hn4, ?Hn5.
  clear Ho1 Ho2 Ho3 Ho4 Ho5 Hn1 Hn2 Hn3 Hn4 Hn5.
  destruct st as [? txs wds]; cbn in Hw; subst.
  destruct w.
  destruct (classify old), (classify new); cbn.
  all: eval_maps; cbn; unfold update_wallet; eval_maps; cbn.
  all: eexists; split; [reflexivity|]; cbn.
  all: split; [do 2 f_equal; lia|split; [eauto|done]].
Qed.

Lemma applyTransition_effect st now old new a oid :
  0 < a → old ≠ new →
  ∃ st',
    applyTransition st now old new a oid = (st', None) ∧
    wallet st' = Some (apply_effect now (table old new a) (base_wallet st now)) ∧
    logged (table old new a) a oid (canteenTransactions st) (canteenTransactions st') ∧
    withdrawals st' = withdrawals st.
Proof.
  intros Ha Hne. unfold applyTransition, runTransaction.
  rewrite updateCanteenWallet_writes by done. cbn [app].
  rewrite commit_app, commit_init. cbn [mbind option_bind].
  edestruct (commit_transition
    {| wallet := Some (base_wallet st now);
       canteenTransactions := canteenTransactions st;
       withdrawals := withdrawals st |} (base_wallet st now) now old new a oid)
    as (st' & -> & Hw & Hl & Hd); [done|].
  exists st'. done.
Qed.

(** The rows of the table, for reference. *)
Lemma table_rows a :
  table "pending" "confirmed" a = Some (mkEffect a 0 0 None) ∧
  table "pending" "preparing" a = Some (mkEffect a 0 0 None) ∧
  table "pending" "ready" a = Some (mkEffect a 0 0 None) ∧
  table "confirmed" "completed" a = Some (mkEffect (- a) a a (Some credit)) ∧
  table "preparing" "completed" a = Some (mkEffect (- a) a a (Some credit)) ∧
  table "ready" "completed" a = Some (mkEffect (- a) a a (Some credit)) ∧
  table "pending" "completed" a = Some (mkEffect 0 a a (Some credit)) ∧
  table "confirmed" "cancelled" a = Some (mkEffect (- a) 0 0 None) ∧
  table "preparing" "cancelled" a = Some (mkEffect (- a) 0 0 None) ∧
  table "ready" "cancelled" a = Some (mkEffect (- a) 0 0 None) ∧
  table "completed" "cancelled" a = Some (mkEffect 0 (- a) 0 (Some refund_deduction)) ∧
  table "pending" "cancelled" a = None.
Proof. repeat split. Qed.

Lemma base_wallet_current st w now :
  wallet st = Some w → todayDate w = today now → base_wallet st now = w.
Proof.
  intros Hw Hd. unfold base_wallet. rewrite Hw, Hd.
  by rewrite String.eqb_refl.
Qed.

Lemma num_or_self (x : Z) : JS.num_or (Some x) 0 = x.
Proof. unfold JS.num_or. destruct (Z.eqb_spec x 0); congruence. Qed.

(** C1, as the code has it. For every call with [0 < a] and
    [oldStatus <> newStatus], [updateCanteenWallet] commits without error
    and leaves the wallet that results from applying the deltas of the
    transition table to the base wallet: the stored wallet, with
    [todayCollection] reset to 0 and [todayDate] advanced when the stored
    date is not today's, or a zeroed wallet when none is stored.  The log
    grows by exactly one entry of amount [a], of type [credit] for a
    completion and [refund_deduction] for the cancellation of a completed
    order, and by nothing for the other pairs; the withdrawals are
    untouched.  When the stored wallet carries today's date the deltas
    apply to it directly, so that [pending -> cancelled] changes
    nothing. *)
Theorem updateCanteenWallet_table st now old new a oid :
  0 < a → old ≠ new →
  ∃ st',
    applyTransition st now old new a oid = (st', None) ∧
    wallet st' = Some (apply_effect now (table old new a) (base_wallet st now)) ∧
    logged (table old new a) a oid (canteenTransactions st) (canteenTransactions st') ∧
    withdrawals st' = withdrawals st ∧
    (∀ w, wallet st = Some w → todayDate w = today now →
          wallet st' = Some (apply_effect now (table old new a) w)).
Proof.
  intros Ha Hne.
  destruct (applyTransition_effect st now old new a oid Ha Hne)
    as (st' & Hrun & Hw & Hl & Hd).
  exists st'. repeat split; try done.
  intros w Hsome Hdate. by rewrite Hw, (base_wallet_current st w now).
Qed.

Lemma updateCanteenWallet_table_witness :
  0 < 250 ∧ "confirmed" ≠ "completed" ∧
  ∃ st',
    applyTransition settled_store "2024-01-02T10:00:00.000Z"
      "confirmed" "completed" 250 "ORD7" = (st', None) ∧
    wallet st' =
      Some {| totalBalance := 1250; pendingAmount := 0;
              todayCollection := 40 + 250; todayDate := "2024-01-02";
              lastUpdated := "2024-01-02T10:00:00.000Z" |} ∧
    (∃ t, canteenTransactions st' = [t] ∧ amount t = 250 ∧ type t = credit).
Proof.
  split; [lia|]. split; [discriminate|].
  destruct (updateCanteenWallet_table settled_store "2024-01-02T10:00:00.000Z"
              "confirmed" "completed" 250 "ORD7")
    as (st' & Hrun & Hw & Hl & _); [lia|discriminate|].
  exists st'. split; [exact Hrun|]. split; [exact Hw|].
  destruct Hl as (t & Ht & Ha & Hty & _). exists t. auto.
Defined.

(** C1, as stated, fails: cancelling a pending order on a wallet whose
    stored date is yesterday's resets [todayCollection] from 500 to 0. *)
Lemma pending_cancelled_resets_collection :
  ∃ w',
    wallet (applyTransition stale_store "2024-01-02T09:00:00.000Z"
              "pending" "cancelled" 100 "ORD1").1 = Some w' ∧
    todayCollection stale_wallet = 500 ∧ todayCollection w' = 0.
Proof. eexists. split; [vm_compute; reflexivity|]. split; reflexivity. Qed.

(** C3. A transition with [0 < a] and [oldStatus <> newStatus] applied to
    a wallet whose stored [todayDate] is not the current date leaves
    [todayDate] at the current date and [todayCollection] at 0 plus the
    contribution of this transition, which is [a] for a completion. *)
Theorem day_rollover st w now old new a oid :
  0 < a → old ≠ new → wallet st = Some w → todayDate w ≠ today now →
  ∃ st' w',
    applyTransition st now old new a oid = (st', None) ∧
    wallet st' = Some w' ∧
    todayDate w' = today now ∧
    todayCollection w' = 0 + contribution old new a ∧
    (new = "completed" → old ∈ ["pending"; "confirmed"; "preparing"; "ready"] →
     todayCollection w' = a).
Proof.
  intros Ha Hne Hw Hd.
  destruct (applyTransition_effect st now old new a oid Ha Hne)
    as (st' & Hrun & Hw' & _).
  exists st', (apply_effect now (table old new a) (base_wallet st now)).
  split; [done|]. split; [done|].
  assert (Hb : todayDate (base_wallet st now) = today now ∧
               todayCollection (base_wallet st now) = 0).
  { unfold base_wallet. rewrite Hw.
    apply String.eqb_neq in Hd. by rewrite Hd. }
  destruct Hb as [Hb1 Hb2].
  assert (Hc : todayCollection (apply_effect now (table old new a) (base_wallet st now))
               = 0 + contribution old new a).
  { unfold contribution, apply_effect.
    destruct (table old new a); cbn; lia. }
  split; [by unfold apply_effect; destruct (table old new a)|].
  split; [done|].
  intros -> Hin. rewrite Hc. unfold contribution.
  set_unfold in Hin.
  destruct Hin as [->|[->|[->|[->|[]]]]]; vm_compute; by destruct a.
Qed.

Lemma day_rollover_witness :
  ∃ st' w',
    applyTransition stale_store "2024-01-02T09:00:00.000Z"
      "confirmed" "completed" 100 "ORD1" = (st', None) ∧
    wallet st' = Some w' ∧ todayDate w' = "2024-01-02" ∧ todayCollection w' = 100.
Proof.
  destruct (day_rollover stale_store stale_wallet "2024-01-02T09:00:00.000Z"
              "confirmed" "completed" 100 "ORD1")
    as (st' & w' & Hrun & Hw & Hd & _ & Hc);
    [lia|discriminate|reflexivity|discriminate|].
  exists st', w'. split; [exact Hrun|]. split; [exact Hw|]. split; [exact Hd|].
  apply Hc; [reflexivity|]. repeat constructor.
Defined.

(** C4. With [a <= 0] or [oldStatus = newStatus] the call returns
    normally without issuing any write; run as a transaction it leaves the
    store as it was and reports no error. *)
Theorem updateCanteenWallet_noop st ws now old new a oid :
  a <= 0 ∨ old = new →
  updateCanteenWallet now old new a oid st ws = Done tt ws ∧
  applyTransition st now old new a oid = (st, None).
Proof.
  intros H.
  assert (Hg : (a <=? 0) || String.eqb old new = true).
  { apply orb_true_iff. destruct H as [H| ->]; [left; lia|right; apply String.eqb_refl]. }
  unfold applyTransition, runTransaction, updateCanteenWallet. rewrite Hg. done.
Qed.

Lemma updateCanteenWallet_noop_witness :
  updateCanteenWallet "2024-01-02T09:00:00.000Z" "ready" "ready" 100 "ORD1"
    settled_store [] = Done tt [] ∧
  applyTransition settled_store "2024-01-02T09:00:00.000Z" "pending" "confirmed" 0 "ORD1"
    = (settled_store, None).
Proof.
  split.
  - apply (updateCanteenWallet_noop settled_store []). by right.
  - apply (updateCanteenWallet_noop settled_store []). left. lia.
Defined.

(** C2. A withdrawal of [0 < a]: without a wallet it fails with
    ["Wallet not found"]; with a wallet it fails with ["Insufficient
    balance for withdrawal"] exactly when [a] exceeds [totalBalance], and
    a failure leaves the store as it was; otherwise it takes [a] off
    [totalBalance], appends one [withdrawal] log entry and one withdrawal
    receipt.  In every case [pendingAmount] and [todayCollection] keep
    their values. *)
Theorem withdraw_cases st now a :
  0 < a →
  match wallet st with
  | None => POST st now (Some a) = (st, JsonError 500 "Wallet not found")
  | Some w =>
      (totalBalance w < a ↔
       (POST st now (Some a)).2 = JsonError 500 "Insufficient balance for withdrawal") ∧
      (totalBalance w < a → (POST st now (Some a)).1 = st) ∧
      (a <= totalBalance w →
       POST st now (Some a) =
       (withdrawn now a st w, JsonSuccess 200 "Withdrawal successful")) ∧
      (∃ w', wallet (POST st now (Some a)).1 = Some w' ∧
             pendingAmount w' = pendingAmount w ∧
             todayCollection w' = todayCollection w)
  end.
Proof.
  intros Ha. unfold POST.
  replace ((a =? 0) || (a <=? 0)) with false
    by (symmetry; apply orb_false_iff; lia).
  unfold runTransaction, withdraw_body, mbind, txn_bind, tx_get_wallet, throw.
  destruct st as [[w|] txs wds]; cbn [wallet]; [|done].
  rewrite num_or_self.
  destruct (Z.ltb_spec (totalBalance w) a) as [Hlt|Hge].
  - cbn. split; [done|]. split; [done|]. split; [lia|]. by exists w.
  - unfold tx_write. cbn [app commit apply_write wallet canteenTransactions withdrawals].
    unfold update_wallet, withdrawn. eval_maps.
    cbn. split; [split; [lia|discriminate]|]. split; [lia|].
    split; [intros _; do 4 f_equal; lia|]. eexists. split; [reflexivity|done].
Qed.

Lemma withdraw_cases_witness :
  (POST settled_store "2024-01-02T11:00:00.000Z" (Some 1001)).2 =
    JsonError 500 "Insufficient balance for withdrawal" ∧
  POST settled_store "2024-01-02T11:00:00.000Z" (Some 1000) =
    (withdrawn "2024-01-02T11:00:00.000Z" 1000 settled_store settled_wallet,
     JsonSuccess 200 "Withdrawal successful").
Proof.
  pose proof (withdraw_cases settled_store "2024-01-02T11:00:00.000Z" 1001) as H1.
  pose proof (withdraw_cases settled_store "2024-01-02T11:00:00.000Z" 1000) as H2.
  cbn [wallet settled_store] in H1, H2.
  split.
  - apply H1; [lia|]. cbn. lia.
  - apply H2; [lia|]. cbn. lia.
Defined.

End LedgerFacts.

(** ** The forecast *)
Module ForecastFacts.
Import Forecast ForecastSpec.

(** *** Keys of [demandMap] *)
Lemma length_append (a b : string) :
  String.length (a +:+ b) = (String.length a + String.length b)%nat.
Proof.
  induction a as [|c a IH]; [done|].
  change (String c a +:+ b) with (String c (a +:+ b)). simpl. by rewrite IH.
Qed.

Lemma append_inj_suffix (a b x y : string) :
  String.length x = String.length y → a +:+ x = b +:+ y → a = b ∧ x = y.
Proof.
  intros Hlen. revert b.
  induction a as [|c a IH]; intros [|c' b] Heq.
  - done.
  - exfalso. apply (f_equal String.length) in Heq.
    rewrite !length_append in Heq. simpl in Heq. lia.
  - exfalso. apply (f_equal String.length) in Heq.
    rewrite !length_append in Heq. simpl in Heq. lia.
  - change (String c (a +:+ x) = String c' (b +:+ y)) in Heq.
    injection Heq as -> Heq. destruct (IH b Heq) as [-> ->]. done.
Qed.

Lemma demand_key_inj i d i' d' :
  demand_key i d = demand_key i' d' → i = i' ∧ d = d'.
Proof.
  unfold demand_key. intros Heq.
  apply append_inj_suffix in Heq as [-> Heq]; [|by destruct d, d'].
  split; [done|]. by destruct d, d'.
Qed.

Lemma demand_key_ne i d i' d' :
  ¬ (i = i' ∧ d = d') → demand_key i d ≠ demand_key i' d'.
Proof. intros Hne Heq. by apply Hne, demand_key_inj. Qed.

Lemma num_or_0 (x : option Z) : JS.num_or x 0 = default 0 x.
Proof. destruct x as [v|]; cbn; [|done]. by destruct (Z.eqb_spec v 0). Qed.

(** *** Step 4: the demand map holds the sums of the quantities *)
Lemma read_demand_add o m d item day :
  read_demand (demand_add o m d) item day =
  read_demand m item day +
  (if String.eqb (EnrichedAutoOrder.itemId o) item && bool_decide (d = day)
   then EnrichedAutoOrder.quantity o else 0).
Proof.
  unfold read_demand, demand_add. rewrite !num_or_0.
  destruct (String.eqb_spec (EnrichedAutoOrder.itemId o) item) as [<-|Hi];
    [destruct (decide (d = day)) as [<-|Hd]|].
  - rewrite bool_decide_eq_true_2 by done. cbn [andb].
    destruct (JSMap.get m _) as [e|]; rewrite JSMapFacts.get_set_eq; cbn; lia.
  - rewrite bool_decide_eq_false_2 by done. cbn [andb].
    destruct (JSMap.get m (demand_key _ d)) as [e|];
      rewrite JSMapFacts.get_set_ne by (apply demand_key_ne; tauto); lia.
  - cbn [andb].
    destruct (JSMap.get m (demand_key _ d)) as [e|];
      rewrite JSMapFacts.get_set_ne by (apply demand_key_ne; tauto); lia.
Qed.

Lemma read_demand_fold o days m item day :
  read_demand (fold_left (demand_add o) days m) item day =
  read_demand m item day +
  (if String.eqb (EnrichedAutoOrder.itemId o) item
   then EnrichedAutoOrder.quantity o * Z.of_nat (count_occ DayOfWeek_eq_dec days day)
   else 0).
Proof.
  revert m. induction days as [|d days IH]; intros m; cbn [fold_left count_occ].
  - destruct (String.eqb _ _); lia.
  - rewrite IH, read_demand_add.
    destruct (String.eqb _ _); cbn [andb]; [|lia].
    destruct (DayOfWeek_eq_dec d day) as [->|Hne].
    + rewrite bool_decide_eq_true_2 by done. lia.
    + rewrite bool_decide_eq_false_2 by done. lia.
Qed.

Lemma read_demand_orders orders m item day :
  read_demand (fold_left demand_of_order orders m) item day =
  read_demand m item day + demand_total orders item day.
Proof.
  revert m. induction orders as [|o orders IH]; intros m; cbn [fold_left demand_total].
  - lia.
  - rewrite IH. unfold demand_of_order. rewrite read_demand_fold.
    unfold order_demand. lia.
Qed.

Lemma read_build_demandMap orders item day :
  read_demand (build_demandMap orders) item day = demand_total orders item day.
Proof. unfold build_demandMap. by rewrite read_demand_orders. Qed.

(** *** [Array.prototype.sort] *)
Section SortFacts.
Context {A : Type} (cmp : A → A → Z).

Lemma insert_sorted_Permutation x l : insert_sorted cmp x l ≡ₚ x :: l.
Proof.
  induction l as [|y l IH]; cbn; [done|].
  destruct (cmp x y <=? 0); [done|].
  rewrite IH. apply perm_swap.
Qed.

Lemma js_sort_Permutation l : js_sort cmp l ≡ₚ l.
Proof.
  induction l as [|x l IH]; cbn; [done|].
  by rewrite insert_sorted_Permutation, IH.
Qed.

Lemma elem_of_js_sort x l : x ∈ js_sort cmp l ↔ x ∈ l.
Proof. by rewrite js_sort_Permutation. Qed.

(** A consistent comparator: a total preorder. *)
Hypothesis cmp_total : ∀ a b, cmp a b <= 0 ∨ cmp b a <= 0.
Hypothesis cmp_trans : ∀ a b c, cmp a b <= 0 → cmp b c <= 0 → cmp a c <= 0.

Lemma insert_sorted_StronglySorted x l :
  StronglySorted (fun a b => cmp a b <= 0) l →
  StronglySorted (fun a b => cmp a b <= 0) (insert_sorted cmp x l).
Proof.
  induction 1 as [|y l Hl IH Hy]; cbn.
  - repeat constructor.
  - destruct (Z.leb_spec (cmp x y) 0) as [Hle|Hgt].
    + constructor; [by constructor|].
      constructor; [done|].
      eapply Forall_impl; [exact Hy|]. intros z Hz. by eapply cmp_trans.
    + constructor; [done|].
      rewrite insert_sorted_Permutation. constructor; [|done].
      destruct (cmp_total x y); [lia|done].
Qed.

Lemma js_sort_StronglySorted l :
  StronglySorted (fun a b => cmp a b <= 0) (js_sort cmp l).
Proof.
  induction l as [|x l IH]; cbn; [constructor|].
  by apply insert_sorted_StronglySorted.
Qed.
End SortFacts.

(** *** Step 4: the records of the demand map *)
Lemma keyed_empty : keyed JSMap.empty.
Proof.
  split; [apply NoDup_nil_2|]. intros k e Hin. by apply elem_of_nil in Hin.
Qed.

Lemma keyed_demand_add o m d : keyed m → keyed (demand_add o m d).
Proof.
  intros [Hnd Hk]. unfold demand_add.
  destruct (JSMap.get m _) as [e0|] eqn:Hget;
    (split; [by apply JSMapFacts.keys_set_NoDup|]);
    intros k e Hin; apply JSMapFacts.elem_set in Hin as [[-> ->]|[_ Hin]];
    try done; try by apply Hk.
  cbn. apply Hk. by apply JSMapFacts.get_Some_elem.
Qed.

Lemma keyed_build_demandMap orders : keyed (build_demandMap orders).
Proof.
  unfold build_demandMap. generalize (@JSMap.empty DemandEntry.t), keyed_empty.
  induction orders as [|o orders IH]; intros m Hm; cbn [fold_left]; [done|].
  apply IH. unfold demand_of_order.
  generalize (EnrichedAutoOrder.scheduledDays o). intros days. revert m Hm.
  induction days as [|d days IHd]; intros m Hm; cbn [fold_left]; [done|].
  by apply IHd, keyed_demand_add.
Qed.

Lemma keyed_tail k e (m : JSMap.t DemandEntry.t) : keyed ((k, e) :: m) → keyed m.
Proof.
  intros [Hnd Hk]. unfold JSMap.keys in Hnd. rewrite fmap_cons in Hnd.
  apply NoDup_cons in Hnd as [_ Hnd].
  split; [done|]. intros k' e' Hin. apply Hk. by apply list_elem_of_further.
Qed.

Lemma demand_of_values m item day :
  keyed m → demand_of (JSMap.values m) item day = read_demand m item day.
Proof.
  unfold read_demand. rewrite num_or_0.
  induction m as [|[k e] m IH]; intros Hm; [done|].
  specialize (IH (keyed_tail _ _ _ Hm)).
  destruct Hm as [Hnd Hk]. unfold JSMap.keys in Hnd. rewrite fmap_cons in Hnd.
  apply NoDup_cons in Hnd as [Hfresh _]. cbn [fst] in Hfresh.
  pose proof (Hk k e (list_elem_of_here _ _)) as ->.
  cbn [JSMap.values map snd demand_of JSMap.get].
  fold (JSMap.values m). rewrite IH.
  destruct (String.eqb_spec (demand_key (DemandEntry.itemId e) (DemandEntry.day e))
              (demand_key item day)) as [Heq|Hne].
  - apply demand_key_inj in Heq as [Hi Hd].
    rewrite Hi, Hd in *. rewrite String.eqb_refl, bool_decide_eq_true_2 by done.
    apply JSMapFacts.get_None_keys in Hfresh. rewrite Hfresh. cbn. lia.
  - destruct (String.eqb_spec (DemandEntry.itemId e) item) as [Hi|Hi];
      [destruct (decide (DemandEntry.day e = day)) as [Hd|Hd]|]; cbn [andb].
    + exfalso. apply Hne. by rewrite Hi, Hd.
    + rewrite bool_decide_eq_false_2 by done. lia.
    + lia.
Qed.

Lemma demand_of_Permutation l l' item day :
  l ≡ₚ l' → demand_of l item day = demand_of l' item day.
Proof. induction 1; cbn [demand_of]; lia. Qed.

(** The records of the report carry the aggregated demand. *)
Lemma aggregate_demand lc autoOrderDocs menuDocs users now item day :
  demand_of (aggregateDemand (GET lc autoOrderDocs menuDocs users now)) item day =
  demand (GET lc autoOrderDocs menuDocs users now) item day.
Proof.
  unfold demand, GET. cbn [aggregateDemand autoOrders].
  rewrite (demand_of_Permutation _ _ _ _ (js_sort_Permutation _ _)).
  rewrite demand_of_values by apply keyed_build_demandMap.
  apply read_build_demandMap.
Qed.

(** Every record of the report holds the aggregated demand of its own
    item and day, and no two records share both. *)
Lemma aggregate_records lc autoOrderDocs menuDocs users now :
  (∀ e, e ∈ aggregateDemand (GET lc autoOrderDocs menuDocs users now) →
     DemandEntry.totalQuantity e =
     demand (GET lc autoOrderDocs menuDocs users now)
       (DemandEntry.itemId e) (DemandEntry.day e)) ∧
  NoDup (map (fun e => (DemandEntry.itemId e, DemandEntry.day e))
           (aggregateDemand (GET lc autoOrderDocs menuDocs users now))).
Proof.
  unfold demand, GET. cbn [aggregateDemand autoOrders].
  set (orders := map _ _).
  destruct (keyed_build_demandMap orders) as [Hnd Hk].
  split.
  - intros e He. apply elem_of_js_sort, list_elem_of_fmap in He as ([k e'] & -> & Hin).
    cbn [snd]. pose proof (Hk _ _ Hin) as ->.
    apply (JSMapFacts.elem_get_Some _ _ _ Hnd) in Hin.
    rewrite <- read_build_demandMap. unfold read_demand.
    rewrite Hin, num_or_0. done.
  - rewrite js_sort_Permutation.
    assert (Hkeys : map (fun e => demand_key (DemandEntry.itemId e) (DemandEntry.day e))
                      (JSMap.values (build_demandMap orders)) =
                    JSMap.keys (build_demandMap orders)).
    { revert Hk. generalize (build_demandMap orders). clear.
      unfold JSMap.values, JSMap.keys.
      induction t as [|[k e] m IH]; intros Hk; cbn; [done|].
      rewrite <- (Hk k e) by apply list_elem_of_here.
      f_equal. apply IH. intros k' e' Hin. apply Hk. by apply list_elem_of_further. }
    rewrite <- Hkeys in Hnd. revert Hnd. generalize (JSMap.values (build_demandMap orders)).
    clear. intros l Hnd.
    rewrite <- (map_map (fun e => (DemandEntry.itemId e, DemandEntry.day e))
                  (fun p : string * DayOfWeek => demand_key p.1 p.2)) in Hnd.
    eapply NoDup_fmap_1. exact Hnd.
Qed.

(** *** Step 5: the rows of [dailyTotalMap] *)
Lemma daily_max_empty : daily_max [] JSMap.empty.
Proof.
  split; [apply NoDup_nil_2|]. split.
  - intros k r Hin. by apply elem_of_nil in Hin.
  - intros e Hin. by apply elem_of_nil in Hin.
Qed.

Lemma daily_max_add l m e : daily_max l m → daily_max (l ++ [e]) (daily_add m e).
Proof.
  intros (Hnd & Hrows & Hall). unfold daily_add.
  destruct (JSMap.get m (DemandEntry.itemId e)) as [r0|] eqn:Hget.
  - apply JSMapFacts.get_Some_elem in Hget as Hin0.
    destruct (Hrows _ _ Hin0) as (Hid0 & e0 & He0 & Hie0 & Hq0).
    split; [by apply JSMapFacts.keys_set_NoDup|]. split.
    + intros k r Hin. apply JSMapFacts.elem_set in Hin as [[-> ->]|[_ Hin]]; [| |done].
      * cbn. split; [done|].
        destruct (Z.max_spec (DailyTotal.totalDaily r0) (DemandEntry.totalQuantity e))
          as [[_ ->]|[_ ->]].
        -- exists e. split; [|done]. apply elem_of_app. right. apply list_elem_of_here.
        -- exists e0. split; [|done]. apply elem_of_app. by left.
      * destruct (Hrows _ _ Hin) as (Hid & e' & He' & Hie' & Hq').
        split; [done|]. exists e'. split; [|done]. apply elem_of_app. by left.
    + intros e' Hin. apply elem_of_app in Hin as [Hin|Hin].
      * destruct (Hall _ Hin) as (r & Hr & Hle).
        destruct (decide (DemandEntry.itemId e = DemandEntry.itemId e')) as [Heq|Hne].
        -- rewrite <- Heq in *. rewrite JSMapFacts.get_set_eq.
           eexists. split; [done|]. cbn. rewrite Hget in Hr. injection Hr as <-. lia.
        -- rewrite JSMapFacts.get_set_ne by done. by exists r.
      * apply list_elem_of_singleton in Hin as ->.
        rewrite JSMapFacts.get_set_eq. eexists. split; [done|]. cbn. lia.
  - split; [by apply JSMapFacts.keys_set_NoDup|]. split.
    + intros k r Hin. apply JSMapFacts.elem_set in Hin as [[-> ->]|[_ Hin]]; [| |done].
      * cbn. split; [done|]. exists e. split; [|done].
        apply elem_of_app. right. apply list_elem_of_here.
      * destruct (Hrows _ _ Hin) as (Hid & e' & He' & Hie' & Hq').
        split; [done|]. exists e'. split; [|done]. apply elem_of_app. by left.
    + intros e' Hin. apply elem_of_app in Hin as [Hin|Hin].
      * destruct (Hall _ Hin) as (r & Hr & Hle).
        destruct (decide (DemandEntry.itemId e = DemandEntry.itemId e')) as [Heq|Hne].
        -- rewrite <- Heq in Hr. congruence.
        -- rewrite JSMapFacts.get_set_ne by done. by exists r.
      * apply list_elem_of_singleton in Hin as ->.
        rewrite JSMapFacts.get_set_eq. eexists. split; [done|]. cbn. lia.
Qed.

Lemma daily_max_build l : daily_max l (build_dailyTotalMap l).
Proof.
  unfold build_dailyTotalMap.
  induction l as [|e l IH] using rev_ind; [apply daily_max_empty|].
  rewrite fold_left_app. cbn [fold_left]. by apply daily_max_add.
Qed.

Lemma daily_rows_ids (m : JSMap.t DailyTotal.t) :
  (∀ k r, (k, r) ∈ m → DailyTotal.itemId r = k) →
  map DailyTotal.itemId (JSMap.values m) = JSMap.keys m.
Proof.
  unfold JSMap.values, JSMap.keys.
  induction m as [|[k r] m IH]; intros H; cbn; [done|].
  rewrite (H k r) by apply list_elem_of_here.
  f_equal. apply IH. intros k' r' Hin. apply H. by apply list_elem_of_further.
Qed.

(** C7. [dailyDemandByItem] has exactly one row per item of the
    aggregated demand, and the row's quantity is the largest single-day
    demand of that item: it bounds the quantity of every record of the
    item and is the quantity of one of them, where the records of
    [aggregateDemand] are one per item and weekday and hold the demand
    of that item on that weekday. *)
Theorem daily_demand_is_max lc autoOrderDocs menuDocs users now :
  NoDup (map DailyTotal.itemId
           (dailyDemandByItem (summary (GET lc autoOrderDocs menuDocs users now)))) ∧
  (∀ e, e ∈ aggregateDemand (GET lc autoOrderDocs menuDocs users now) →
     ∃ row,
       row ∈ dailyDemandByItem (summary (GET lc autoOrderDocs menuDocs users now)) ∧
       DailyTotal.itemId row = DemandEntry.itemId e ∧
       DemandEntry.totalQuantity e <= DailyTotal.totalDaily row) ∧
  (∀ row,
     row ∈ dailyDemandByItem (summary (GET lc autoOrderDocs menuDocs users now)) →
     ∃ e,
       e ∈ aggregateDemand (GET lc autoOrderDocs menuDocs users now) ∧
       DemandEntry.itemId e = DailyTotal.itemId row ∧
       DemandEntry.totalQuantity e = DailyTotal.totalDaily row) ∧
  (∀ e, e ∈ aggregateDemand (GET lc autoOrderDocs menuDocs users now) →
     DemandEntry.totalQuantity e =
     demand (GET lc autoOrderDocs menuDocs users now)
       (DemandEntry.itemId e) (DemandEntry.day e)) ∧
  NoDup (map (fun e => (DemandEntry.itemId e, DemandEntry.day e))
           (aggregateDemand (GET lc autoOrderDocs menuDocs users now))).
Proof.
  split; [|split; [|split; [|apply aggregate_records]]].
  all: unfold GET; cbn [summary dailyDemandByItem aggregateDemand].
  all: set (agg := js_sort (demand_cmp lc) _).
  all: destruct (daily_max_build agg) as (Hnd & Hrows & Hall).
  - rewrite js_sort_Permutation, daily_rows_ids; [done|].
    intros k r Hin. by apply Hrows.
  - intros e He. destruct (Hall e He) as (r & Hr & Hle).
    apply JSMapFacts.get_Some_elem in Hr as Hin.
    exists r. split; [|split; [by apply Hrows|done]].
    apply elem_of_js_sort. apply list_elem_of_fmap. by exists (DemandEntry.itemId e, r).
  - intros row Hrow. apply elem_of_js_sort in Hrow.
    apply list_elem_of_fmap in Hrow as ([k r] & -> & Hin).
    destruct (Hrows _ _ Hin) as (Hid & e & He & Hie & Hq).
    exists e. cbn. split; [done|]. split; congruence.
Qed.

(** *** Step 1: [menuMap] has one entry per item id *)
Lemma build_menuMap_NoDup docs : NoDup (JSMap.keys (build_menuMap docs)).
Proof.
  unfold build_menuMap.
  assert (H : ∀ m : JSMap.t MenuItem.t, NoDup (JSMap.keys m) →
    NoDup (JSMap.keys
      (fold_left (fun m d => JSMap.set m (MenuDoc.id d) (menu_item d)) docs m))).
  { induction docs as [|d docs IH]; intros m Hm; cbn [fold_left]; [done|].
    apply IH. by apply JSMapFacts.keys_set_NoDup. }
  apply H. apply NoDup_nil_2.
Qed.

(** *** Step 6: the loop over the menu items of one day *)

Lemma tracked_insert t id v id' :
  tracked (<[ id := v ]> t) id' = if decide (id = id') then v else tracked t id'.
Proof.
  unfold tracked. rewrite !num_or_0, lookup_insert.
  by destruct (decide (id = id')).
Qed.

Lemma flat_map_ext_elem {A B} (f g : A → list B) (l : list A) :
  (∀ x, x ∈ l → f x = g x) → flat_map f l = flat_map g l.
Proof.
  induction l as [|x l IH]; intros H; cbn; [done|].
  rewrite (H x) by apply list_elem_of_here.
  rewrite IH; [done|]. intros y Hy. apply H. by apply list_elem_of_further.
Qed.

Section ItemLoop.
Context (dm : JSMap.t DemandEntry.t) (dem : string → DayOfWeek → Z).
Hypothesis Hdem : ∀ item day, read_demand dm item day = dem item day.

Lemma item_step_row day t acc e :
  item_step dm day (t, acc) e =
  (if dem e.1 day =? 0 then t else <[ e.1 := tracked t e.1 + dem e.1 day ]> t,
   acc ++ row_of dem day (tracked t) e).
Proof.
  destruct e as [id mi]. unfold item_step, row_of. cbn [fst snd].
  fold (read_demand dm id day). rewrite Hdem. fold (tracked t id).
  destruct (dem id day =? 0); [by rewrite app_nil_r|done].
Qed.

Lemma item_loop day (es : list (string * MenuItem.t)) t acc :
  NoDup es.*1 →
  ∃ t',
    fold_left (item_step dm day) es (t, acc) =
      (t', acc ++ flat_map (row_of dem day (tracked t)) es) ∧
    ∀ id, tracked t' id =
          tracked t id + (if bool_decide (id ∈ es.*1) then dem id day else 0).
Proof.
  revert t acc. induction es as [|[id0 mi] es IH]; intros t acc Hnd.
  - exists t. cbn. split; [by rewrite app_nil_r|]. intros id. 
    rewrite bool_decide_eq_false_2 by apply not_elem_of_nil. lia.
  - rewrite fmap_cons in Hnd. apply NoDup_cons in Hnd as [Hid0 Hnd].
    cbn [fst] in Hid0. cbn [fold_left]. rewrite item_step_row. cbn [fst snd].
    set (t1 := if dem id0 day =? 0 then t
               else <[ id0 := tracked t id0 + dem id0 day ]> t).
    assert (Ht1 : ∀ id, tracked t1 id =
              if decide (id0 = id) then tracked t id0 + dem id0 day
              else tracked t id).
    { intros id. unfold t1. destruct (Z.eqb_spec (dem id0 day) 0) as [Hz|Hz].
      - destruct (decide (id0 = id)) as [<-|]; [lia|done].
      - apply tracked_insert. }
    destruct (IH t1 (acc ++ row_of dem day (tracked t) (id0, mi)) Hnd)
      as (t' & Hrun & Htr).
    exists t'. split.
    + rewrite Hrun. cbn [flat_map]. rewrite <- app_assoc. do 3 f_equal.
      apply flat_map_ext_elem. intros [id mi'] Hin.
      unfold row_of. cbn [fst snd]. rewrite Ht1.
      destruct (decide (id0 = id)) as [<-|]; [|done].
      exfalso. apply Hid0. apply list_elem_of_fmap. by exists (id0, mi').
    + intros id. rewrite Htr, Ht1. rewrite fmap_cons.
      destruct (decide (id0 = id)) as [<-|Hne].
      * rewrite (bool_decide_eq_false_2 (id0 ∈ es.*1)) by done.
        rewrite bool_decide_eq_true_2 by apply list_elem_of_here. lia.
      * destruct (decide (id ∈ es.*1)) as [Hin|Hin].
        -- rewrite !bool_decide_eq_true_2;
             [lia|by apply list_elem_of_further|done].
        -- rewrite !bool_decide_eq_false_2; [lia| |done].
           rewrite not_elem_of_cons. split; [by intros ->|done].
Qed.
End ItemLoop.

(** *** Step 6: the loop over the seven offsets *)
Section Walk.
Context (localeCompare : string → string → Z).
Context (menuMap : JSMap.t MenuItem.t) (dm : JSMap.t DemandEntry.t).
Context (dem : string → DayOfWeek → Z) (now : Z).
Hypothesis Hdem : ∀ item day, read_demand dm item day = dem item day.
Hypothesis Hkeys : NoDup (JSMap.keys menuMap).

Lemma cumulative_step item k :
  cumulative_before dem now item k + dem item (weekday now k) =
  cumulative dem now item k.
Proof. destruct k; cbn [cumulative_before cumulative]; lia. Qed.

Lemma row_of_expected k t e :
  tracked t e.1 = cumulative_before dem now e.1 k →
  row_of dem (weekday now k) (tracked t) e = expected_item dem now k e.
Proof.
  intros Ht. unfold row_of, expected_item. cbn zeta.
  by rewrite Ht, cumulative_step.
Qed.

Lemma walk_prefix (k : nat) :
  ∃ t,
    fold_left (day_step localeCompare menuMap dm now)
      (map Z.of_nat (seq 0 k)) (∅, []) =
      (t, map (expected_day dem now localeCompare menuMap) (seq 0 k)) ∧
    ∀ id, id ∈ JSMap.keys menuMap → tracked t id = cumulative_before dem now id k.
Proof.
  induction k as [|k (t & Hrun & Ht)].
  - exists ∅. split; [done|]. intros id _. done.
  - rewrite seq_S, !map_app, fold_left_app, Hrun. cbn [map fold_left Nat.add].
    unfold day_step. unfold JSMap.entries.
    destruct (item_loop dm dem Hdem (weekday now k) menuMap t [] Hkeys)
      as (t' & Hloop & Ht').
    fold (future now k). fold (weekday now k). rewrite Hloop.
    assert (Hrows : flat_map (row_of dem (weekday now k) (tracked t)) menuMap =
                    expected_items dem now menuMap k).
    { apply flat_map_ext_elem. intros e He. apply row_of_expected.
      apply Ht. apply list_elem_of_fmap. by exists e. }
    exists t'. split.
    + cbn [app]. by rewrite Hrows.
    + intros id Hid. rewrite Ht', Ht by done.
      rewrite bool_decide_eq_true_2 by done.
      apply cumulative_step.
Qed.

Lemma walk_expected :
  (walk localeCompare menuMap dm now).2 =
  expected_forecast dem now localeCompare menuMap.
Proof.
  unfold walk, expected_forecast.
  change offsets with (map Z.of_nat (seq 0 7)).
  destruct (walk_prefix 7) as (t & -> & _). done.
Qed.
End Walk.

(** The forecast of the report in closed form. *)
Lemma GET_forecast lc autoOrderDocs menuDocs users now :
  forecast (GET lc autoOrderDocs menuDocs users now) =
  expected_forecast (demand (GET lc autoOrderDocs menuDocs users now)) now
    lc (build_menuMap menuDocs).
Proof.
  unfold demand, GET. cbn [forecast autoOrders].
  apply walk_expected.
  - apply read_build_demandMap.
  - apply build_menuMap_NoDup.
Qed.

(** The rows of a forecast day, read off the closed form. *)
Lemma elem_of_expected_day dem now lc menuMap k row :
  row ∈ ForecastDay.items (expected_day dem now lc menuMap k) ↔
  ∃ id mi,
    (id, mi) ∈ menuMap ∧ dem id (weekday now k) ≠ 0 ∧
    row = {| ForecastDayItem.itemId := id;
             ForecastDayItem.itemName := MenuItem.name mi;
             ForecastDayItem.demand := dem id (weekday now k);
             ForecastDayItem.currentStock := MenuItem.stock mi;
             ForecastDayItem.cumulativeDemand := cumulative dem now id k;
             ForecastDayItem.remaining := MenuItem.stock mi - cumulative dem now id k;
             ForecastDayItem.risk := MenuItem.stock mi - cumulative dem now id k <? 0 |}.
Proof.
  unfold expected_day. cbn [ForecastDay.items].
  rewrite elem_of_js_sort. unfold expected_items.
  rewrite list_elem_of_In, in_flat_map.
  split.
  - intros ([id mi] & Hin & Hrow). apply list_elem_of_In in Hin.
    unfold expected_item in Hrow. cbn [fst snd] in Hrow.
    destruct (Z.eqb_spec (dem id (weekday now k)) 0) as [Hz|Hz]; [done|].
    destruct Hrow as [<-|[]]. by exists id, mi.
  - intros (id & mi & Hin & Hz & ->). exists (id, mi).
    split; [by apply list_elem_of_In|].
    unfold expected_item. cbn [fst snd].
    destruct (Z.eqb_spec (dem id (weekday now k)) 0) as [Hz'|_]; [done|].
    by left.
Qed.

Lemma lookup_expected_forecast dem now lc menuMap k day :
  expected_forecast dem now lc menuMap !! k = Some day ↔
  (k < 7)%nat ∧ day = expected_day dem now lc menuMap k.
Proof.
  unfold expected_forecast. rewrite list_lookup_fmap.
  destruct (decide (k < 7)%nat) as [Hlt|Hge].
  - rewrite lookup_seq_lt by done. cbn. split; [intros [= <-]; done|].
    by intros [_ ->].
  - rewrite lookup_seq_ge by lia. cbn. split; [done|]. intros [? _]. lia.
Qed.

Lemma cumulative_constant dem now item q k :
  (∀ day, dem item day = q) →
  cumulative dem now item k = q * (Z.of_nat k + 1).
Proof.
  intros Hq. induction k as [|k IH]; cbn [cumulative]; rewrite Hq; [lia|].
  rewrite IH. lia.
Qed.

(** C5. The seven-day walk of [GET] is its closed form: one report day
    per offset 0..6; on each day every menu item with nonzero aggregated
    demand on that weekday has exactly one row, carrying the running sum
    of its demand over the offsets so far, [remaining = stock -
    cumulativeDemand] and [risk] exactly when [remaining < 0]; an item
    with zero demand that day has no row; the demand is the one the
    records of [aggregateDemand] carry.  An item with stock 10 and
    demand 4 on every weekday has remaining [10 - 4 * (k + 1)] on offset
    [k] (6, 2, -2, ...) and is at risk exactly from offset 2 on. *)
Theorem forecast_walk lc autoOrderDocs menuDocs users now :
  forecast (GET lc autoOrderDocs menuDocs users now) =
    expected_forecast (demand (GET lc autoOrderDocs menuDocs users now)) now lc
      (build_menuMap menuDocs) ∧
  (∀ (k : nat) day id mi,
     forecast (GET lc autoOrderDocs menuDocs users now) !! k = Some day →
     JSMap.get (build_menuMap menuDocs) id = Some mi →
     if demand (GET lc autoOrderDocs menuDocs users now) id (weekday now k) =? 0
     then ∀ row, row ∈ ForecastDay.items day → ForecastDayItem.itemId row ≠ id
     else
       ∃ row,
         row ∈ ForecastDay.items day ∧
         ForecastDayItem.itemId row = id ∧
         ForecastDayItem.demand row =
           demand (GET lc autoOrderDocs menuDocs users now) id (weekday now k) ∧
         ForecastDayItem.currentStock row = MenuItem.stock mi ∧
         ForecastDayItem.cumulativeDemand row =
           cumulative (demand (GET lc autoOrderDocs menuDocs users now)) now id k ∧
         ForecastDayItem.remaining row =
           MenuItem.stock mi - ForecastDayItem.cumulativeDemand row ∧
         ForecastDayItem.risk row = (ForecastDayItem.remaining row <? 0) ∧
         ∀ row', row' ∈ ForecastDay.items day →
                 ForecastDayItem.itemId row' = id → row' = row) ∧
  (∀ id mi,
     JSMap.get (build_menuMap menuDocs) id = Some mi →
     MenuItem.stock mi = 10 →
     (∀ wd, demand (GET lc autoOrderDocs menuDocs users now) id wd = 4) →
     ∀ (k : nat), (k < 7)%nat →
       ∃ day row,
         forecast (GET lc autoOrderDocs menuDocs users now) !! k = Some day ∧
         row ∈ ForecastDay.items day ∧
         ForecastDayItem.itemId row = id ∧
         ForecastDayItem.remaining row = 10 - 4 * (Z.of_nat k + 1) ∧
         ForecastDayItem.risk row = bool_decide (2 ≤ k)%nat) ∧
  (∀ item wd,
     demand_of (aggregateDemand (GET lc autoOrderDocs menuDocs users now)) item wd =
     demand (GET lc autoOrderDocs menuDocs users now) item wd).
Proof.
  pose proof (GET_forecast lc autoOrderDocs menuDocs users now) as Heq.
  pose proof (build_menuMap_NoDup menuDocs) as Hnd.
  split; [exact Heq|]. rewrite Heq. split; [|split; [|apply aggregate_demand]].
  - intros k day id mi Hday Hget.
    apply lookup_expected_forecast in Hday as [_ ->].
    destruct (Z.eqb_spec
      (demand (GET lc autoOrderDocs menuDocs users now) id (weekday now k)) 0)
      as [Hz|Hz].
    + intros row Hrow Hid.
      apply elem_of_expected_day in Hrow as (id' & mi' & _ & Hnz & ->).
      cbn in Hid. by subst id'.
    + eexists. split; [|split; [|split; [|split; [|split; [|split; [|split]]]]]].
      * apply elem_of_expected_day. exists id, mi.
        split; [by apply JSMapFacts.get_Some_elem|]. split; [done|reflexivity].
      * done.
      * done.
      * done.
      * done.
      * done.
      * done.
      * intros row' Hrow' Hid.
        apply elem_of_expected_day in Hrow' as (id' & mi' & Hin & _ & ->).
        cbn in Hid. subst id'.
        apply (JSMapFacts.elem_get_Some _ _ _ Hnd) in Hin.
        rewrite Hget in Hin. by injection Hin as <-.
  - intros id mi Hget Hstock Hdem k Hk.
    exists (expected_day (demand (GET lc autoOrderDocs menuDocs users now)) now lc
              (build_menuMap menuDocs) k).
    eexists. split; [by apply lookup_expected_forecast|].
    split; [|split; [|split]].
    + apply elem_of_expected_day. exists id, mi.
      split; [by apply JSMapFacts.get_Some_elem|]. split; [|reflexivity].
      rewrite Hdem. lia.
    + done.
    + cbn. rewrite Hstock, (cumulative_constant _ _ _ 4) by done. lia.
    + cbn. rewrite Hstock, (cumulative_constant _ _ _ 4) by done.
      destruct (decide (2 ≤ k)%nat).
      * rewrite bool_decide_eq_true_2 by done. lia.
      * rewrite bool_decide_eq_false_2 by done. lia.
Qed.

(** *** The order of the rows of a day *)
Section Ordering.
Context (lc : string → string → Z).
Hypothesis lc_total : ∀ a b, lc a b <= 0 ∨ lc b a <= 0.
Hypothesis lc_trans : ∀ a b c, lc a b <= 0 → lc b c <= 0 → lc a c <= 0.

Lemma item_cmp_le a b :
  item_cmp lc a b <= 0 ↔
  (ForecastDayItem.risk a = true ∧ ForecastDayItem.risk b = false) ∨
  (ForecastDayItem.risk a = ForecastDayItem.risk b ∧ by_name lc a b).
Proof.
  unfold item_cmp, by_name.
  destruct (ForecastDayItem.risk a), (ForecastDayItem.risk b); cbn;
    intuition (try discriminate; try lia).
Qed.

Lemma item_cmp_total a b : item_cmp lc a b <= 0 ∨ item_cmp lc b a <= 0.
Proof.
  rewrite !item_cmp_le. unfold by_name.
  destruct (lc_total (ForecastDayItem.itemName a) (ForecastDayItem.itemName b));
    destruct (ForecastDayItem.risk a), (ForecastDayItem.risk b); auto.
Qed.

Lemma item_cmp_trans a b c :
  item_cmp lc a b <= 0 → item_cmp lc b c <= 0 → item_cmp lc a c <= 0.
Proof.
  rewrite !item_cmp_le. unfold by_name.
  intros [[Ha Hb]|[Hab Hn1]] [[Hb' Hc]|[Hbc Hn2]].
  - congruence.
  - left. split; congruence.
  - left. split; congruence.
  - right. split; [congruence|]. by eapply lc_trans.
Qed.

Lemma sorted_split (l : list ForecastDayItem.t) :
  StronglySorted (fun a b => item_cmp lc a b <= 0) l →
  ∃ risky safe,
    l = risky ++ safe ∧
    Forall (fun i => ForecastDayItem.risk i = true) risky ∧
    Forall (fun i => ForecastDayItem.risk i = false) safe ∧
    StronglySorted (by_name lc) risky ∧
    StronglySorted (by_name lc) safe.
Proof.
  induction 1 as [|x l Hl (risky & safe & -> & Hr & Hs & Sr & Ss) Hx].
  - exists [], []. repeat split; constructor.
  - apply Forall_app in Hx as [Hxr Hxs].
    destruct (ForecastDayItem.risk x) eqn:Hrisk.
    + exists (x :: risky), safe. repeat split; try done.
      * by constructor.
      * constructor; [done|].
        apply Forall_forall. intros y Hin.
        pose proof (proj1 (Forall_forall _ _) Hxr y Hin) as Hy.
        pose proof (proj1 (Forall_forall _ _) Hr y Hin) as Hyr.
        cbn in Hy, Hyr.
        apply item_cmp_le in Hy as [[_ Hy]|[_ Hy]]; [congruence|done].
    + assert (risky = []) as ->.
      { destruct risky as [|y risky]; [done|]. exfalso.
        apply Forall_cons in Hxr as [Hy _], Hr as [Hyr _].
        apply item_cmp_le in Hy as [[Hy _]|[Hy _]]; congruence. }
      exists [], (x :: safe). repeat split; try done.
      * by constructor.
      * constructor; [done|].
        apply Forall_forall. intros y Hin.
        pose proof (proj1 (Forall_forall _ _) Hxs y Hin) as Hy.
        apply item_cmp_le in Hy as [[Hy _]|[_ Hy]]; [congruence|done].
Qed.

(** C8. Within every day of the forecast of [GET], provided
    [localeCompare] is a consistent comparator (a total preorder), the
    rows are the risky rows followed by the rows without risk, and each
    of the two groups is sorted by item name. *)
Theorem items_risk_first autoOrderDocs menuDocs users now day :
  day ∈ forecast (GET lc autoOrderDocs menuDocs users now) →
  ∃ risky safe,
    ForecastDay.items day = risky ++ safe ∧
    Forall (fun i => ForecastDayItem.risk i = true) risky ∧
    Forall (fun i => ForecastDayItem.risk i = false) safe ∧
    StronglySorted (by_name lc) risky ∧
    StronglySorted (by_name lc) safe.
Proof.
  rewrite GET_forecast. intros Hday.
  apply list_elem_of_lookup in Hday as [k Hk].
  apply lookup_expected_forecast in Hk as [_ ->].
  apply sorted_split. unfold expected_day. cbn [ForecastDay.items].
  apply js_sort_StronglySorted; [apply item_cmp_total|apply item_cmp_trans].
Qed.
End Ordering.

(** *** The forecast under a change of stock *)
Lemma demand_total_enrich mm um mm' um' docs item day :
  demand_total (map (enrich mm um) docs) item day =
  demand_total (map (enrich mm' um') docs) item day.
Proof. induction docs as [|d docs IH]; cbn [map demand_total]; [done|]. by rewrite IH. Qed.

Lemma cumulative_ext dem dem' now item k :
  (∀ day, dem item day = dem' item day) →
  cumulative dem now item k = cumulative dem' now item k.
Proof.
  intros H. induction k as [|k IH]; cbn [cumulative]; [apply H|].
  by rewrite IH, H.
Qed.

Lemma stock_le_set m1 m2 k v1 v2 :
  MenuItem.stock v2 <= MenuItem.stock v1 →
  stock_le m1 m2 → stock_le (JSMap.set m1 k v1) (JSMap.set m2 k v2).
Proof.
  intros Hv Hm id mi. destruct (decide (k = id)) as [->|Hne].
  - rewrite !JSMapFacts.get_set_eq. intros [= <-]. by exists v2.
  - rewrite !JSMapFacts.get_set_ne by done. apply Hm.
Qed.

Lemma stock_le_fold docs1 docs2 m1 m2 :
  Forall2 (fun d1 d2 => MenuDoc.id d1 = MenuDoc.id d2 ∧
                        MenuItem.stock (menu_item d2) <= MenuItem.stock (menu_item d1))
    docs1 docs2 →
  stock_le m1 m2 →
  stock_le
    (fold_left (fun m d => JSMap.set m (MenuDoc.id d) (menu_item d)) docs1 m1)
    (fold_left (fun m d => JSMap.set m (MenuDoc.id d) (menu_item d)) docs2 m2).
Proof.
  intros H. revert m1 m2.
  induction H as [|d1 d2 l1 l2 [Hid Hs] _ IH]; intros m1 m2 Hm; cbn [fold_left]; [done|].
  apply IH. rewrite Hid. by apply stock_le_set.
Qed.

Lemma stock_le_with_stock pre d post s :
  s <= JS.num_nullish (MenuDoc.quantity d) 0 →
  stock_le (build_menuMap (pre ++ d :: post))
           (build_menuMap (pre ++ with_stock d s :: post)).
Proof.
  intros Hs. apply stock_le_fold.
  - apply Forall2_app; [|constructor].
    + apply Forall_Forall2_diag, Forall_forall. intros x _. split; [done|lia].
    + split; [done|]. cbn. lia.
    + apply Forall_Forall2_diag, Forall_forall. intros x _. split; [done|lia].
  - intros id mi Hget. by exists mi.
Qed.

(** C9. Lowering the stock of one menu item, all other inputs being the
    same, keeps every risk flag of that item: a day on which the item has
    a row with [risk = true] before has such a row after. *)
Theorem risk_monotone lc autoOrderDocs pre d post s users now k day row :
  s < JS.num_nullish (MenuDoc.quantity d) 0 →
  forecast (GET lc autoOrderDocs (pre ++ d :: post) users now) !! k = Some day →
  row ∈ ForecastDay.items day →
  ForecastDayItem.itemId row = MenuDoc.id d →
  ForecastDayItem.risk row = true →
  ∃ day' row',
    forecast (GET lc autoOrderDocs (pre ++ with_stock d s :: post) users now) !! k
      = Some day' ∧
    row' ∈ ForecastDay.items day' ∧
    ForecastDayItem.itemId row' = MenuDoc.id d ∧
    ForecastDayItem.risk row' = true.
Proof.
  intros Hs Hday Hrow Hid Hrisk.
  rewrite GET_forecast in Hday. rewrite GET_forecast.
  apply lookup_expected_forecast in Hday as [Hk ->].
  apply elem_of_expected_day in Hrow as (id & mi & Hin & Hnz & ->).
  cbn [ForecastDayItem.itemId ForecastDayItem.risk] in Hid, Hrisk. subst id.
  apply (JSMapFacts.elem_get_Some _ _ _ (build_menuMap_NoDup _)) in Hin.
  destruct (stock_le_with_stock pre d post s ltac:(lia) _ _ Hin) as (mi' & Hget' & Hle).
  assert (Hdem : ∀ item wd,
    demand (GET lc autoOrderDocs (pre ++ d :: post) users now) item wd =
    demand (GET lc autoOrderDocs (pre ++ with_stock d s :: post) users now) item wd).
  { intros item wd. unfold demand, GET. cbn [autoOrders]. apply demand_total_enrich. }
  eexists. eexists. split; [by apply lookup_expected_forecast|].
  split; [|split].
  - apply elem_of_expected_day. exists (MenuDoc.id d), mi'.
    split; [by apply JSMapFacts.get_Some_elem|]. split; [|reflexivity].
    by rewrite <- Hdem.
  - done.
  - cbn [ForecastDayItem.risk]. apply Z.ltb_lt in Hrisk. apply Z.ltb_lt.
    rewrite <- (cumulative_ext _ _ _ _ _ (Hdem (MenuDoc.id d))). lia.
Qed.

(** *** What one auto-order adds to the report *)

(** [GET] reads the auto-orders through their active documents only. *)
Lemma GET_ext lc docs1 docs2 menuDocs users now :
  map AutoOrderDoc.userId (active docs1) = map AutoOrderDoc.userId (active docs2) →
  (∀ um, map (enrich (build_menuMap menuDocs) um) (active docs1) =
         map (enrich (build_menuMap menuDocs) um) (active docs2)) →
  GET lc docs1 menuDocs users now = GET lc docs2 menuDocs users now.
Proof.
  intros Hu He. unfold GET, build_userMap. fold (active docs1) (active docs2).
  by rewrite Hu, He.
Qed.

Lemma active_app l1 l2 : active (l1 ++ l2) = active l1 ++ active l2.
Proof. unfold active. by rewrite filter_app. Qed.

Lemma active_cons d l :
  active (d :: l) =
  if decide (AutoOrderDoc.status d = "active") then d :: active l else active l.
Proof. unfold active. by rewrite filter_cons. Qed.

Lemma build_userMap_lookup users docs x :
  x ∈ docs →
  build_userMap users docs !! AutoOrderDoc.userId x =
  Some (user_name users (AutoOrderDoc.userId x)).
Proof.
  intros Hx. unfold build_userMap.
  apply (lookup_set_to_map (fun id => (id, user_name users id))).
  - by intros y y' _ _ Hy.
  - exists (AutoOrderDoc.userId x). split; [|done].
    apply elem_of_list_to_set, list_elem_of_fmap. by exists x.
Qed.

(** The user map only matters through the orders' own users. *)
Lemma enrich_userMap mm users docs docs' x :
  x ∈ docs → x ∈ docs' →
  enrich mm (build_userMap users docs) x = enrich mm (build_userMap users docs') x.
Proof.
  intros H H'. unfold enrich. by rewrite !build_userMap_lookup.
Qed.

Lemma demand_total_app l1 l2 item day :
  demand_total (l1 ++ l2) item day =
  demand_total l1 item day + demand_total l2 item day.
Proof. induction l1 as [|o l1 IH]; cbn [app demand_total]; lia. Qed.

(** A key once set stays in the demand map. *)
Lemma demand_add_present o m d k :
  is_Some (JSMap.get m k) → is_Some (JSMap.get (demand_add o m d) k).
Proof.
  intros Hk. unfold demand_add.
  destruct (decide (demand_key (EnrichedAutoOrder.itemId o) d = k)) as [<-|Hne];
    destruct (JSMap.get m (demand_key _ d));
    rewrite ?JSMapFacts.get_set_eq, ?JSMapFacts.get_set_ne by done; done.
Qed.

Lemma demand_fold_present o days m k :
  is_Some (JSMap.get m k) → is_Some (JSMap.get (fold_left (demand_add o) days m) k).
Proof.
  revert m. induction days as [|d days IH]; intros m Hk; cbn [fold_left]; [done|].
  by apply IH, demand_add_present.
Qed.

Lemma demand_of_order_present o m d :
  d ∈ EnrichedAutoOrder.scheduledDays o →
  is_Some (JSMap.get (demand_of_order m o) (demand_key (EnrichedAutoOrder.itemId o) d)).
Proof.
  unfold demand_of_order. generalize (EnrichedAutoOrder.scheduledDays o).
  intros days. revert m. induction days as [|d' days IH]; intros m Hd.
  - by apply elem_of_nil in Hd.
  - cbn [fold_left]. apply elem_of_cons in Hd as [->|Hd]; [|by apply IH].
    apply demand_fold_present. unfold demand_add.
    destruct (JSMap.get m _); by rewrite JSMapFacts.get_set_eq.
Qed.

Lemma build_demandMap_present orders o d :
  o ∈ orders → d ∈ EnrichedAutoOrder.scheduledDays o →
  is_Some (JSMap.get (build_demandMap orders)
             (demand_key (EnrichedAutoOrder.itemId o) d)).
Proof.
  unfold build_demandMap. generalize (@JSMap.empty DemandEntry.t).
  induction orders as [|o' orders IH]; intros m Ho Hd.
  - by apply elem_of_nil in Ho.
  - cbn [fold_left]. apply elem_of_cons in Ho as [->|Ho]; [|by apply IH].
    assert (H := demand_of_order_present o' m d Hd).
    revert H. generalize (demand_of_order m o'). clear. intros m Hm.
    revert m Hm. induction orders as [|o orders IH]; intros m Hm; cbn [fold_left]; [done|].
    apply IH. by apply demand_fold_present.
Qed.

(** A scheduled order leaves a record for its item on that day. *)
Lemma aggregate_record lc docs menuDocs users now d day :
  d ∈ active docs → day ∈ scheduled d →
  ∃ e, e ∈ aggregateDemand (GET lc docs menuDocs users now) ∧
       DemandEntry.itemId e = AutoOrderDoc.itemId d ∧ DemandEntry.day e = day.
Proof.
  intros Hd Hday. unfold GET. cbn [aggregateDemand]. fold (active docs).
  set (mm := build_menuMap menuDocs). set (um := build_userMap users (active docs)).
  destruct (build_demandMap_present (map (enrich mm um) (active docs))
              (enrich mm um d) day) as [e He]; [|done|].
  { apply list_elem_of_fmap. by exists d. }
  apply JSMapFacts.get_Some_elem in He as Hin.
  destruct (keyed_build_demandMap (map (enrich mm um) (active docs))) as [_ Hk].
  apply Hk in Hin as Hkey. cbn [enrich EnrichedAutoOrder.itemId] in Hkey.
  apply demand_key_inj in Hkey as [Hi Hd'].
  exists e. split; [|by split].
  apply elem_of_js_sort, list_elem_of_fmap. by eexists (_, e).
Qed.

Lemma enrich_with_quantity mm um d :
  AutoOrderDoc.quantity d = None ∨ AutoOrderDoc.quantity d = Some 0 →
  enrich mm um d = enrich mm um (with_quantity d (Some 1)).
Proof. intros Hq. unfold enrich, with_quantity. cbn. by destruct Hq as [->| ->]. Qed.

Lemma order_demand_enrich mm um d day :
  order_demand (enrich mm um d) (AutoOrderDoc.itemId d) day =
  JS.num_or (AutoOrderDoc.quantity d) 1 *
  Z.of_nat (count_occ DayOfWeek_eq_dec (scheduled d) day).
Proof. unfold order_demand, enrich. cbn. by rewrite String.eqb_refl. Qed.

(** C10. An active auto-order whose quantity is absent or zero is read as
    an order of quantity 1: the report is the one obtained with the
    quantity written out as 1; compared with the report without the
    order, the aggregated demand of its item grows on every day by one
    unit per listing of that day in its schedule, so by exactly 1 on each
    scheduled day of a schedule without repeated days, and the item has a
    demand record on each scheduled day. *)
Theorem falsy_quantity_is_one lc pre d post menuDocs users now :
  AutoOrderDoc.status d = "active" →
  AutoOrderDoc.quantity d = None ∨ AutoOrderDoc.quantity d = Some 0 →
  GET lc (pre ++ d :: post) menuDocs users now =
    GET lc (pre ++ with_quantity d (Some 1) :: post) menuDocs users now ∧
  (∀ day,
     demand_of (aggregateDemand (GET lc (pre ++ d :: post) menuDocs users now))
       (AutoOrderDoc.itemId d) day =
     demand_of (aggregateDemand (GET lc (pre ++ post) menuDocs users now))
       (AutoOrderDoc.itemId d) day +
     1 * Z.of_nat (count_occ DayOfWeek_eq_dec (scheduled d) day)) ∧
  (∀ day, day ∈ scheduled d →
     (∃ e, e ∈ aggregateDemand (GET lc (pre ++ d :: post) menuDocs users now) ∧
           DemandEntry.itemId e = AutoOrderDoc.itemId d ∧ DemandEntry.day e = day) ∧
     (NoDup (scheduled d) →
      demand_of (aggregateDemand (GET lc (pre ++ d :: post) menuDocs users now))
        (AutoOrderDoc.itemId d) day =
      demand_of (aggregateDemand (GET lc (pre ++ post) menuDocs users now))
        (AutoOrderDoc.itemId d) day + 1)).
Proof.
  intros Hact Hq.
  assert (Hdem : ∀ day,
     demand_of (aggregateDemand (GET lc (pre ++ d :: post) menuDocs users now))
       (AutoOrderDoc.itemId d) day =
     demand_of (aggregateDemand (GET lc (pre ++ post) menuDocs users now))
       (AutoOrderDoc.itemId d) day +
     1 * Z.of_nat (count_occ DayOfWeek_eq_dec (scheduled d) day)).
  { intros day. rewrite !aggregate_demand. unfold demand, GET. cbn [autoOrders].
    fold (active (pre ++ d :: post)) (active (pre ++ post)).
    rewrite !active_app, active_cons, decide_True by done.
    rewrite !map_app, map_cons, !demand_total_app. cbn [demand_total].
    rewrite order_demand_enrich.
    replace (JS.num_or (AutoOrderDoc.quantity d) 1) with 1
      by (by destruct Hq as [->| ->]).
    set (mm := build_menuMap menuDocs).
    rewrite (demand_total_enrich mm _ mm
               (build_userMap users (active pre ++ active post)) (active pre)).
    rewrite (demand_total_enrich mm _ mm
               (build_userMap users (active pre ++ active post)) (active post)).
    lia. }
  split; [|split; [exact Hdem|]].
  - apply GET_ext.
    + rewrite !active_app, !active_cons. cbn [with_quantity AutoOrderDoc.status].
      destruct (decide _); by rewrite !map_app.
    + intros um. rewrite !active_app, !active_cons.
      cbn [with_quantity AutoOrderDoc.status].
      destruct (decide _); rewrite !map_app; [|done].
      cbn [map]. by rewrite <- enrich_with_quantity.
  - intros day Hday. split.
    + apply aggregate_record; [|done].
      rewrite active_app, active_cons, decide_True by done.
      apply elem_of_app. right. apply list_elem_of_here.
    + intros Hnd. rewrite Hdem.
      apply list_elem_of_In in Hday.
      apply NoDup_ListNoDup in Hnd.
      by rewrite (proj1 (NoDup_count_occ' DayOfWeek_eq_dec _) Hnd day Hday).
Qed.

(** *** An order without scheduled days *)
Lemma demand_of_order_nil m mm um d :
  scheduled d = [] → demand_of_order m (enrich mm um d) = m.
Proof.
  intros Hs. unfold demand_of_order, enrich. cbn [EnrichedAutoOrder.scheduledDays].
  fold (scheduled d). by rewrite Hs.
Qed.

Lemma demandMap_skip mm users pre d post :
  scheduled d = [] →
  build_demandMap
    (map (enrich mm (build_userMap users (active (pre ++ d :: post))))
       (active (pre ++ d :: post))) =
  build_demandMap
    (map (enrich mm (build_userMap users (active (pre ++ post))))
       (active (pre ++ post))).
Proof.
  intros Hs.
  assert (Hext : ∀ l : list AutoOrderDoc.t,
    (∀ x, x ∈ l → x ∈ active (pre ++ d :: post) ∧ x ∈ active (pre ++ post)) →
    map (enrich mm (build_userMap users (active (pre ++ d :: post)))) l =
    map (enrich mm (build_userMap users (active (pre ++ post)))) l).
  { intros l Hl. apply map_ext_in. intros x Hx. apply list_elem_of_In in Hx.
    destruct (Hl x Hx). by apply enrich_userMap. }
  rewrite active_app, active_cons in *. rewrite active_app in *.
  destruct (decide (AutoOrderDoc.status d = "active")) as [Hact|Hact].
  - rewrite !map_app, map_cons. 
    rewrite (Hext (active pre)), (Hext (active post)).
    + unfold build_demandMap. rewrite !fold_left_app. cbn [fold_left].
      by rewrite demand_of_order_nil.
    + intros x Hx. rewrite !elem_of_app, elem_of_cons. tauto.
    + intros x Hx. rewrite !elem_of_app, elem_of_cons. tauto.
  - rewrite <- !active_app. done.
Qed.

Lemma strict_eq_false (x : option string) (s : string) :
  x ≠ Some s → JS.strict_eq x s = false.
Proof.
  destruct x as [v|]; cbn; [|done]. intros Hne.
  apply String.eqb_neq. congruence.
Qed.

(** C6. [getScheduledDays] resolves ["daily"] to the seven days of the
    week, ["weekdays"] to Monday through Friday, ["custom"] to the days
    provided, and every other or missing frequency (or ["custom"] without
    a list of days) to no day at all; an order without scheduled days
    leaves the aggregated demand, the daily summary and the forecast as
    they are without it. *)
Theorem scheduled_days_by_frequency :
  (∀ customDays, getScheduledDays (Some "daily") customDays = ALL_DAYS) ∧
  (∀ day, day ∈ ALL_DAYS) ∧
  (∀ customDays, getScheduledDays (Some "weekdays") customDays = WEEKDAYS) ∧
  (∀ day, day ∈ WEEKDAYS ↔ day ≠ Sat ∧ day ≠ Sun) ∧
  (∀ days, getScheduledDays (Some "custom") (Some days) = days) ∧
  getScheduledDays (Some "custom") None = [] ∧
  (∀ frequency customDays,
     frequency ≠ Some "daily" → frequency ≠ Some "weekdays" →
     frequency ≠ Some "custom" →
     getScheduledDays frequency customDays = []) ∧
  (∀ lc pre d post menuDocs users now,
     scheduled d = [] →
     aggregateDemand (GET lc (pre ++ d :: post) menuDocs users now) =
       aggregateDemand (GET lc (pre ++ post) menuDocs users now) ∧
     dailyDemandByItem (summary (GET lc (pre ++ d :: post) menuDocs users now)) =
       dailyDemandByItem (summary (GET lc (pre ++ post) menuDocs users now)) ∧
     forecast (GET lc (pre ++ d :: post) menuDocs users now) =
       forecast (GET lc (pre ++ post) menuDocs users now)).
Proof.
  split; [done|]. split; [intros []; repeat constructor|].
  split; [done|]. split.
  { intros day. unfold WEEKDAYS. rewrite !elem_of_cons, elem_of_nil.
    destruct day; split; intros H.
    all: try (split; discriminate).
    all: try tauto.
    all: try (destruct H; congruence).
    all: repeat (destruct H as [H|H]; try discriminate); done. }
  split; [done|]. split; [done|]. split.
  { intros f cd H1 H2 H3. unfold getScheduledDays.
    by rewrite !strict_eq_false. }
  intros lc pre d post menuDocs users now Hs.
  unfold GET. cbn [aggregateDemand summary dailyDemandByItem forecast].
  fold (active (pre ++ d :: post)) (active (pre ++ post)).
  by rewrite demandMap_skip.
Qed.

(** *** The worked examples *)
Lemma code_compare_le a b : code_compare a b <= 0 ↔ String.compare a b ≠ Gt.
Proof. unfold code_compare. destruct (String.compare a b); split; (lia || done). Qed.

Lemma code_compare_total a b : code_compare a b <= 0 ∨ code_compare b a <= 0.
Proof.
  rewrite !code_compare_le, (String.compare_antisym a b).
  destruct (String.compare b a); cbn; auto.
Qed.

Lemma code_compare_trans a b c :
  code_compare a b <= 0 → code_compare b c <= 0 → code_compare a c <= 0.
Proof.
  rewrite !code_compare_le. intros Hab Hbc.
  destruct (String.compare a b) eqn:Eab; [|clear Hab|done].
  - apply String.compare_eq_iff in Eab as ->. done.
  - destruct (String.compare b c) eqn:Ebc; [|clear Hbc|done].
    + apply String.compare_eq_iff in Ebc as <-. by rewrite Eab.
    + apply OrderedTypeEx.String_as_OT.cmp_lt in Eab, Ebc.
      pose proof (OrderedTypeEx.String_as_OT.lt_trans _ _ _ Eab Ebc) as Hac.
      apply OrderedTypeEx.String_as_OT.cmp_lt in Hac.
      unfold OrderedTypeEx.String_as_OT.cmp in Hac. by rewrite Hac.
Qed.

Lemma forecast_walk_witness :
  ∃ day row,
    forecast (GET code_compare [samosa_daily] [samosa] ∅ monday_morning) !! 2%nat
      = Some day ∧
    row ∈ ForecastDay.items day ∧
    ForecastDayItem.itemId row = "i1" ∧
    ForecastDayItem.remaining row = -2 ∧
    ForecastDayItem.risk row = true.
Proof.
  destruct (forecast_walk code_compare [samosa_daily] [samosa] ∅ monday_morning)
    as (_ & _ & H & _).
  apply (H "i1" (menu_item samosa)).
  - reflexivity.
  - reflexivity.
  - intros []; reflexivity.
  - lia.
Defined.

Lemma items_risk_first_witness :
  ∃ day risky safe,
    forecast (GET code_compare [samosa_daily; chai_weekdays] [samosa; chai] ∅
                monday_morning) !! 2%nat = Some day ∧
    ForecastDay.items day = risky ++ safe ∧
    Forall (fun i => ForecastDayItem.risk i = true) risky ∧
    Forall (fun i => ForecastDayItem.risk i = false) safe ∧
    StronglySorted (by_name code_compare) risky ∧
    StronglySorted (by_name code_compare) safe.
Proof.
  destruct (forecast (GET code_compare [samosa_daily; chai_weekdays] [samosa; chai] ∅
                        monday_morning) !! 2%nat) as [day|] eqn:Hday;
    [|by vm_compute in Hday].
  destruct (items_risk_first code_compare code_compare_total code_compare_trans
              [samosa_daily; chai_weekdays] [samosa; chai] ∅ monday_morning day)
    as (risky & safe & H).
  - by eapply list_elem_of_lookup_2.
  - by exists day, risky, safe.
Defined.

Lemma risk_monotone_witness :
  ∃ day' row',
    forecast (GET code_compare [samosa_daily] [with_stock samosa 5] ∅ monday_morning)
      !! 2%nat = Some day' ∧
    row' ∈ ForecastDay.items day' ∧
    ForecastDayItem.itemId row' = "i1" ∧
    ForecastDayItem.risk row' = true.
Proof.
  eapply (risk_monotone code_compare [samosa_daily] [] samosa [] 5 ∅ monday_morning 2).
  - cbn. lia.
  - vm_compute. reflexivity.
  - apply list_elem_of_here.
  - reflexivity.
  - reflexivity.
Defined.

Lemma falsy_quantity_is_one_witness :
  GET code_compare [samosa_daily; chai_weekdays] [samosa; chai] ∅ monday_morning =
    GET code_compare [samosa_daily; with_quantity chai_weekdays (Some 1)]
      [samosa; chai] ∅ monday_morning ∧
  demand_of
    (aggregateDemand
       (GET code_compare [samosa_daily; chai_weekdays] [samosa; chai] ∅ monday_morning))
    "i2" Mon = 0 + 1.
Proof.
  destruct (falsy_quantity_is_one code_compare [samosa_daily] chai_weekdays []
              [samosa; chai] ∅ monday_morning) as (Hsame & Hdem & _).
  - reflexivity.
  - by left.
  - split; [exact Hsame|]. exact (Hdem Mon).
Defined.

(** C10, as stated, fails: an order without quantity whose custom days
    list Monday twice adds 2 units, not 1, to Monday's demand. *)
Lemma repeated_day_counts_twice :
  AutoOrderDoc.quantity chai_monday_twice = None ∧
  Mon ∈ scheduled chai_monday_twice ∧
  demand_of
    (aggregateDemand (GET code_compare [chai_monday_twice] [chai] ∅ monday_morning))
    "i2" Mon = 2 ∧
  demand_of (aggregateDemand (GET code_compare [] [chai] ∅ monday_morning))
    "i2" Mon = 0.
Proof. split; [done|]. split; [apply list_elem_of_here|]. split; reflexivity. Qed.

Lemma scheduled_days_by_frequency_witness :
  getScheduledDays (Some "monthly") (Some [Mon; Tue]) = [] ∧
  forecast (GET code_compare [samosa_daily; chai_monthly] [samosa; chai] ∅
              monday_morning) =
  forecast (GET code_compare [samosa_daily] [samosa; chai] ∅ monday_morning).
Proof.
  destruct scheduled_days_by_frequency as (_ & _ & _ & _ & _ & _ & Hother & Hskip).
  split.
  - by apply Hother.
  - by apply (Hskip code_compare [samosa_daily] chai_monthly []).
Defined.

End ForecastFacts.

(** ** The wallet ledger: sequences of calls and invariants *)
Module LedgerExtra.
Import Ledger LedgerSpec LedgerFacts Views.


Lemma applyTransition_guard st now old new a oid :
  a <= 0 ∨ old = new → applyTransition st now old new a oid = (st, None).
Proof.
  intros H. unfold applyTransition, runTransaction, updateCanteenWallet.
  replace ((a <=? 0) || String.eqb old new) with true; [done|].
  symmetry. apply orb_true_iff.
  destruct H as [H| ->]; [left; lia|right; apply String.eqb_refl].
Qed.

(** A call on a wallet that already carries the date of the call. *)
Lemma applyTransition_same_day st w now old new a oid :
  wallet st = Some w → todayDate w = today now → 0 < a → old ≠ new →
  ∃ st',
    applyTransition st now old new a oid = (st', None) ∧
    wallet st' = Some (apply_effect now (table old new a) w) ∧
    logged (table old new a) a oid (canteenTransactions st) (canteenTransactions st') ∧
    withdrawals st' = withdrawals st.
Proof.
  intros Hw Hd Ha Hne.
  destruct (applyTransition_effect st now old new a oid Ha Hne)
    as (st' & Hrun & Hw' & Hl & Hwd).
  exists st'. by rewrite <- (base_wallet_current st w now).
Qed.

Lemma table_escrow s a :
  active_status s →
  table "pending" s a = Some (mkEffect a 0 0 None) ∧
  table s "completed" a = Some (mkEffect (- a) a a (Some credit)) ∧
  table s "cancelled" a = Some (mkEffect (- a) 0 0 None).
Proof. intros [->|[->| ->]]; repeat split. Qed.

Lemma active_status_ne s :
  active_status s → s ≠ "pending" ∧ s ≠ "completed" ∧ s ≠ "cancelled".
Proof. intros [->|[->| ->]]; repeat split; discriminate. Qed.







Lemma base_wallet_date st now : todayDate (base_wallet st now) = today now.
Proof.
  unfold base_wallet. destruct (wallet st) as [w|]; [|done].
  destruct (String.eqb_spec (todayDate w) (today now)); done.
Qed.

Lemma apply_effect_date now e w : todayDate (apply_effect now e w) = todayDate w.
Proof. by destruct e. Qed.

(** A wallet that exists keeps its balance and its escrow through the
    reset of a new day. *)
Lemma base_wallet_funds st w now :
  wallet st = Some w →
  totalBalance (base_wallet st now) = totalBalance w ∧
  pendingAmount (base_wallet st now) = pendingAmount w.
Proof. intros Hw. unfold base_wallet. rewrite Hw. by destruct (String.eqb _ _). Qed.

(** No call touches the receipts or removes a log entry. *)
Lemma applyTransition_frame st now old new a oid :
  withdrawals (applyTransition st now old new a oid).1 = withdrawals st ∧
  ∃ l, canteenTransactions (applyTransition st now old new a oid).1 =
         canteenTransactions st ++ l ∧ (length l ≤ 1)%nat.
Proof.
  destruct (decide (0 < a ∧ old ≠ new)) as [[Ha Hne]|Hg].
  - destruct (applyTransition_effect st now old new a oid Ha Hne)
      as (st' & -> & _ & Hl & Hwd).
    split; [done|]. cbn [fst].
    unfold logged in Hl. destruct (table old new a ≫= logged_type) as [ty|].
    + destruct Hl as (t & -> & _). exists [t]. split; [done|cbn; lia].
    + exists []. rewrite app_nil_r. split; [done|cbn; lia].
  - rewrite applyTransition_guard.
    + split; [done|]. exists []. rewrite app_nil_r. split; [done|cbn; lia].
    + destruct (decide (old = new)); [by right|left].
      destruct (decide (0 < a)); [tauto|lia].
Qed.

(** X4. Whatever its arguments, a call of [updateCanteenWallet] run as
    a transaction commits without error, never touches the withdrawal
    receipts, and only ever appends to the log, at most one entry.  After
    a call that passes the guard ([0 < a], [oldStatus <> newStatus]) the
    wallet document exists and carries the date of the call. *)
Theorem applyTransition_invariants st now old new a oid :
  ∃ st',
    applyTransition st now old new a oid = (st', None) ∧
    withdrawals st' = withdrawals st ∧
    (∃ l, canteenTransactions st' = canteenTransactions st ++ l ∧ (length l ≤ 1)%nat) ∧
    (is_Some (wallet st) → is_Some (wallet st')) ∧
    (0 < a → old ≠ new →
     ∃ w', wallet st' = Some w' ∧ todayDate w' = today now).
Proof.
  destruct (decide (0 < a ∧ old ≠ new)) as [[Ha Hne]|Hg].
  - destruct (applyTransition_effect st now old new a oid Ha Hne)
      as (st' & Hrun & Hw & Hl & Hwd).
    exists st'. split; [done|]. split; [done|]. split; [|split].
    + unfold logged in Hl. destruct (table old new a ≫= logged_type) as [ty|].
      * destruct Hl as (t & -> & _). exists [t]. split; [done|cbn; lia].
      * exists []. rewrite app_nil_r. split; [done|cbn; lia].
    + intros _. by rewrite Hw.
    + intros _ _. eexists. split; [exact Hw|].
      by rewrite apply_effect_date, base_wallet_date.
  - exists st. rewrite applyTransition_guard.
    + split; [done|]. split; [done|].
      split; [exists []; rewrite app_nil_r; split; [done|cbn; lia]|].
      split; [done|]. intros ? ?. tauto.
    + destruct (decide (old = new)); [by right|left].
      destruct (decide (0 < a)); [tauto|lia].
Qed.

Lemma applyTransition_invariants_witness :
  ∃ st' w',
    applyTransition stale_store "2024-01-02T09:00:00.000Z" "pending" "cancelled" 100 "ORD1"
      = (st', None) ∧
    wallet st' = Some w' ∧ todayDate w' = "2024-01-02".
Proof.
  destruct (applyTransition_invariants stale_store "2024-01-02T09:00:00.000Z"
              "pending" "cancelled" 100 "ORD1") as (st' & Hrun & _ & _ & _ & Hd).
  destruct Hd as (w' & Hw & Hdate); [lia|discriminate|].
  exists st', w'. split; [exact Hrun|]. split; [exact Hw|exact Hdate].
Defined.

Lemma classify_active s : active_status s → classify s = CActive.
Proof. by intros [->|[->| ->]]. Qed.

Lemma classify_cancelled s : classify s = CCancelled → s = "cancelled".
Proof.
  intros Hc. destruct (classify_tests s) as (_ & _ & _ & _ & H).
  rewrite Hc in H. by apply String.eqb_eq.
Qed.

(** The status pairs that no branch of [updateCanteenWallet] matches. *)
Lemma table_idle old new a :
  (active_status old ∧ active_status new) ∨ old = "cancelled" ∨
  (old = "completed" ∧ new ≠ "cancelled") →
  table old new a = None.
Proof.
  intros H. unfold table.
  destruct (classify_tests old) as (Ho1 & _ & Ho3 & Ho4 & _).
  destruct (classify_tests new) as (_ & _ & Hn3 & Hn4 & Hn5).
  rewrite Ho1, Ho3, Ho4, Hn3, Hn4, Hn5.
  destruct H as [[Ho Hn]|[->|[-> Hn]]].
  - by rewrite (classify_active old), (classify_active new).
  - change (classify "cancelled") with CCancelled. cbn. by destruct (classify new).
  - change (classify "completed") with CCompleted. cbn.
    destruct (classify new) eqn:Hc; try done.
    by apply classify_cancelled in Hc.
Qed.

(** X5. Moving an order between confirmed, preparing and ready, moving
    it out of cancelled, or moving it out of completed to anything but
    cancelled changes nothing in a wallet that carries today's date:
    no counter, no log entry, not even [lastUpdated].  In particular an
    order taken back from cancelled is not put into escrow again. *)
Theorem idle_transitions st w now old new a oid :
  wallet st = Some w → todayDate w = today now → 0 < a → old ≠ new →
  (active_status old ∧ active_status new) ∨ old = "cancelled" ∨
  (old = "completed" ∧ new ≠ "cancelled") →
  applyTransition st now old new a oid = (st, None).
Proof.
  intros Hw Hd Ha Hne Hidle.
  destruct (applyTransition_same_day st w now old new a oid Hw Hd Ha Hne)
    as (st' & Hrun & Hw' & Hl & Hwd).
  rewrite (table_idle old new a Hidle) in Hw', Hl. cbn in Hw', Hl.
  rewrite Hrun. f_equal. destruct st, st'. cbn in *. congruence.
Qed.

Lemma idle_transitions_witness :
  applyTransition settled_store "2024-01-02T09:00:00.000Z" "cancelled" "confirmed" 60 "ORD9"
    = (settled_store, None) ∧
  applyTransition settled_store "2024-01-02T09:00:00.000Z" "confirmed" "ready" 60 "ORD9"
    = (settled_store, None).
Proof.
  split.
  - apply (idle_transitions settled_store settled_wallet);
      [reflexivity|reflexivity|lia|discriminate|]. right. by left.
  - apply (idle_transitions settled_store settled_wallet);
      [reflexivity|reflexivity|lia|discriminate|]. left. split; [by left|by right; right].
Defined.

(** X6. Cancelling a completed order is not checked against the
    balance: whenever the amount exceeds [totalBalance] (for instance
    after a withdrawal) the call goes through and leaves [totalBalance]
    negative. *)
Theorem refund_can_overdraw st w now a oid :
  wallet st = Some w → 0 < a → totalBalance w < a →
  ∃ st' w',
    applyTransition st now "completed" "cancelled" a oid = (st', None) ∧
    wallet st' = Some w' ∧
    totalBalance w' = totalBalance w - a ∧ totalBalance w' < 0.
Proof.
  intros Hw Ha Hlt.
  destruct (applyTransition_effect st now "completed" "cancelled" a oid Ha)
    as (st' & Hrun & Hw' & _); [discriminate|].
  change (table "completed" "cancelled" a)
    with (Some (mkEffect 0 (- a) 0 (Some refund_deduction))) in Hw'.
  eexists st', _. split; [exact Hrun|]. split; [exact Hw'|].
  assert (Hb : totalBalance (base_wallet st now) = totalBalance w).
  { unfold base_wallet. rewrite Hw. by destruct (String.eqb _ _). }
  cbn. rewrite Hb. lia.
Qed.

Lemma refund_can_overdraw_witness :
  ∃ st' w',
    applyTransition settled_store "2024-01-05T09:00:00.000Z" "completed" "cancelled"
      1200 "ORD9" = (st', None) ∧
    wallet st' = Some w' ∧ totalBalance w' = -200.
Proof.
  destruct (refund_can_overdraw settled_store settled_wallet "2024-01-05T09:00:00.000Z"
              1200 "ORD9") as (st' & w' & H1 & H2 & H3 & _);
    [reflexivity|lia|cbn; lia|].
  exists st', w'. split; [exact H1|]. split; [exact H2|]. exact H3.
Defined.

(** *** The withdrawal route *)
Lemma POST_run st w now a :
  wallet st = Some w → 0 < a →
  POST st now (Some a) =
  if totalBalance w <? a
  then (st, JsonError 500 "Insufficient balance for withdrawal")
  else (withdrawn now a st w, JsonSuccess 200 "Withdrawal successful").
Proof.
  intros Hw Ha. unfold POST.
  replace ((a =? 0) || (a <=? 0)) with false
    by (symmetry; apply orb_false_iff; lia).
  unfold runTransaction, withdraw_body, mbind, txn_bind, tx_get_wallet, throw.
  rewrite Hw, num_or_self.
  destruct (totalBalance w <? a); [done|].
  unfold tx_write. destruct st as [? txs wds]. cbn in Hw. subst.
  cbn [app commit apply_write wallet canteenTransactions withdrawals].
  unfold update_wallet, withdrawn. eval_maps. cbn.
  repeat f_equal; lia.
Qed.

(** X7. The withdrawal route answers success only for a positive amount
    that an existing wallet covers, and then the store is the old one
    with the amount taken off [totalBalance], one log entry and one
    receipt more; with any other answer the store is unchanged. *)
Theorem POST_success_only st now amount :
  (∀ code msg, (POST st now amount).2 = JsonSuccess code msg →
     ∃ a w, amount = Some a ∧ 0 < a ∧ wallet st = Some w ∧ a <= totalBalance w ∧
            (POST st now amount).1 = withdrawn now a st w) ∧
  (∀ code msg, (POST st now amount).2 = JsonError code msg →
     (POST st now amount).1 = st).
Proof.
  destruct amount as [a|]; [|split; [intros ? ? [=]|by intros]].
  destruct (decide (0 < a)) as [Ha|Ha].
  - destruct (wallet st) as [w|] eqn:Hw.
    + rewrite (POST_run st w now a Hw Ha).
      destruct (Z.ltb_spec (totalBalance w) a); cbn.
      * split; [intros ? ? [=]|done].
      * split; [|intros ? ? [=]]. intros _ _ _. by exists a, w.
    + unfold POST.
      replace ((a =? 0) || (a <=? 0)) with false
        by (symmetry; apply orb_false_iff; lia).
      unfold runTransaction, withdraw_body, mbind, txn_bind, tx_get_wallet, throw.
      rewrite Hw. split; [intros ? ? [=]|done].
  - unfold POST.
    replace ((a =? 0) || (a <=? 0)) with true
      by (symmetry; apply orb_true_iff; lia).
    split; [intros ? ? [=]|done].
Qed.

Lemma POST_success_only_witness :
  ∃ a w,
    Some 1000 = Some a ∧ 0 < a ∧ wallet settled_store = Some w ∧
    a <= totalBalance w ∧
    (POST settled_store "2024-01-02T11:00:00.000Z" (Some 1000)).1 =
      withdrawn "2024-01-02T11:00:00.000Z" a settled_store w.
Proof.
  destruct (POST_success_only settled_store "2024-01-02T11:00:00.000Z" (Some 1000))
    as [H _].
  apply (H 200 "Withdrawal successful"). reflexivity.
Defined.

(** X8. The withdrawal route keeps a non-negative [totalBalance]
    non-negative, whatever amount is asked for, and never removes or
    changes an entry of the log. *)
Theorem POST_keeps_balance st w now amount :
  wallet st = Some w → 0 <= totalBalance w →
  ∃ w' l,
    wallet (POST st now amount).1 = Some w' ∧ 0 <= totalBalance w' ∧
    canteenTransactions (POST st now amount).1 = canteenTransactions st ++ l.
Proof.
  intros Hw Hnn.
  assert (Hsame : ∃ w' l, wallet st = Some w' ∧ 0 <= totalBalance w' ∧
                          canteenTransactions st = canteenTransactions st ++ l).
  { exists w, []. by rewrite app_nil_r. }
  destruct amount as [a|]; [|done].
  destruct (decide (0 < a)) as [Ha|Ha].
  - rewrite (POST_run st w now a Hw Ha).
    destruct (Z.ltb_spec (totalBalance w) a); [done|].
    eexists _, _. split; [reflexivity|]. cbn. split; [lia|done].
  - unfold POST.
    replace ((a =? 0) || (a <=? 0)) with true
      by (symmetry; apply orb_true_iff; lia).
    done.
Qed.

Lemma POST_keeps_balance_witness :
  ∃ w' l,
    wallet (POST settled_store "2024-01-02T11:00:00.000Z" (Some 1000)).1 = Some w' ∧
    0 <= totalBalance w' ∧
    canteenTransactions (POST settled_store "2024-01-02T11:00:00.000Z" (Some 1000)).1
      = canteenTransactions settled_store ++ l.
Proof.
  apply (POST_keeps_balance settled_store settled_wallet); [reflexivity|cbn; lia].
Defined.

End LedgerExtra.

(** ** The admin orders route *)
Module OrdersFacts.
Import Ledger LedgerSpec LedgerFacts Orders OrdersSpec Views.

(** *** The wallet call inside a larger transaction *)
Lemma wallet_call_commits st now old new a oid :
  ∃ ws st',
    updateCanteenWallet now old new a oid st [] = Done tt ws ∧
    commit st ws = Some st' ∧
    applyTransition st now old new a oid = (st', None).
Proof.
  destruct (decide (0 < a ∧ old ≠ new)) as [[Ha Hne]|Hg].
  - destruct (applyTransition_effect st now old new a oid Ha Hne)
      as (st' & Hrun & _).
    unfold applyTransition, runTransaction in Hrun.
    rewrite updateCanteenWallet_writes in Hrun by done.
    eexists _, st'. split; [by apply updateCanteenWallet_writes|].
    destruct (commit st _) eqn:Hc; [|discriminate].
    split; [congruence|].
    unfold applyTransition, runTransaction.
    rewrite updateCanteenWallet_writes by done. by rewrite Hc.
  - assert (Hguard : (a <=? 0) || String.eqb old new = true).
    { apply orb_true_iff. destruct (decide (old = new)) as [->|];
        [right; apply String.eqb_refl|left].
      destruct (decide (0 < a)); [tauto|lia]. }
    exists [], st.
    unfold applyTransition, runTransaction, updateCanteenWallet. by rewrite Hguard.
Qed.

Lemma commit_db_app db ws1 ws2 :
  commit_db db (ws1 ++ ws2) = commit_db db ws1 ≫= fun db' => commit_db db' ws2.
Proof.
  revert db. induction ws1 as [|w ws1 IH]; intros db; [done|].
  cbn. destruct (apply_db_write db w); [apply IH|done].
Qed.

Lemma commit_db_wallet db ws st' :
  commit (ledger db) ws = Some st' →
  commit_db db (map WalletWrite ws) =
  Some {| ledger := st'; orders := orders db; users := users db;
          walletTransactions := walletTransactions db |}.
Proof.
  revert db. induction ws as [|w ws IH]; intros db; cbn.
  - intros [= <-]. by destruct db.
  - destruct (apply_write (ledger db) w) as [st1|] eqn:Hw; [|done].
    cbn. intros Hc. by rewrite (IH {| ledger := st1 |}).
Qed.

(** The wallet call followed by further writes: the ledger of the
    snapshot moves as [applyTransition] moves it. *)
Lemma with_wallet_commit db now old new a oid rest :
  ∃ ws,
    with_wallet (updateCanteenWallet now old new a oid) db [] =
      DbDone tt (map WalletWrite ws) ∧
    commit_db db (map WalletWrite ws ++ rest) =
    commit_db {| ledger := (applyTransition (ledger db) now old new a oid).1;
                 orders := orders db; users := users db;
                 walletTransactions := walletTransactions db |} rest.
Proof.
  destruct (wallet_call_commits (ledger db) now old new a oid)
    as (ws & st' & Hrun & Hc & Happ).
  exists ws. split.
  - unfold with_wallet. by rewrite Hrun.
  - rewrite commit_db_app, (commit_db_wallet db ws st' Hc), Happ. done.
Qed.

Lemma PATCH_authorized db now nowMs tid id status prep :
  id ≠ EmptyString →
  PATCH db true now nowMs tid (Some id) status prep =
  match runDbTransaction db (patch_body now nowMs tid id status prep) with
  | (db', None) => (db', JsonOk (JS.strict_eq status "cancelled"))
  | (db', Some message) => (db', JsonError 500 message)
  end.
Proof. by destruct id. Qed.

(** The cancellation, in one equation. *)
Lemma PATCH_cancel db now nowMs tid id o prep :
  id ≠ EmptyString → orders db !! id = Some o → status o ≠ "cancelled" →
  PATCH db true now nowMs tid (Some id) (Some "cancelled") prep =
  match users db !! userId o with
  | Some b => (cancel_result db now tid id o b, JsonOk true)
  | None => (db, JsonError 500 commit_failed)
  end.
Proof.
  intros Hid Ho Hs. rewrite PATCH_authorized by done.
  unfold runDbTransaction, patch_body, mbind, dbtxn_bind, db_get_order.
  rewrite Ho. cbn [JS.strict_eq]. rewrite String.eqb_refl.
  unfold cancel_block. apply String.eqb_neq in Hs. rewrite Hs.
  unfold mbind, dbtxn_bind, db_write.
  destruct (with_wallet_commit db now (status o) "cancelled" (total o) (orderId o)
    [UpdateOrder id
       {| u_updatedAt := Some now; u_status := Some "cancelled"; u_prepTime := None;
          u_estimatedReadyAt := None; u_readyAt := None |};
     IncrementUserBalance (userId o) (total o);
     AddUserTransaction (refund_entry now tid o)]) as (ws & -> & Hc).
  rewrite <- !app_assoc. cbn [app]. unfold refund_entry in Hc. rewrite Hc.
  cbn [commit_db apply_db_write ledger orders users walletTransactions].
  rewrite Ho. cbn -[applyTransition String.append].
  destruct (users db !! userId o) as [b|]; reflexivity.
Qed.

Lemma finish_update_run db now id o u ns :
  orders db !! id = Some o →
  runDbTransaction db (finish_update now id o u ns) =
  (update_result db now id o u ns, None).
Proof.
  intros Ho. unfold runDbTransaction, finish_update, update_result, synced_ledger.
  unfold mbind, dbtxn_bind, db_write, mret, dbtxn_ret.
  destruct (String.eqb_spec ns (status o)) as [->|Hne]; cbn [negb].
  - cbn [app commit_db apply_db_write]. rewrite Ho. cbn.
    by rewrite LedgerExtra.applyTransition_guard by by right.
  - destruct (with_wallet_commit db now (status o) ns (total o) (orderId o)
      [UpdateOrder id (set_status ns u)]) as (ws & -> & Hc).
    rewrite Hc. cbn [commit_db apply_db_write orders]. rewrite Ho. done.
Qed.

Lemma update_block_plan now nowMs id o status prep db ws :
  update_block now nowMs id o status prep db ws =
  match plan now nowMs o status prep with
  | Some (u, ns) => finish_update now id o u ns db ws
  | None => DbThrow "Invalid time value"
  end.
Proof.
  unfold update_block, plan, finish_update.
  destruct (num_truthy prep) as [p|]; [|done].
  destruct (Clock.toISOString _); done.
Qed.

(** The route, with its transaction carried out. *)
Lemma PATCH_eq db authorized now nowMs tid orderId status prep :
  PATCH db authorized now nowMs tid orderId status prep =
  PATCH_outcome db authorized now nowMs tid orderId status prep.
Proof.
  unfold PATCH_outcome.
  destruct authorized; [|done].
  destruct orderId as [id|]; [|done].
  destruct (decide (id = EmptyString)) as [->|Hid]; [done|].
  replace (match id with EmptyString => (db, JsonError 400 "Order ID required")
           | String _ _ => _ end)
    with (match orders db !! id with
          | Some o =>
              if JS.strict_eq status "cancelled"
              then
                if String.eqb (Orders.status o) "cancelled"
                then (db, JsonError 500 "Order is already cancelled")
                else
                  match users db !! userId o with
                  | Some b => (cancel_result db now tid id o b, JsonOk true)
                  | None => (db, JsonError 500 commit_failed)
                  end
              else
                match plan now nowMs o status prep with
                | Some (updateData, newStatus) =>
                    (update_result db now id o updateData newStatus, JsonOk false)
                | None => (db, JsonError 500 "Invalid time value")
                end
          | None => (db, JsonError 500 "Order not found")
          end) by by destruct id.
  cbn [negb].
  destruct (orders db !! id) as [o|] eqn:Ho.
  - destruct (JS.strict_eq status "cancelled") eqn:Hs.
    + assert (status = Some "cancelled") as ->.
      { destruct status as [s|]; [|done]. cbn in Hs.
        apply String.eqb_eq in Hs. by subst. }
      destruct (String.eqb_spec (Orders.status o) "cancelled") as [Hc|Hc].
      * rewrite PATCH_authorized by done.
        unfold runDbTransaction, patch_body, mbind, dbtxn_bind, db_get_order.
        rewrite Ho. cbn [JS.strict_eq]. rewrite String.eqb_refl.
        unfold cancel_block. by rewrite Hc.
      * by apply PATCH_cancel.
    + rewrite PATCH_authorized by done. rewrite Hs.
      unfold runDbTransaction at 1.
      unfold patch_body, mbind at 1, dbtxn_bind at 1, db_get_order.
      rewrite Ho, Hs, update_block_plan.
      destruct (plan now nowMs o status prep) as [[u ns]|]; [|done].
      pose proof (finish_update_run db now id o u ns Ho) as H.
      unfold runDbTransaction in H.
      destruct (finish_update now id o u ns db []) as [? ws|e]; [|by injection H].
      destruct (commit_db db ws); by injection H as ->.
  - rewrite PATCH_authorized by done.
    unfold runDbTransaction, patch_body, mbind, dbtxn_bind, db_get_order.
    by rewrite Ho.
Qed.

Lemma strict_eq_true (x : option string) s : JS.strict_eq x s = true → x = Some s.
Proof. destruct x as [v|]; [|done]. cbn. by intros ->%String.eqb_eq. Qed.

Lemma plan_is_Some now nowMs o status prep :
  is_Some (plan now nowMs o status prep) ↔
  ∀ p, num_truthy prep = Some p →
       - Clock.MAX_TIME <= nowMs + p * 60 * 1000 <= Clock.MAX_TIME.
Proof.
  unfold plan, Clock.toISOString.
  destruct (num_truthy prep) as [p|]; [|split; [by intros|by eexists]].
  destruct (Z.leb_spec (- Clock.MAX_TIME) (nowMs + p * 60 * 1000));
    destruct (Z.leb_spec (nowMs + p * 60 * 1000) Clock.MAX_TIME); cbn [andb].
  - split; [intros _ ? [= <-]; lia|by eexists].
  - split; [by intros [? [=]]|]. intros Hp. specialize (Hp p eq_refl). lia.
  - split; [by intros [? [=]]|]. intros Hp. specialize (Hp p eq_refl). lia.
  - split; [by intros [? [=]]|]. intros Hp. specialize (Hp p eq_refl). lia.
Qed.

(** Every successful call, by the order it finds. *)
Lemma PATCH_ok db authorized now nowMs tid orderId status prep db' r :
  PATCH db authorized now nowMs tid orderId status prep = (db', JsonOk r) →
  authorized = true ∧
  ∃ id o,
    orderId = Some id ∧ id ≠ EmptyString ∧ orders db !! id = Some o ∧
    r = JS.strict_eq status "cancelled" ∧
    if JS.strict_eq status "cancelled" then
      Orders.status o ≠ "cancelled" ∧
      ∃ b, users db !! userId o = Some b ∧ db' = cancel_result db now tid id o b
    else
      ∃ u ns, plan now nowMs o status prep = Some (u, ns) ∧
              db' = update_result db now id o u ns.
Proof.
  rewrite PATCH_eq. unfold PATCH_outcome.
  destruct authorized; [|done]. cbn [negb].
  destruct orderId as [[|c id]|]; [done| |done].
  destruct (orders db !! String c id) as [o|] eqn:Ho; [|done].
  destruct (JS.strict_eq status "cancelled").
  - destruct (String.eqb_spec (Orders.status o) "cancelled"); [done|].
    destruct (users db !! userId o) as [b|] eqn:Hb; [|done].
    intros [= <- <-]. split; [done|]. exists (String c id), o.
    split; [done|]. split; [done|]. split; [done|]. split; [done|].
    split; [done|]. by exists b.
  - destruct (plan now nowMs o status prep) as [[u ns]|] eqn:Hp; [|done].
    intros [= <- <-]. split; [done|]. exists (String c id), o.
    split; [done|]. split; [done|]. split; [done|]. split; [done|].
    by exists u, ns.
Qed.

(** The stored order after [update_block] wrote [u] and moved to [ns]. *)
Lemma update_result_order db now id o u ns :
  orders (update_result db now id o u ns) !! id =
  Some (update_order (set_status ns u) o) ∨
  (ns = Orders.status o ∧
   orders (update_result db now id o u ns) !! id = Some (update_order u o)).
Proof.
  unfold update_result. cbn [orders]. rewrite lookup_insert_eq.
  destruct (String.eqb_spec ns (Orders.status o)); cbn [negb]; [by right|by left].
Qed.

Lemma update_result_status db now id o u ns :
  u_status u = None →
  ∃ o', orders (update_result db now id o u ns) !! id = Some o' ∧
        Orders.status o' = ns ∧ userId o' = userId o ∧ total o' = total o ∧
        Orders.orderId o' = Orders.orderId o ∧
        updatedAt o' = default (updatedAt o) (u_updatedAt u) ∧
        Orders.prepTime o' =
          match u_prepTime u with Some p => Some p | None => Orders.prepTime o end ∧
        readyAt o' = default (readyAt o) (u_readyAt u) ∧
        estimatedReadyAt o' = default (estimatedReadyAt o) (u_estimatedReadyAt u).
Proof.
  intros Hu. unfold update_result. cbn [orders]. rewrite lookup_insert_eq.
  eexists. split; [reflexivity|].
  destruct (String.eqb_spec ns (Orders.status o)) as [->|]; cbn [negb]; cbn.
  - by rewrite Hu.
  - done.
Qed.

(** What [plan] leaves in the update object. *)
Lemma plan_fields now nowMs o status prep u ns :
  plan now nowMs o status prep = Some (u, ns) →
  u_status u = None ∧ u_updatedAt u = Some now ∧ u_prepTime u = num_truthy prep ∧
  u_readyAt u = u_estimatedReadyAt u ∧
  match num_truthy prep with
  | Some p =>
      u_readyAt u = Some (Clock.toISOString (nowMs + p * 60 * 1000)) ∧
      is_Some (Clock.toISOString (nowMs + p * 60 * 1000)) ∧
      ns = (if str_falsy status && String.eqb (Orders.status o) "pending"
            then "confirmed" else JS.str_or status (Orders.status o))
  | None =>
      ns = JS.str_or status (Orders.status o) ∧
      u_readyAt u = if String.eqb ns "ready" then Some None else None
  end.
Proof.
  unfold plan. destruct (num_truthy prep) as [p|].
  - destruct (Clock.toISOString _) as [iso|]; [|done].
    intros [= <- <-]. by destruct (String.eqb _ "ready").
  - intros [= <- <-]. by destruct (String.eqb _ "ready").
Qed.

(** Every call either answers an error and leaves the database as it
    was, or succeeds as [PATCH_ok] says. *)
Lemma PATCH_cases db authorized now nowMs tid orderId status prep :
  (∃ code msg,
     PATCH db authorized now nowMs tid orderId status prep = (db, JsonError code msg)) ∨
  (∃ db' r,
     PATCH db authorized now nowMs tid orderId status prep = (db', JsonOk r)).
Proof.
  rewrite PATCH_eq. unfold PATCH_outcome.
  destruct authorized; [|left; by eexists _, _]. cbn [negb].
  destruct orderId as [[|c id]|]; [left; by eexists _, _| |left; by eexists _, _].
  destruct (orders db !! String c id) as [o|]; [|left; by eexists _, _].
  destruct (JS.strict_eq status "cancelled").
  - destruct (String.eqb _ _); [left; by eexists _, _|].
    destruct (users db !! _); [right; by eexists _, _|left; by eexists _, _].
  - destruct (plan _ _ _ _ _) as [[u ns]|]; [right; by eexists _, _|left; by eexists _, _].
Qed.

(** X9. Whenever [PATCH] answers with an error, the database is exactly
    what it was: no order, no customer balance, no refund entry and no
    counter of the canteen wallet has changed, also when the error comes
    only at commit, after the wallet call has buffered its writes. *)
Theorem PATCH_error_changes_nothing
    db authorized now nowMs tid orderId status prep code msg :
  (PATCH db authorized now nowMs tid orderId status prep).2 = JsonError code msg →
  (PATCH db authorized now nowMs tid orderId status prep).1 = db.
Proof.
  rewrite PATCH_eq. unfold PATCH_outcome.
  destruct authorized; [|done]. cbn [negb].
  destruct orderId as [[|c id]|]; [done| |done].
  destruct (orders db !! String c id) as [o|]; [|done].
  destruct (JS.strict_eq status "cancelled").
  - destruct (String.eqb _ _); [done|]. by destruct (users db !! _).
  - by destruct (plan _ _ _ _ _) as [[u ns]|].
Qed.

Lemma PATCH_error_changes_nothing_witness :
  (PATCH example_db true example_now example_nowMs "t1"
     (Some "c") (Some "cancelled") None).2 = JsonError 500 commit_failed ∧
  (PATCH example_db true example_now example_nowMs "t1"
     (Some "c") (Some "cancelled") None).1 = example_db.
Proof.
  assert (H : (PATCH example_db true example_now example_nowMs "t1"
                 (Some "c") (Some "cancelled") None).2 = JsonError 500 commit_failed)
    by (vm_compute; reflexivity).
  split; [exact H|].
  exact (PATCH_error_changes_nothing _ _ _ _ _ _ _ _ _ _ H).
Defined.

(** X10. [PATCH] succeeds exactly when the caller is an admin, the order
    id is a non-empty string naming a stored order, and: for a
    cancellation, the order is not cancelled yet and the customer's
    document exists; for any other request, the preparation time, if one
    is sent, leads to a representable date.  The answer then carries
    [refunded] exactly for a cancellation. *)
Theorem PATCH_succeeds_iff db authorized now nowMs tid orderId status prep r :
  (PATCH db authorized now nowMs tid orderId status prep).2 = JsonOk r ↔
  r = JS.strict_eq status "cancelled" ∧ authorized = true ∧
  ∃ id o,
    orderId = Some id ∧ id ≠ EmptyString ∧ orders db !! id = Some o ∧
    if JS.strict_eq status "cancelled"
    then Orders.status o ≠ "cancelled" ∧ is_Some (users db !! userId o)
    else ∀ p, num_truthy prep = Some p →
           - Clock.MAX_TIME <= nowMs + p * 60 * 1000 <= Clock.MAX_TIME.
Proof.
  split.
  - intros H.
    destruct (PATCH db authorized now nowMs tid orderId status prep) as [db' resp] eqn:HP.
    cbn in H. subst resp.
    destruct (PATCH_ok _ _ _ _ _ _ _ _ _ _ HP) as (-> & id & o & -> & Hid & Ho & -> & Hc).
    split; [done|]. split; [done|]. exists id, o.
    split; [done|]. split; [done|]. split; [done|].
    destruct (JS.strict_eq status "cancelled").
    + destruct Hc as (Hs & b & Hb & _). split; [done|]. by exists b.
    + destruct Hc as (u & ns & Hp & _).
      apply (proj1 (plan_is_Some now nowMs o status prep)). by rewrite Hp.
  - intros (-> & -> & id & o & -> & Hid & Ho & Hc).
    rewrite PATCH_eq. unfold PATCH_outcome. cbn [negb].
    destruct id as [|c id]; [done|]. rewrite Ho.
    destruct (JS.strict_eq status "cancelled").
    + destruct Hc as (Hs & b & Hb). apply String.eqb_neq in Hs. by rewrite Hs, Hb.
    + apply (proj2 (plan_is_Some now nowMs o status prep)) in Hc.
      destruct Hc as [[u ns] Hp]. by rewrite Hp.
Qed.

Lemma PATCH_succeeds_iff_witness :
  (PATCH example_db true example_now example_nowMs "t1"
     (Some "a") (Some "ready") (Some 15)).2 = JsonOk false.
Proof.
  apply PATCH_succeeds_iff.
  split; [reflexivity|]. split; [reflexivity|]. exists "a", order_a.
  split; [reflexivity|]. split; [discriminate|]. split; [reflexivity|].
  cbn. intros p [= <-]. vm_compute. split; discriminate.
Defined.

(** X11. A cancellation that succeeds marks the order cancelled (only
    [status] and [updatedAt] change), adds the order's total to the
    balance of its customer and to no other balance, appends exactly one
    [refund] entry of that total, and moves the canteen wallet as
    [updateCanteenWallet] does for the step from the stored status to
    cancelled.  A preparation time sent along is ignored. *)
Theorem PATCH_cancel_refunds db now nowMs tid id o b prep :
  id ≠ EmptyString → orders db !! id = Some o → Orders.status o ≠ "cancelled" →
  users db !! userId o = Some b →
  ∃ db',
    PATCH db true now nowMs tid (Some id) (Some "cancelled") prep = (db', JsonOk true) ∧
    orders db' !! id = Some (cancelled_order now o) ∧
    users db' !! userId o = Some (b + total o) ∧
    (∀ u, u ≠ userId o → users db' !! u = users db !! u) ∧
    walletTransactions db' = walletTransactions db ++ [refund_entry now tid o] ∧
    ledger db' =
      (applyTransition (ledger db) now (Orders.status o) "cancelled" (total o)
         (Orders.orderId o)).1.
Proof.
  intros Hid Ho Hs Hb. rewrite PATCH_cancel with (o := o) by done. rewrite Hb.
  eexists. split; [reflexivity|]. unfold cancel_result.
  cbn [orders users walletTransactions ledger].
  rewrite !lookup_insert_eq. split; [done|]. split; [done|].
  split; [|done]. intros u Hu. by rewrite lookup_insert_ne.
Qed.

Lemma PATCH_cancel_refunds_witness :
  ∃ db',
    PATCH example_db true example_now example_nowMs "t1"
      (Some "a") (Some "cancelled") (Some 30) = (db', JsonOk true) ∧
    orders db' !! "a" = Some (cancelled_order example_now order_a) ∧
    users db' !! "u1" = Some (5 + 120) ∧
    walletTransactions db' = [refund_entry example_now "t1" order_a].
Proof.
  destruct (PATCH_cancel_refunds example_db example_now example_nowMs "t1" "a"
              order_a 5 (Some 30)) as (db' & H1 & H2 & H3 & _ & H5 & _);
    [discriminate|reflexivity|discriminate|reflexivity|].
  exists db'. split; [exact H1|]. split; [exact H2|]. split; [exact H3|exact H5].
Defined.




(** X13. After every successful call the canteen wallet has made exactly
    the step from the status the order had to the status the order has
    now, for the order's total; the order keeps its customer, its total
    and its display id, and carries the time of the call. *)
Theorem PATCH_syncs_wallet db authorized now nowMs tid id status prep db' r o :
  PATCH db authorized now nowMs tid (Some id) status prep = (db', JsonOk r) →
  orders db !! id = Some o →
  ∃ o',
    orders db' !! id = Some o' ∧
    ledger db' =
      (applyTransition (ledger db) now (Orders.status o) (Orders.status o') (total o)
         (Orders.orderId o)).1 ∧
    userId o' = userId o ∧ total o' = total o ∧
    Orders.orderId o' = Orders.orderId o ∧ updatedAt o' = now.
Proof.
  intros HP Ho.
  destruct (PATCH_ok _ _ _ _ _ _ _ _ _ _ HP)
    as (_ & id' & o0 & [= <-] & Hid & Ho' & _ & Hc).
  rewrite Ho in Ho'. injection Ho' as <-.
  destruct (JS.strict_eq status "cancelled").
  - destruct Hc as (_ & b & _ & ->). exists (cancelled_order now o).
    unfold cancel_result. cbn [orders ledger]. by rewrite lookup_insert_eq.
  - destruct Hc as (u & ns & Hp & ->).
    destruct (plan_fields _ _ _ _ _ _ _ Hp) as (Hu & Hat & _).
    destruct (update_result_status db now id o u ns Hu)
      as (o' & Ho' & Hst & Hui & Hto & Hoi & Hup & _).
    exists o'. split; [done|]. rewrite Hst, Hup, Hat.
    by unfold update_result, synced_ledger.
Qed.

Lemma PATCH_syncs_wallet_witness :
  ∃ db' o',
    PATCH example_db true example_now example_nowMs "t1" (Some "b") None (Some 20)
      = (db', JsonOk false) ∧
    orders db' !! "b" = Some o' ∧
    ledger db' =
      (applyTransition LedgerSpec.settled_store example_now "pending"
         (Orders.status o') 80 "ORD-2").1.
Proof.
  destruct (PATCH example_db true example_now example_nowMs "t1" (Some "b") None (Some 20))
    as [db' resp] eqn:HP.
  assert (Hr : resp = JsonOk false)
    by (apply (f_equal snd) in HP; vm_compute in HP; congruence).
  subst resp.
  destruct (PATCH_syncs_wallet _ _ _ _ _ _ _ _ _ _ order_b HP) as (o' & H1 & H2 & _);
    [reflexivity|].
  exists db', o'. split; [reflexivity|]. split; [exact H1|exact H2].
Defined.

(** X14. What a call never touches.  Every order other than the one
    named keeps its document; no order is created or deleted; the order
    named keeps its customer, total and display id; the withdrawal
    receipts stay, the canteen log and the customers' refund log are only
    appended to; no customer document is created or deleted; and unless
    the request is a cancellation, balances and refund log are exactly as
    before. *)
Theorem PATCH_frame db authorized now nowMs tid orderId status prep :
  (∀ id', orderId ≠ Some id' →
     orders (PATCH db authorized now nowMs tid orderId status prep).1 !! id' =
     orders db !! id') ∧
  (∀ id' o, orders db !! id' = Some o →
     ∃ o', orders (PATCH db authorized now nowMs tid orderId status prep).1 !! id'
             = Some o' ∧
           userId o' = userId o ∧ total o' = total o ∧
           Orders.orderId o' = Orders.orderId o) ∧
  (∀ id', orders db !! id' = None →
     orders (PATCH db authorized now nowMs tid orderId status prep).1 !! id' = None) ∧
  withdrawals (ledger (PATCH db authorized now nowMs tid orderId status prep).1) =
    withdrawals (ledger db) ∧
  (∃ l, canteenTransactions
          (ledger (PATCH db authorized now nowMs tid orderId status prep).1) =
        canteenTransactions (ledger db) ++ l ∧ (length l ≤ 1)%nat) ∧
  (∃ l, walletTransactions (PATCH db authorized now nowMs tid orderId status prep).1 =
        walletTransactions db ++ l ∧ (length l ≤ 1)%nat) ∧
  (∀ u, is_Some (users (PATCH db authorized now nowMs tid orderId status prep).1 !! u) ↔
        is_Some (users db !! u)) ∧
  (status ≠ Some "cancelled" →
     users (PATCH db authorized now nowMs tid orderId status prep).1 = users db ∧
     walletTransactions (PATCH db authorized now nowMs tid orderId status prep).1 =
       walletTransactions db).
Proof.
  assert (Hsame :
    (∀ id', orderId ≠ Some id' → orders db !! id' = orders db !! id') ∧
    (∀ id' o, orders db !! id' = Some o →
       ∃ o', orders db !! id' = Some o' ∧ userId o' = userId o ∧ total o' = total o ∧
             Orders.orderId o' = Orders.orderId o) ∧
    (∀ id', orders db !! id' = None → orders db !! id' = None) ∧
    withdrawals (ledger db) = withdrawals (ledger db) ∧
    (∃ l, canteenTransactions (ledger db) = canteenTransactions (ledger db) ++ l ∧
          (length l ≤ 1)%nat) ∧
    (∃ l, walletTransactions db = walletTransactions db ++ l ∧ (length l ≤ 1)%nat) ∧
    (∀ u, is_Some (users db !! u) ↔ is_Some (users db !! u)) ∧
    (status ≠ Some "cancelled" →
       users db = users db ∧ walletTransactions db = walletTransactions db)).
  { split; [done|]. split; [intros id' o Ho; by exists o|]. split; [done|].
    split; [done|].
    split; [exists []; rewrite app_nil_r; split; [done|cbn; lia]|].
    split; [exists []; rewrite app_nil_r; split; [done|cbn; lia]|]. done. }
  destruct (PATCH_cases db authorized now nowMs tid orderId status prep)
    as [(code & msg & ->)|(db' & r & HP)]; [exact Hsame|]. clear Hsame.
  rewrite HP. cbn [fst].
  destruct (PATCH_ok _ _ _ _ _ _ _ _ _ _ HP) as (_ & id & o & -> & Hid & Ho & _ & Hc).
  destruct (JS.strict_eq status "cancelled") eqn:Hs.
  - destruct Hc as (_ & b & Hb & ->). unfold cancel_result, synced_ledger.
    cbn [orders users walletTransactions ledger].
    destruct (LedgerExtra.applyTransition_frame (ledger db) now (Orders.status o)
                "cancelled" (total o) (Orders.orderId o)) as [Hwd Hlog].
    split; [intros id' Hne; apply lookup_insert_ne; congruence|].
    split.
    { intros id' o1 Ho1. destruct (decide (id = id')) as [<-|Hne].
      - rewrite lookup_insert_eq. eexists. split; [reflexivity|].
        rewrite Ho in Ho1. by injection Ho1 as <-.
      - rewrite lookup_insert_ne by done. by exists o1. }
    split.
    { intros id' Hn. rewrite lookup_insert_ne; [done|]. intros <-. congruence. }
    split; [done|]. split; [done|].
    split; [eexists [_]; split; [done|cbn; lia]|].
    split.
    { intros u. destruct (decide (userId o = u)) as [<-|Hne].
      - rewrite lookup_insert_eq, Hb. split; by eexists.
      - by rewrite lookup_insert_ne. }
    intros Hne. apply strict_eq_true in Hs. congruence.
  - destruct Hc as (u & ns & Hp & ->).
    destruct (plan_fields _ _ _ _ _ _ _ Hp) as (Hu & _).
    destruct (update_result_status db now id o u ns Hu)
      as (o' & Ho' & _ & Hui & Hto & Hoi & _).
    destruct (LedgerExtra.applyTransition_frame (ledger db) now (Orders.status o)
                ns (total o) (Orders.orderId o)) as [Hwd Hlog].
    split.
    { intros id' Hne. unfold update_result. cbn [orders].
      apply lookup_insert_ne. congruence. }
    split.
    { intros id' o1 Ho1. destruct (decide (id = id')) as [<-|Hne].
      - exists o'. rewrite Ho in Ho1. injection Ho1 as <-. done.
      - unfold update_result. cbn [orders]. rewrite lookup_insert_ne by done.
        by exists o1. }
    split.
    { intros id' Hn. unfold update_result. cbn [orders].
      rewrite lookup_insert_ne; [done|]. intros <-. congruence. }
    unfold update_result, synced_ledger. cbn [orders users walletTransactions ledger].
    split; [done|]. split; [done|].
    split; [exists []; rewrite app_nil_r; split; [done|cbn; lia]|]. done.
Qed.

Lemma PATCH_frame_witness :
  orders (PATCH example_db true example_now example_nowMs "t1"
            (Some "a") (Some "completed") None).1 !! "b" = Some order_b ∧
  users (PATCH example_db true example_now example_nowMs "t1"
           (Some "a") (Some "completed") None).1 = users example_db.
Proof.
  destruct (PATCH_frame example_db true example_now example_nowMs "t1"
              (Some "a") (Some "completed") None) as (H1 & _ & _ & _ & _ & _ & _ & H8).
  split; [apply H1; discriminate|apply H8; discriminate].
Defined.

(** The escrow after a pending order is accepted. *)
Lemma accept_funds st w now new a oid :
  wallet st = Some w → 0 < a → active_status new →
  ∃ w',
    wallet (applyTransition st now "pending" new a oid).1 = Some w' ∧
    pendingAmount w' = pendingAmount w + a ∧ totalBalance w' = totalBalance w.
Proof.
  intros Hw Ha Hnew.
  destruct (LedgerExtra.active_status_ne new Hnew) as (Hn & _).
  destruct (applyTransition_effect st now "pending" new a oid Ha) as (st' & -> & Hw' & _);
    [congruence|].
  destruct (LedgerExtra.base_wallet_funds st w now Hw) as [Ht Hp].
  destruct (LedgerExtra.table_escrow new a Hnew) as (T & _).
  rewrite T in Hw'. eexists. split; [exact Hw'|]. cbn. lia.
Qed.

(** X15. A preparation time sent without a status: the order gets the
    time and a countdown ending that many minutes after the call;
    a pending order is promoted to confirmed, and its total then enters
    the escrow of the canteen wallet; an order in any other status keeps
    its status. *)
Theorem prepTime_promotes_pending db now nowMs tid id o status p iso :
  id ≠ EmptyString → orders db !! id = Some o → str_falsy status = true → p ≠ 0 →
  Clock.toISOString (nowMs + p * 60 * 1000) = Some iso →
  ∃ db' o',
    PATCH db true now nowMs tid (Some id) status (Some p) = (db', JsonOk false) ∧
    orders db' !! id = Some o' ∧
    Orders.status o' =
      (if String.eqb (Orders.status o) "pending" then "confirmed" else Orders.status o) ∧
    Orders.prepTime o' = Some p ∧ readyAt o' = Some iso ∧ estimatedReadyAt o' = Some iso ∧
    (Orders.status o = "pending" → 0 < total o →
     ∀ w, wallet (ledger db) = Some w →
       ∃ w', wallet (ledger db') = Some w' ∧
             pendingAmount w' = pendingAmount w + total o ∧
             totalBalance w' = totalBalance w).
Proof.
  intros Hid Ho Hf Hp Hiso.
  assert (Hs : JS.strict_eq status "cancelled" = false) by by destruct status as [[|]|].
  assert (Hor : JS.str_or status (Orders.status o) = Orders.status o)
    by by destruct status as [[|]|].
  assert (Hn : num_truthy (Some p) = Some p).
  { cbn. by destruct (Z.eqb_spec p 0). }
  rewrite PATCH_eq. unfold PATCH_outcome. cbn [negb].
  destruct id as [|c id]; [done|]. rewrite Ho, Hs.
  destruct (plan now nowMs o status (Some p)) as [[u ns]|] eqn:Hplan.
  2:{ unfold plan in Hplan. by rewrite Hn, Hiso in Hplan. }
  destruct (plan_fields _ _ _ _ _ _ _ Hplan) as (Hu & _ & Hpt & Heq & Hrest).
  rewrite Hn in Hpt, Hrest. destruct Hrest as (Hra & _ & Hns).
  rewrite Hf, Hor in Hns. cbn [andb] in Hns.
  destruct (update_result_status db now (String c id) o u ns Hu)
    as (o' & Ho' & Hst & _ & _ & _ & _ & Hprep & Hready & Hest).
  exists (update_result db now (String c id) o u ns), o'.
  split; [done|]. split; [done|]. split; [by rewrite Hst, Hns|].
  split; [by rewrite Hprep, Hpt|].
  split; [by rewrite Hready, Hra, Hiso|].
  split; [by rewrite Hest, <- Heq, Hra, Hiso|].
  intros Hpend Ha w Hw. unfold update_result, synced_ledger. cbn [ledger].
  rewrite Hns, Hpend. cbn [String.eqb Ascii.eqb Bool.eqb].
  apply accept_funds; [done|done|by left].
Qed.

Lemma prepTime_promotes_pending_witness :
  ∃ db' o',
    PATCH example_db true example_now example_nowMs "t1" (Some "b") None (Some 20)
      = (db', JsonOk false) ∧
    orders db' !! "b" = Some o' ∧
    Orders.status o' = "confirmed" ∧
    Orders.prepTime o' = Some 20 ∧
    readyAt o' = Some "2024-01-02T10:20:00.000Z".
Proof.
  destruct (prepTime_promotes_pending example_db example_now example_nowMs "t1" "b"
              order_b None 20 "2024-01-02T10:20:00.000Z")
    as (db' & o' & H1 & H2 & H3 & H4 & H5 & _);
    [discriminate|reflexivity|reflexivity|lia|vm_compute; reflexivity|].
  exists db', o'. split; [exact H1|]. split; [exact H2|]. split; [exact H3|].
  split; [exact H4|exact H5].
Defined.

(** X16. Setting an order to ready clears both countdown fields, unless
    a preparation time is sent in the same request: then the order is
    ready and both fields hold a new countdown, because the preparation
    time is handled after the clearing. *)
Theorem ready_clears_countdown db now nowMs tid id o prep :
  id ≠ EmptyString → orders db !! id = Some o →
  (∀ p, num_truthy prep = Some p →
     - Clock.MAX_TIME <= nowMs + p * 60 * 1000 <= Clock.MAX_TIME) →
  ∃ db' o',
    PATCH db true now nowMs tid (Some id) (Some "ready") prep = (db', JsonOk false) ∧
    orders db' !! id = Some o' ∧
    Orders.status o' = "ready" ∧
    estimatedReadyAt o' = readyAt o' ∧
    readyAt o' =
      match num_truthy prep with
      | Some p => Clock.toISOString (nowMs + p * 60 * 1000)
      | None => None
      end.
Proof.
  intros Hid Ho Hvalid.
  rewrite PATCH_eq. unfold PATCH_outcome. cbn [negb].
  destruct id as [|c id]; [done|]. rewrite Ho.
  change (JS.strict_eq (Some "ready") "cancelled") with false. cbv iota.
  apply (proj2 (plan_is_Some now nowMs o (Some "ready") prep)) in Hvalid.
  destruct Hvalid as [[u ns] Hplan]. rewrite Hplan.
  destruct (plan_fields _ _ _ _ _ _ _ Hplan) as (Hu & _ & _ & Heq & Hrest).
  destruct (update_result_status db now (String c id) o u ns Hu)
    as (o' & Ho' & Hst & _ & _ & _ & _ & _ & Hready & Hest).
  exists (update_result db now (String c id) o u ns), o'.
  split; [done|]. split; [done|].
  destruct (num_truthy prep) as [p|].
  - destruct Hrest as (Hra & [iso Hiso] & Hns). cbn in Hns.
    split; [congruence|]. split; [by rewrite Hest, Hready, <- Heq, Hra|].
    by rewrite Hready, Hra.
  - destruct Hrest as (Hns & Hra). cbn in Hns. rewrite Hns in Hra. cbn in Hra.
    split; [congruence|]. split; [by rewrite Hest, Hready, <- Heq, Hra|].
    by rewrite Hready, Hra.
Qed.

Lemma ready_clears_countdown_witness :
  ∃ db' o',
    PATCH example_db true example_now example_nowMs "t1"
      (Some "a") (Some "ready") (Some 15) = (db', JsonOk false) ∧
    orders db' !! "a" = Some o' ∧
    Orders.status o' = "ready" ∧
    readyAt o' = Some "2024-01-02T10:15:00.000Z".
Proof.
  destruct (ready_clears_countdown example_db example_now example_nowMs "t1" "a"
              order_a (Some 15)) as (db' & o' & H1 & H2 & H3 & _ & H5);
    [discriminate|reflexivity|
     cbn; intros p [= <-]; vm_compute; split; discriminate|].
  exists db', o'. split; [exact H1|]. split; [exact H2|]. split; [exact H3|].
  rewrite H5. vm_compute. reflexivity.
Defined.

(** X17. A refund is not paid twice in a row: after a successful
    cancellation, a second cancellation of the same order is answered
    with the error [Order is already cancelled] and changes nothing. *)
Theorem no_double_refund db authorized now nowMs tid id prep db' r
    now2 nowMs2 tid2 prep2 :
  PATCH db authorized now nowMs tid (Some id) (Some "cancelled") prep = (db', JsonOk r) →
  PATCH db' true now2 nowMs2 tid2 (Some id) (Some "cancelled") prep2 =
  (db', JsonError 500 "Order is already cancelled").
Proof.
  intros HP.
  destruct (PATCH_ok _ _ _ _ _ _ _ _ _ _ HP) as (_ & id' & o & [= <-] & Hid & Ho & _ & Hc).
  change (JS.strict_eq (Some "cancelled") "cancelled") with true in Hc. cbv iota in Hc.
  destruct Hc as (_ & b & _ & ->).
  rewrite PATCH_eq. unfold PATCH_outcome. cbn [negb].
  destruct id as [|c id]; [done|].
  unfold cancel_result at 1. cbn [orders]. rewrite lookup_insert_eq.
  change (JS.strict_eq (Some "cancelled") "cancelled") with true. done.
Qed.

Lemma no_double_refund_witness :
  ∃ db',
    PATCH example_db true example_now example_nowMs "t1"
      (Some "a") (Some "cancelled") None = (db', JsonOk true) ∧
    PATCH db' true "2024-01-02T10:05:00.000Z" 1704189900000 "t2"
      (Some "a") (Some "cancelled") None =
    (db', JsonError 500 "Order is already cancelled").
Proof.
  destruct (PATCH example_db true example_now example_nowMs "t1"
              (Some "a") (Some "cancelled") None) as [db' resp] eqn:HP.
  assert (Hr : resp = JsonOk true)
    by (apply (f_equal snd) in HP; vm_compute in HP; congruence).
  subst resp. exists db'. split; [reflexivity|].
  exact (no_double_refund _ _ _ _ _ _ _ _ _ _ _ _ _ HP).
Defined.

(** X18. Cancelled is not a final status for the route: a request with
    any other status reopens a cancelled order, and a cancellation after
    that pays the order's total to the customer once more.  After cancel,
    reopen, cancel the customer holds the old balance plus twice the
    total, and the refund log has two entries for the order. *)
Theorem reopened_order_refunds_again db id o b s
    now1 ms1 tid1 prep1 now2 ms2 tid2 now3 ms3 tid3 prep3 :
  id ≠ EmptyString → orders db !! id = Some o → Orders.status o ≠ "cancelled" →
  users db !! userId o = Some b →
  s ≠ EmptyString → s ≠ "cancelled" →
  ∃ db1 db2 db3,
    PATCH db true now1 ms1 tid1 (Some id) (Some "cancelled") prep1 = (db1, JsonOk true) ∧
    PATCH db1 true now2 ms2 tid2 (Some id) (Some s) None = (db2, JsonOk false) ∧
    PATCH db2 true now3 ms3 tid3 (Some id) (Some "cancelled") prep3 = (db3, JsonOk true) ∧
    users db3 !! userId o = Some (b + total o + total o) ∧
    walletTransactions db3 =
      walletTransactions db ++ [refund_entry now1 tid1 o; refund_entry now3 tid3 o].
Proof.
  intros Hid Ho Hs Hb Hs1 Hs2.
  assert (Hse : JS.strict_eq (Some s) "cancelled" = false) by by apply String.eqb_neq.
  assert (Hor : ∀ d, JS.str_or (Some s) d = s) by by destruct s.
  set (db1 := cancel_result db now1 tid1 id o b).
  set (o1 := cancelled_order now1 o).
  set (u := if String.eqb s "ready" then set_ready None (empty_update now2)
            else empty_update now2).
  set (db2 := update_result db1 now2 id o1 u s).
  assert (H1 : PATCH db true now1 ms1 tid1 (Some id) (Some "cancelled") prep1 =
               (db1, JsonOk true)).
  { rewrite PATCH_cancel with (o := o) by done. by rewrite Hb. }
  assert (H2 : PATCH db1 true now2 ms2 tid2 (Some id) (Some s) None = (db2, JsonOk false)).
  { rewrite PATCH_eq. unfold PATCH_outcome. cbn [negb].
    destruct id as [|c id]; [done|].
    unfold db1 at 1, cancel_result at 1. cbn [orders]. rewrite lookup_insert_eq, Hse.
    unfold plan. cbn [num_truthy]. by rewrite Hor. }
  destruct (update_result_status db1 now2 id o1 u s)
    as (o2 & Ho2 & Hst2 & Hu2 & Ht2 & Hoi2 & _);
    [unfold u; by destruct (String.eqb s "ready")|].
  fold db2 in Ho2. cbn in Hu2, Ht2, Hoi2.
  assert (Hb2 : users db2 !! userId o2 = Some (b + total o)).
  { rewrite Hu2. unfold db2, update_result, db1, cancel_result. cbn [users].
    by rewrite lookup_insert_eq. }
  exists db1, db2, (cancel_result db2 now3 tid3 id o2 (b + total o)).
  split; [exact H1|]. split; [exact H2|].
  split.
  { rewrite PATCH_cancel with (o := o2); [|done|done|congruence]. by rewrite Hb2. }
  unfold cancel_result at 1 2. cbn [users walletTransactions].
  rewrite Hu2, lookup_insert_eq, Ht2. split; [done|].
  unfold db2, update_result, db1, cancel_result. cbn [walletTransactions].
  rewrite <- app_assoc. cbn [app]. unfold refund_entry. by rewrite Hu2, Ht2, Hoi2.
Qed.

Lemma reopened_order_refunds_again_witness :
  ∃ db1 db2 db3,
    PATCH example_db true example_now example_nowMs "t1"
      (Some "a") (Some "cancelled") None = (db1, JsonOk true) ∧
    PATCH db1 true "2024-01-02T10:05:00.000Z" 1704189900000 "t2"
      (Some "a") (Some "pending") None = (db2, JsonOk false) ∧
    PATCH db2 true "2024-01-02T10:10:00.000Z" 1704190200000 "t3"
      (Some "a") (Some "cancelled") None = (db3, JsonOk true) ∧
    users db3 !! "u1" = Some (5 + 120 + 120).
Proof.
  destruct (reopened_order_refunds_again example_db "a" order_a 5 "pending"
              example_now example_nowMs "t1" None
              "2024-01-02T10:05:00.000Z" 1704189900000 "t2"
              "2024-01-02T10:10:00.000Z" 1704190200000 "t3" None)
    as (db1 & db2 & db3 & H1 & H2 & H3 & H4 & _);
    [discriminate|reflexivity|discriminate|reflexivity|discriminate|discriminate|].
  exists db1, db2, db3. split; [exact H1|]. split; [exact H2|]. split; [exact H3|exact H4].
Defined.

End OrdersFacts.

(** ** The forecast: the week, the ordering of the lists, the at-risk count *)
Module ForecastExtra.
Import Forecast ForecastSpec ForecastFacts ForecastViews.

(** *** The seven days of the walk *)

Lemma DAY_MAP_next m :
  0 <= m < 7 → DAY_MAP ((m + 1) mod 7) = next_day (DAY_MAP m).
Proof.
  intros Hm.
  assert (m = 0 ∨ m = 1 ∨ m = 2 ∨ m = 3 ∨ m = 4 ∨ m = 5 ∨ m = 6) as Hc by lia.
  destruct Hc as [->|[->|[->|[->|[->|[->| ->]]]]]]; reflexivity.
Qed.

Lemma getUTCDay_next t : getUTCDay (t + MS_PER_DAY) = (getUTCDay t + 1) mod 7.
Proof.
  unfold getUTCDay, epoch_day.
  replace (t + MS_PER_DAY) with (t + 1 * MS_PER_DAY) by lia.
  rewrite Z.div_add by done.
  rewrite Zplus_mod_idemp_l. f_equal. lia.
Qed.

Lemma weekday_S now k : weekday now (S k) = next_day (weekday now k).
Proof.
  unfold weekday, future, getISTDate. cbn [dayOfWeek].
  replace (now + Z.of_nat (S k) * 24 * 60 * 60 * 1000 + IST_OFFSET_MS)
    with (now + Z.of_nat k * 24 * 60 * 60 * 1000 + IST_OFFSET_MS + MS_PER_DAY)
    by (unfold MS_PER_DAY; lia).
  rewrite getUTCDay_next. apply DAY_MAP_next.
  unfold getUTCDay. apply Z.mod_pos_bound. lia.
Qed.

Lemma week_days now :
  map (weekday now) (seq 0 7) =
  [weekday now 0; next_day (weekday now 0);
   next_day (next_day (weekday now 0));
   next_day (next_day (next_day (weekday now 0)));
   next_day (next_day (next_day (next_day (weekday now 0))));
   next_day (next_day (next_day (next_day (next_day (weekday now 0)))));
   next_day (next_day (next_day (next_day (next_day (next_day (weekday now 0))))))].
Proof. cbn [map seq]. by rewrite !weekday_S. Qed.

Lemma week_Permutation now : map (weekday now) (seq 0 7) ≡ₚ ALL_DAYS.
Proof.
  rewrite week_days. unfold ALL_DAYS.
  destruct (weekday now 0); cbn [next_day]; apply NoDup_Permutation;
    first [ by apply (bool_decide_unpack _); vm_compute
          | intros d; destruct d; split; intros _; repeat constructor ].
Qed.

Lemma forecast_days lc docs menuDocs users now :
  map ForecastDay.dayName (forecast (GET lc docs menuDocs users now)) =
  map (weekday now) (seq 0 7).
Proof.
  rewrite GET_forecast. unfold expected_forecast.
  rewrite map_map. done.
Qed.

(** X19. The forecast always has seven days; day [k] bears the weekday
    of the Indian calendar day [k] days after the call; each day's weekday
    follows the one before in the cycle Mon, Tue, ..., Sun, Mon; and so,
    whatever the instant of the call, every weekday heads exactly one of
    the seven days. *)
Theorem week_visits_every_day lc docs menuDocs users now :
  length (forecast (GET lc docs menuDocs users now)) = 7%nat ∧
  map ForecastDay.dayName (forecast (GET lc docs menuDocs users now)) =
    map (weekday now) (seq 0 7) ∧
  (∀ k, weekday now (S k) = next_day (weekday now k)) ∧
  map ForecastDay.dayName (forecast (GET lc docs menuDocs users now)) ≡ₚ ALL_DAYS.
Proof.
  split; [by rewrite GET_forecast|].
  split; [apply forecast_days|].
  split; [apply weekday_S|].
  rewrite forecast_days. apply week_Permutation.
Qed.

(** *** The demand of a week *)

(** The running sum over the seven days is the demand of one week,
    wherever in the week the walk starts. *)
Lemma cumulative_week dem now item : cumulative dem now item 6 = weekly dem item.
Proof.
  unfold weekly, ALL_DAYS. cbn [cumulative fold_right]. rewrite !weekday_S.
  destruct (weekday now 0); cbn [next_day]; lia.
Qed.

Section NonNegative.
Context (dem : string → DayOfWeek → Z) (now : Z).
Hypothesis dem_nonneg : ∀ item day, 0 <= dem item day.

Lemma cumulative_ge_day item k : dem item (weekday now k) <= cumulative dem now item k.
Proof.
  destruct k as [|k]; cbn [cumulative]; [lia|].
  assert (0 <= cumulative dem now item k); [|lia].
  induction k as [|k IH]; cbn [cumulative].
  - apply dem_nonneg.
  - pose proof (dem_nonneg item (weekday now (S k))). lia.
Qed.

Lemma cumulative_le item k n :
  (k ≤ n)%nat → cumulative dem now item k <= cumulative dem now item n.
Proof.
  induction 1 as [|n Hle IH]; [lia|]. cbn [cumulative].
  pose proof (dem_nonneg item (weekday now (S n))). lia.
Qed.

(** The last day with demand carries the whole running sum. *)
Lemma last_demand item n :
  0 < cumulative dem now item n →
  ∃ k, (k ≤ n)%nat ∧ dem item (weekday now k) ≠ 0 ∧
       cumulative dem now item k = cumulative dem now item n.
Proof.
  induction n as [|n IH]; cbn [cumulative].
  - intros H. exists 0%nat. cbn [cumulative]. split; [lia|]. split; [lia|done].
  - intros H. destruct (decide (dem item (weekday now (S n)) = 0)) as [Hz|Hz].
    + rewrite Hz in H |- *. destruct IH as (k & Hk & Hd & Hc); [lia|].
      exists k. split; [lia|]. split; [done|]. lia.
    + exists (S n). cbn [cumulative]. split; [lia|]. split; [done|lia].
Qed.
End NonNegative.

Lemma elem_of_risk_ids f id :
  id ∈ risk_ids f ↔
  ∃ day row, day ∈ f ∧ row ∈ ForecastDay.items day ∧
             ForecastDayItem.risk row = true ∧ ForecastDayItem.itemId row = id.
Proof.
  unfold risk_ids. rewrite elem_of_list_to_set, list_elem_of_fmap.
  split.
  - intros (row & -> & Hrow). apply list_elem_of_filter in Hrow as [Hrisk Hin].
    apply list_elem_of_In, in_concat in Hin as (l & Hl & Hin).
    apply in_map_iff in Hl as (day & <- & Hday).
    exists day, row. split; [by apply list_elem_of_In|].
    split; [by apply list_elem_of_In|]. done.
  - intros (day & row & Hday & Hrow & Hrisk & <-). exists row. split; [done|].
    apply list_elem_of_filter. split; [done|].
    apply list_elem_of_In, in_concat. exists (ForecastDay.items day).
    split; [|by apply list_elem_of_In].
    apply in_map_iff. exists day. split; [done|by apply list_elem_of_In].
Qed.

Lemma elem_of_expected_forecast dem now lc menuMap day :
  day ∈ expected_forecast dem now lc menuMap ↔
  ∃ k, (k < 7)%nat ∧ day = expected_day dem now lc menuMap k.
Proof.
  rewrite list_elem_of_lookup. split.
  - intros (k & Hk). exists k. by apply lookup_expected_forecast.
  - intros (k & Hk). exists k. by apply lookup_expected_forecast.
Qed.

(** The quantities of the orders decide the sign of the demand. *)
Lemma demand_total_nonneg orders item day :
  (∀ o, o ∈ orders → 0 <= EnrichedAutoOrder.quantity o) →
  0 <= demand_total orders item day.
Proof.
  induction orders as [|o r IH]; intros Hq; cbn [demand_total]; [lia|].
  assert (0 <= order_demand o item day).
  { unfold order_demand. destruct (String.eqb _ _); [|lia].
    apply Z.mul_nonneg_nonneg; [|lia]. apply Hq. by left. }
  assert (0 <= demand_total r item day); [|lia].
  apply IH. intros o' Ho'. apply Hq. by right.
Qed.

Lemma GET_demand_nonneg lc docs menuDocs users now item day :
  (∀ d, d ∈ active docs → 0 <= JS.num_or (AutoOrderDoc.quantity d) 1) →
  0 <= demand (GET lc docs menuDocs users now) item day.
Proof.
  intros Hq. unfold demand, GET. cbn [autoOrders].
  apply demand_total_nonneg. intros o Ho.
  apply list_elem_of_fmap in Ho as (d & -> & Hd). cbn. by apply Hq.
Qed.

(** The items counted by [itemsAtRisk], when no quantity is negative. *)
Lemma risk_ids_weekly lc docs menuDocs users now id :
  (∀ d, d ∈ active docs → 0 <= JS.num_or (AutoOrderDoc.quantity d) 1) →
  id ∈ risk_ids (forecast (GET lc docs menuDocs users now)) ↔
  ∃ mi, JSMap.get (build_menuMap menuDocs) id = Some mi ∧
        0 < weekly (demand (GET lc docs menuDocs users now)) id ∧
        MenuItem.stock mi < weekly (demand (GET lc docs menuDocs users now)) id.
Proof.
  intros Hq.
  pose proof (GET_demand_nonneg lc docs menuDocs users now) as Hnn.
  specialize (fun item day => Hnn item day Hq).
  set (dem := demand (GET lc docs menuDocs users now)) in *.
  rewrite elem_of_risk_ids, GET_forecast. fold dem.
  rewrite <- (cumulative_week dem now id).
  split.
  - intros (day & row & Hday & Hrow & Hrisk & Hid).
    apply elem_of_expected_forecast in Hday as (k & Hk & ->).
    apply elem_of_expected_day in Hrow as (id' & mi & Hin & Hnz & ->).
    cbn [ForecastDayItem.risk ForecastDayItem.itemId] in Hrisk, Hid. subst id'. exists mi.
    split; [apply JSMapFacts.elem_get_Some; [apply build_menuMap_NoDup|done]|].
    pose proof (cumulative_ge_day dem now Hnn id k).
    pose proof (cumulative_le dem now Hnn id k 6 ltac:(lia)).
    pose proof (Hnn id (weekday now k)).
    apply Z.ltb_lt in Hrisk. lia.
  - intros (mi & Hget & Hpos & Hlt).
    destruct (last_demand dem now id 6 Hpos) as (k & Hk & Hnz & Hc).
    exists (expected_day dem now lc (build_menuMap menuDocs) k). eexists.
    split; [apply elem_of_expected_forecast; exists k; split; [lia|done]|].
    split.
    { apply elem_of_expected_day. exists id, mi.
      split; [by apply JSMapFacts.get_Some_elem|]. split; [done|reflexivity]. }
    cbn [ForecastDayItem.risk ForecastDayItem.itemId]. split; [|done]. apply Z.ltb_lt. lia.
Qed.

(** X20. When no active order has a negative quantity, an item is
    counted in [itemsAtRisk] exactly when it is on the menu, has demand
    in the week, and its stock is below the demand of one whole week.
    The count therefore does not depend on the instant of the call. *)
Theorem at_risk_iff_week_exceeds_stock lc docs menuDocs users now :
  (∀ d, d ∈ active docs → 0 <= JS.num_or (AutoOrderDoc.quantity d) 1) →
  (∀ id,
     id ∈ risk_ids (forecast (GET lc docs menuDocs users now)) ↔
     ∃ mi, JSMap.get (build_menuMap menuDocs) id = Some mi ∧
           0 < weekly (demand (GET lc docs menuDocs users now)) id ∧
           MenuItem.stock mi < weekly (demand (GET lc docs menuDocs users now)) id) ∧
  (∀ now', itemsAtRisk (summary (GET lc docs menuDocs users now')) =
           itemsAtRisk (summary (GET lc docs menuDocs users now))).
Proof.
  intros Hq. split; [intros id; by apply risk_ids_weekly|].
  intros now'.
  change (Z.of_nat (size (risk_ids (forecast (GET lc docs menuDocs users now')))) =
          Z.of_nat (size (risk_ids (forecast (GET lc docs menuDocs users now))))).
  f_equal. f_equal. apply set_eq. intros id.
  rewrite !risk_ids_weekly by done. done.
Qed.

Lemma at_risk_iff_week_exceeds_stock_witness :
  "i1" ∈ risk_ids (forecast (GET code_compare [samosa_daily; chai_weekdays]
                               [samosa; chai] ∅ monday_morning)) ∧
  "i2" ∉ risk_ids (forecast (GET code_compare [samosa_daily; chai_weekdays]
                               [samosa; chai] ∅ monday_morning)).
Proof.
  destruct (at_risk_iff_week_exceeds_stock code_compare [samosa_daily; chai_weekdays]
              [samosa; chai] ∅ monday_morning) as [H _].
  { intros d Hd. apply list_elem_of_filter in Hd as [_ Hd].
    apply elem_of_cons in Hd as [->|Hd]; [vm_compute; discriminate|].
    apply list_elem_of_singleton in Hd as ->. vm_compute; discriminate. }
  split.
  - apply H. eexists. split; [vm_compute; reflexivity|]. vm_compute. done.
  - intros Hin. apply H in Hin as (mi & Hget & _ & Hlt).
    vm_compute in Hget. injection Hget as <-. vm_compute in Hlt. discriminate.
Defined.

(** *** The order of the two lists *)

Lemma StronglySorted_impl {A} (R R' : A → A → Prop) l :
  (∀ a b, R a b → R' a b) → StronglySorted R l → StronglySorted R' l.
Proof.
  intros HR. induction 1 as [|a l Hs IH Hf]; constructor; [done|].
  eapply Forall_impl; [exact Hf|]. intros b. apply HR.
Qed.

Lemma demand_cmp_le lc a b : demand_cmp lc a b <= 0 ↔ by_name_then_day lc a b.
Proof.
  unfold demand_cmp, by_name_then_day.
  destruct (Z.eqb_spec (lc (DemandEntry.itemName a) (DemandEntry.itemName b)) 0); lia.
Qed.

Section DemandOrder.
Context (lc : string → string → Z).
Hypothesis lc_antisym : ∀ a b, Z.sgn (lc b a) = - Z.sgn (lc a b).
Hypothesis lc_trans : ∀ a b c, lc a b <= 0 → lc b c <= 0 → lc a c <= 0.

Lemma demand_cmp_total a b : demand_cmp lc a b <= 0 ∨ demand_cmp lc b a <= 0.
Proof.
  rewrite !demand_cmp_le. unfold by_name_then_day.
  pose proof (lc_antisym (DemandEntry.itemName a) (DemandEntry.itemName b)). lia.
Qed.

Lemma demand_cmp_trans a b c :
  demand_cmp lc a b <= 0 → demand_cmp lc b c <= 0 → demand_cmp lc a c <= 0.
Proof.
  rewrite !demand_cmp_le. unfold by_name_then_day.
  set (na := DemandEntry.itemName a). set (nb := DemandEntry.itemName b).
  set (nc := DemandEntry.itemName c).
  intros Hab Hbc.
  pose proof (lc_antisym na nb). pose proof (lc_antisym nb nc).
  pose proof (lc_antisym na nc).
  assert (lc na nc <= 0) by (apply (lc_trans na nb nc); lia).
  destruct (decide (lc na nc < 0)) as [|Hz]; [by left|right].
  assert (lc na nc = 0) as Hac by lia. split; [done|].
  assert (lc nc na <= 0) by lia.
  assert (lc na nb = 0).
  { destruct (decide (lc na nb = 0)); [done|].
    assert (lc nb na <= 0) by (apply (lc_trans nb nc na); lia). lia. }
  assert (lc nb nc = 0).
  { destruct (decide (lc nb nc = 0)); [done|].
    assert (lc nc nb <= 0) by (apply (lc_trans nc na nb); lia). lia. }
  lia.
Qed.

(** X21. Provided [localeCompare] is a consistent comparator
    (swapping its arguments flips its sign, and it is transitive), the
    list [aggregateDemand] is sorted by item name, and the records of
    one name run from Monday to Sunday. *)
Theorem aggregate_sorted autoOrderDocs menuDocs users now :
  StronglySorted (by_name_then_day lc)
    (aggregateDemand (GET lc autoOrderDocs menuDocs users now)).
Proof.
  unfold GET. cbn [aggregateDemand].
  eapply StronglySorted_impl; [intros a b; apply demand_cmp_le|].
  apply js_sort_StronglySorted; [apply demand_cmp_total|apply demand_cmp_trans].
Qed.
End DemandOrder.

Lemma code_compare_antisym a b :
  Z.sgn (code_compare b a) = - Z.sgn (code_compare a b).
Proof.
  unfold code_compare. rewrite (String.compare_antisym a b).
  by destruct (String.compare b a).
Qed.

Lemma aggregate_sorted_witness :
  StronglySorted (by_name_then_day code_compare)
    (aggregateDemand (GET code_compare [samosa_daily; chai_weekdays] [samosa; chai] ∅
                        monday_morning)).
Proof.
  apply aggregate_sorted; [apply code_compare_antisym|apply code_compare_trans].
Defined.

(** X22. The list [dailyDemandByItem] is sorted by [totalDaily], largest
    first: its head is an item with the largest single-day demand of
    all. *)
Theorem daily_demand_descending lc autoOrderDocs menuDocs users now :
  StronglySorted by_peak
    (dailyDemandByItem (summary (GET lc autoOrderDocs menuDocs users now))) ∧
  ∀ top rest,
    dailyDemandByItem (summary (GET lc autoOrderDocs menuDocs users now)) = top :: rest →
    ∀ row, row ∈ dailyDemandByItem (summary (GET lc autoOrderDocs menuDocs users now)) →
           DailyTotal.totalDaily row <= DailyTotal.totalDaily top.
Proof.
  assert (Hs : StronglySorted by_peak
    (dailyDemandByItem (summary (GET lc autoOrderDocs menuDocs users now)))).
  { unfold GET. cbn [summary dailyDemandByItem].
    eapply StronglySorted_impl; [|apply js_sort_StronglySorted].
    - intros a b. unfold by_peak. cbn beta. lia.
    - intros a b. cbn beta. lia.
    - intros a b c. cbn beta. lia. }
  split; [done|]. intros top rest Heq row Hrow. rewrite Heq in Hs, Hrow.
  apply StronglySorted_inv in Hs as [_ Hf].
  apply elem_of_cons in Hrow as [->|Hrow]; [lia|].
  rewrite Forall_forall in Hf. apply Hf in Hrow. exact Hrow.
Qed.

Lemma daily_demand_descending_witness :
  ∃ top rest,
    dailyDemandByItem
      (summary (GET code_compare [samosa_daily; chai_weekdays] [samosa; chai] ∅
                  monday_morning)) = top :: rest ∧
    DailyTotal.itemId top = "i1" ∧
    Forall (fun row => DailyTotal.totalDaily row <= DailyTotal.totalDaily top) rest.
Proof.
  destruct (dailyDemandByItem
              (summary (GET code_compare [samosa_daily; chai_weekdays] [samosa; chai] ∅
                          monday_morning))) as [|top rest] eqn:Heq;
    [by vm_compute in Heq|].
  exists top, rest. split; [reflexivity|].
  split; [vm_compute in Heq; by injection Heq as <- _|].
  apply Forall_forall. intros row Hrow.
  destruct (daily_demand_descending code_compare [samosa_daily; chai_weekdays]
              [samosa; chai] ∅ monday_morning) as [_ H].
  apply (H top rest Heq). rewrite Heq. by right.
Defined.

(** *** Orders that are listed but not counted *)

(** X23. An active order whose [frequency] field is missing or empty is
    listed in [autoOrders] with the frequency [daily], yet it is scheduled
    on no day: the schedule is computed from the stored field, the label
    from its default.  Such an order adds nothing to the demand, although
    the schedule of its reported frequency would be all seven days. *)
Theorem missing_frequency_reported_daily lc pre d post menuDocs users now :
  AutoOrderDoc.status d = "active" →
  AutoOrderDoc.frequency d = None ∨ AutoOrderDoc.frequency d = Some EmptyString →
  (∃ o,
     o ∈ autoOrders (GET lc (pre ++ d :: post) menuDocs users now) ∧
     EnrichedAutoOrder.id o = AutoOrderDoc.id d ∧
     EnrichedAutoOrder.frequency o = "daily" ∧
     EnrichedAutoOrder.scheduledDays o = [] ∧
     getScheduledDays (Some (EnrichedAutoOrder.frequency o))
       (EnrichedAutoOrder.customDays o) = ALL_DAYS) ∧
  aggregateDemand (GET lc (pre ++ d :: post) menuDocs users now) =
    aggregateDemand (GET lc (pre ++ post) menuDocs users now) ∧
  forecast (GET lc (pre ++ d :: post) menuDocs users now) =
    forecast (GET lc (pre ++ post) menuDocs users now).
Proof.
  intros Hact Hf.
  assert (Hs : scheduled d = []).
  { unfold scheduled, getScheduledDays. by destruct Hf as [->| ->]. }
  split.
  - eexists. split.
    + unfold GET. cbn [autoOrders]. apply list_elem_of_fmap. exists d.
      split; [reflexivity|]. apply list_elem_of_filter. split; [done|].
      apply elem_of_app. right. by left.
    + cbn. fold (scheduled d). split; [done|].
      split; [by destruct Hf as [->| ->]|]. split; [done|].
      by destruct Hf as [->| ->].
  - unfold GET. cbn [aggregateDemand forecast].
    fold (active (pre ++ d :: post)) (active (pre ++ post)).
    by rewrite demandMap_skip.
Qed.

Lemma missing_frequency_reported_daily_witness :
  (∃ o,
     o ∈ autoOrders (GET code_compare [samosa_daily; chai_unscheduled] [samosa; chai] ∅
                       monday_morning) ∧
     EnrichedAutoOrder.id o = "a5" ∧
     EnrichedAutoOrder.frequency o = "daily" ∧
     EnrichedAutoOrder.scheduledDays o = []) ∧
  aggregateDemand (GET code_compare [samosa_daily; chai_unscheduled] [samosa; chai] ∅
                     monday_morning) =
    aggregateDemand (GET code_compare [samosa_daily] [samosa; chai] ∅ monday_morning).
Proof.
  destruct (missing_frequency_reported_daily code_compare [samosa_daily]
              chai_unscheduled [] [samosa; chai] ∅ monday_morning)
    as ((o & H1 & H2 & H3 & H4 & _) & H5 & _); [reflexivity|by left|].
  split; [|exact H5]. exists o.
  split; [exact H1|]. split; [exact H2|]. split; [exact H3|exact H4].
Defined.

(** X24. The forecast knows only the items of the menu.  Every row of
    every day belongs to a menu item and shows that item's name and stock
    (not the name stored with the orders), so an item that is ordered but
    absent from the menu has no row, however large its demand, and
    [itemsAtRisk] never exceeds the number of menu documents. *)
Theorem forecast_rows_are_menu_items lc docs menuDocs users now :
  (∀ day row,
     day ∈ forecast (GET lc docs menuDocs users now) → row ∈ ForecastDay.items day →
     ∃ mi,
       JSMap.get (build_menuMap menuDocs) (ForecastDayItem.itemId row) = Some mi ∧
       ForecastDayItem.itemName row = MenuItem.name mi ∧
       ForecastDayItem.currentStock row = MenuItem.stock mi ∧
       ForecastDayItem.demand row ≠ 0) ∧
  (∀ id, id ∈ risk_ids (forecast (GET lc docs menuDocs users now)) →
         id ∈ map MenuDoc.id menuDocs) ∧
  itemsAtRisk (summary (GET lc docs menuDocs users now)) <= Z.of_nat (length menuDocs).
Proof.
  assert (Hrows : ∀ day row,
    day ∈ forecast (GET lc docs menuDocs users now) → row ∈ ForecastDay.items day →
    ∃ mi,
      JSMap.get (build_menuMap menuDocs) (ForecastDayItem.itemId row) = Some mi ∧
      ForecastDayItem.itemName row = MenuItem.name mi ∧
      ForecastDayItem.currentStock row = MenuItem.stock mi ∧
      ForecastDayItem.demand row ≠ 0).
  { intros day row Hday Hrow. rewrite GET_forecast in Hday.
    apply elem_of_expected_forecast in Hday as (k & _ & ->).
    apply elem_of_expected_day in Hrow as (id & mi & Hin & Hnz & ->).
    exists mi. cbn. split; [|done].
    apply JSMapFacts.elem_get_Some; [apply build_menuMap_NoDup|done]. }
  assert (Hkeys : ∀ id, is_Some (JSMap.get (build_menuMap menuDocs) id) →
                        id ∈ map MenuDoc.id menuDocs).
  { intros id. unfold build_menuMap.
    assert (Hgen : ∀ l (m : JSMap.t MenuItem.t),
      is_Some (JSMap.get (fold_left (fun m d => JSMap.set m (MenuDoc.id d) (menu_item d))
                            l m) id) →
      is_Some (JSMap.get m id) ∨ id ∈ map MenuDoc.id l).
    { induction l as [|d l IH]; intros m; cbn [fold_left map]; [by left|].
      intros H. apply IH in H as [H|H]; [|right; by right].
      destruct (decide (MenuDoc.id d = id)) as [<-|Hne]; [right; by left|].
      rewrite JSMapFacts.get_set_ne in H by done. by left. }
    intros H. apply Hgen in H as [[? H]|H]; [done|done]. }
  assert (Hsub : ∀ id, id ∈ risk_ids (forecast (GET lc docs menuDocs users now)) →
                       id ∈ map MenuDoc.id menuDocs).
  { intros id Hid. apply elem_of_risk_ids in Hid as (day & row & Hday & Hrow & _ & <-).
    destruct (Hrows day row Hday Hrow) as (mi & Hget & _). apply Hkeys. by eexists. }
  split; [exact Hrows|]. split; [exact Hsub|].
  change (Z.of_nat (size (risk_ids (forecast (GET lc docs menuDocs users now)))) <=
          Z.of_nat (length menuDocs)).
  apply inj_le.
  transitivity (size (list_to_set (C := gset string) (map MenuDoc.id menuDocs))).
  - apply subseteq_size. intros id Hid. apply elem_of_list_to_set. by apply Hsub.
  - rewrite <- (length_map MenuDoc.id menuDocs).
    generalize (map MenuDoc.id menuDocs). intros l.
    induction l as [|x l IH]; cbn [list_to_set length]; [by rewrite size_empty|].
    rewrite size_union_alt, size_singleton.
    assert (size (list_to_set (C := gset string) l ∖ {[x]}) ≤
            size (list_to_set (C := gset string) l))%nat
      by (apply subseteq_size; intros y Hy; by apply elem_of_difference in Hy as [Hy _]).
    lia.
Qed.

Lemma forecast_rows_are_menu_items_witness :
  ∃ day row mi,
    forecast (GET code_compare [ghost_daily; samosa_daily] [samosa; chai] ∅
                monday_morning) !! 0%nat = Some day ∧
    ForecastDay.items day !! 0%nat = Some row ∧
    JSMap.get (build_menuMap [samosa; chai]) (ForecastDayItem.itemId row) = Some mi ∧
    ForecastDayItem.itemName row = MenuItem.name mi ∧
    "gone" ∉ risk_ids (forecast (GET code_compare [ghost_daily; samosa_daily]
                                  [samosa; chai] ∅ monday_morning)).
Proof.
  destruct (forecast (GET code_compare [ghost_daily; samosa_daily] [samosa; chai] ∅
                        monday_morning) !! 0%nat) as [day|] eqn:Hday;
    [|by vm_compute in Hday].
  destruct (ForecastDay.items day !! 0%nat) as [row|] eqn:Hrow.
  2:{ vm_compute in Hday. injection Hday as <-. by vm_compute in Hrow. }
  destruct (forecast_rows_are_menu_items code_compare [ghost_daily; samosa_daily]
              [samosa; chai] ∅ monday_morning) as (H1 & H2 & _).
  destruct (H1 day row) as (mi & Hget & Hname & _);
    [by apply list_elem_of_lookup_2 in Hday|by apply list_elem_of_lookup_2 in Hrow|].
  exists day, row, mi. split; [reflexivity|]. split; [exact Hrow|].
  split; [exact Hget|]. split; [exact Hname|].
  intros Hin. apply H2 in Hin. vm_compute in Hin.
  apply elem_of_cons in Hin as [Hin|Hin]; [discriminate|].
  apply list_elem_of_singleton in Hin. discriminate.
Defined.

(** X25. With no active auto-order the report is empty but well formed:
    no order, no demand record, no daily peak, nothing at risk, and still
    seven days, each without rows, whatever the menu holds. *)
Theorem no_active_orders_empty_report lc docs menuDocs users now :
  (∀ d, d ∈ docs → AutoOrderDoc.status d ≠ "active") →
  autoOrders (GET lc docs menuDocs users now) = [] ∧
  aggregateDemand (GET lc docs menuDocs users now) = [] ∧
  dailyDemandByItem (summary (GET lc docs menuDocs users now)) = [] ∧
  totalActiveOrders (summary (GET lc docs menuDocs users now)) = 0 ∧
  itemsAtRisk (summary (GET lc docs menuDocs users now)) = 0 ∧
  length (forecast (GET lc docs menuDocs users now)) = 7%nat ∧
  Forall (fun day => ForecastDay.items day = []) (forecast (GET lc docs menuDocs users now)).
Proof.
  intros Hnone.
  assert (Hact : filter (fun d => AutoOrderDoc.status d = "active") docs = []).
  { induction docs as [|d docs IH]; [done|].
    rewrite filter_cons. destruct (decide (AutoOrderDoc.status d = "active")) as [Ha|_].
    - destruct (Hnone d); [by left|done].
    - apply IH. intros d' Hd'. apply Hnone. by right. }
  assert (Hrows : Forall (fun day => ForecastDay.items day = [])
                    (forecast (GET lc docs menuDocs users now))).
  { apply Forall_forall. intros day Hday.
    destruct (ForecastDay.items day) as [|row rest] eqn:Hitems; [done|].
    assert (Hrow : row ∈ ForecastDay.items day) by (rewrite Hitems; by left).
    rewrite GET_forecast in Hday.
    apply elem_of_expected_forecast in Hday as (k & _ & ->).
    apply elem_of_expected_day in Hrow as (id & mi & _ & Hnz & _).
    exfalso. apply Hnz. unfold demand, GET. cbn [autoOrders]. by rewrite Hact. }
  split; [unfold GET; cbn [autoOrders]; by rewrite Hact|].
  split; [unfold GET; cbn [aggregateDemand]; by rewrite Hact|].
  split; [unfold GET; cbn [summary dailyDemandByItem]; by rewrite Hact|].
  split; [unfold GET; cbn [summary totalActiveOrders]; by rewrite Hact|].
  split; [|split; [by rewrite GET_forecast|exact Hrows]].
  change (Z.of_nat (size (risk_ids (forecast (GET lc docs menuDocs users now)))) = 0).
  replace (risk_ids (forecast (GET lc docs menuDocs users now))) with (∅ : gset string);
    [by rewrite size_empty|].
  symmetry. apply set_eq. intros id. split; [|set_solver].
  intros Hid. apply elem_of_risk_ids in Hid as (day & row & Hday & Hrow & _).
  rewrite Forall_forall in Hrows. rewrite (Hrows day Hday) in Hrow.
  by apply elem_of_nil in Hrow.
Qed.

Lemma no_active_orders_empty_report_witness :
  aggregateDemand (GET code_compare [samosa_paused] [samosa; chai] ∅ monday_morning) = [] ∧
  itemsAtRisk (summary (GET code_compare [samosa_paused] [samosa; chai] ∅
                          monday_morning)) = 0.
Proof.
  destruct (no_active_orders_empty_report code_compare [samosa_paused] [samosa; chai] ∅
              monday_morning) as (_ & H2 & _ & _ & H5 & _).
  { intros d Hd. apply list_elem_of_singleton in Hd as ->. discriminate. }
  split; [exact H2|exact H5].
Defined.

(** *** The defaults of the enriched orders *)

Lemma str_or_nonempty x d : d ≠ EmptyString → JS.str_or x d ≠ EmptyString.
Proof. by destruct x as [[|]|]. Qed.

Lemma str_or_Some s d : s ≠ EmptyString → JS.str_or (Some s) d = s.
Proof. by destruct s. Qed.

Lemma user_name_nonempty users id : user_name users id ≠ EmptyString.
Proof.
  unfold user_name. destruct (users !! id); [|done]. by apply str_or_nonempty.
Qed.

(** X30. The list [autoOrders] holds the active documents in their
    order, one row each.  The lookup of the customer's name never misses:
    the name shown is the [name] of the customer's document when that
    document exists with a non-empty name, and [Unknown User] otherwise.
    No defaulted field is left falsy: user name, item name, time and
    frequency are non-empty strings and the quantity is not zero. *)
Theorem enriched_order_defaults lc docs menuDocs users now :
  map EnrichedAutoOrder.id (autoOrders (GET lc docs menuDocs users now)) =
    map AutoOrderDoc.id (active docs) ∧
  totalActiveOrders (summary (GET lc docs menuDocs users now)) =
    Z.of_nat (length (active docs)) ∧
  ∀ o, o ∈ autoOrders (GET lc docs menuDocs users now) →
    EnrichedAutoOrder.userName o =
      match users !! EnrichedAutoOrder.userId o with
      | Some (Some (String c n)) => String c n
      | _ => "Unknown User"
      end ∧
    EnrichedAutoOrder.userName o ≠ EmptyString ∧
    EnrichedAutoOrder.itemName o ≠ EmptyString ∧
    EnrichedAutoOrder.quantity o ≠ 0 ∧
    EnrichedAutoOrder.time o ≠ EmptyString ∧
    EnrichedAutoOrder.frequency o ≠ EmptyString.
Proof.
  unfold GET. cbn [autoOrders summary totalActiveOrders]. fold (active docs).
  split; [by rewrite map_map|]. split; [by rewrite length_map|].
  intros o Ho. apply list_elem_of_fmap in Ho as (d & -> & Hd).
  cbn [enrich EnrichedAutoOrder.userName EnrichedAutoOrder.userId
       EnrichedAutoOrder.itemName EnrichedAutoOrder.quantity EnrichedAutoOrder.time
       EnrichedAutoOrder.frequency].
  rewrite (build_userMap_lookup users (active docs) d Hd).
  rewrite (str_or_Some _ _ (user_name_nonempty users (AutoOrderDoc.userId d))).
  split.
  { unfold user_name. by destruct (users !! AutoOrderDoc.userId d) as [[[|]|]|]. }
  split; [apply user_name_nonempty|].
  split; [by apply str_or_nonempty|].
  split.
  { destruct (AutoOrderDoc.quantity d) as [q|]; cbn; [|done].
    by destruct (Z.eqb_spec q 0). }
  split; by apply str_or_nonempty.
Qed.

Lemma enriched_order_defaults_witness :
  ∃ o1 o2,
    autoOrders (GET code_compare [samosa_daily; samosa_paused; chai_weekdays]
                  [samosa; chai] (<[ "u1" := Some "Asha" ]> ∅) monday_morning)
      = [o1; o2] ∧
    EnrichedAutoOrder.userName o1 = "Asha" ∧
    EnrichedAutoOrder.userName o2 = "Unknown User" ∧
    EnrichedAutoOrder.quantity o2 ≠ 0.
Proof.
  destruct (autoOrders (GET code_compare [samosa_daily; samosa_paused; chai_weekdays]
                          [samosa; chai] (<[ "u1" := Some "Asha" ]> ∅) monday_morning))
    as [|o1 [|o2 [|]]] eqn:Heq; try by vm_compute in Heq.
  destruct (enriched_order_defaults code_compare
              [samosa_daily; samosa_paused; chai_weekdays] [samosa; chai]
              (<[ "u1" := Some "Asha" ]> ∅) monday_morning) as (_ & _ & H).
  rewrite Heq in H.
  destruct (H o1) as (H1 & _); [by left|].
  destruct (H o2) as (H2 & _ & _ & H3 & _); [right; by left|].
  exists o1, o2. split; [reflexivity|].
  assert (Hu1 : EnrichedAutoOrder.userId o1 = "u1")
    by (vm_compute in Heq; by injection Heq as <- _).
  assert (Hu2 : EnrichedAutoOrder.userId o2 = "u2")
    by (vm_compute in Heq; by injection Heq as _ <-).
  rewrite Hu1 in H1. rewrite Hu2 in H2.
  split; [exact H1|]. split; [exact H2|exact H3].
Defined.

End ForecastExtra.

(** ** The forecast page: what the filters show *)
Module PageFacts.
Import Forecast ForecastSpec ForecastFacts ForecastViews Page.

Lemma day_tag_inj d d' : day_tag d = day_tag d' → d = d'.
Proof. destruct d, d'; (done || discriminate). Qed.

Lemma day_tag_eqb d d' : String.eqb (day_tag d) (day_tag d') = bool_decide (d = d').
Proof. by destruct d, d'. Qed.

Lemma day_tag_not_all d : String.eqb (day_tag d) "all" = false.
Proof. by destruct d. Qed.

Lemma StronglySorted_filter {A} (R : A → A → Prop) (f : A → bool) l :
  StronglySorted R l → StronglySorted R (List.filter f l).
Proof.
  induction 1 as [|a l Hs IH Hf]; cbn [List.filter]; [constructor|].
  destruct (f a); [|done]. constructor; [done|].
  apply List.Forall_forall. intros b Hb. apply filter_In in Hb as [Hb _].
  by apply (proj1 (List.Forall_forall _ _) Hf).
Qed.

Lemma filter_items_sorted (R : ForecastDayItem.t → ForecastDayItem.t → Prop) fi ro l :
  StronglySorted R l → StronglySorted R (filter_items fi ro l).
Proof.
  intros Hs. unfold filter_items.
  destruct ro, (negb (String.eqb fi "all")); repeat apply StronglySorted_filter; done.
Qed.

Lemma elem_of_filter_items fi ro l row :
  row ∈ filter_items fi ro l →
  row ∈ l ∧ (ro = true → ForecastDayItem.risk row = true) ∧
  (fi ≠ "all" → ForecastDayItem.itemId row = fi).
Proof.
  unfold filter_items. intros H.
  destruct (String.eqb_spec fi "all") as [->|Hfi]; cbn [negb] in H.
  - destruct ro.
    + apply list_elem_of_In, filter_In in H as [H1 H2].
      split; [by apply list_elem_of_In|]. split; [done|done].
    + split; [done|]. split; [done|done].
  - destruct ro.
    + apply list_elem_of_In, filter_In in H as [H1 H2].
      apply filter_In in H1 as [H1 H3]. apply String.eqb_eq in H3.
      split; [by apply list_elem_of_In|]. done.
    + apply list_elem_of_In, filter_In in H as [H1 H3]. apply String.eqb_eq in H3.
      split; [by apply list_elem_of_In|]. done.
Qed.

Section Shown.
Context (lc : string → string → Z).
Hypothesis lc_total : ∀ a b, lc a b <= 0 ∨ lc b a <= 0.
Hypothesis lc_trans : ∀ a b c, lc a b <= 0 → lc b c <= 0 → lc a c <= 0.

(** X26. Every day the page shows is a day of the report with the same
    date and weekday; its rows are rows of that day, still with the
    risky rows first and each group in name order; with the risk filter
    on, the day has at least one row and every row is at risk; with an
    item selected, every row is of that item; with a weekday selected,
    the day is of that weekday. *)
Theorem filteredForecast_keeps_order docs menuDocs users now fi fd ro day' :
  day' ∈ filteredForecast (Some (GET lc docs menuDocs users now)) fi fd ro →
  ∃ day,
    day ∈ forecast (GET lc docs menuDocs users now) ∧
    ForecastDay.date day' = ForecastDay.date day ∧
    ForecastDay.dayName day' = ForecastDay.dayName day ∧
    (∀ row, row ∈ ForecastDay.items day' →
       row ∈ ForecastDay.items day ∧
       (ro = true → ForecastDayItem.risk row = true) ∧
       (fi ≠ "all" → ForecastDayItem.itemId row = fi)) ∧
    (∃ risky safe,
       ForecastDay.items day' = risky ++ safe ∧
       Forall (fun i => ForecastDayItem.risk i = true) risky ∧
       Forall (fun i => ForecastDayItem.risk i = false) safe ∧
       StronglySorted (by_name lc) risky ∧
       StronglySorted (by_name lc) safe) ∧
    (ro = true → ForecastDay.items day' ≠ []) ∧
    (fd ≠ "all" → day_tag (ForecastDay.dayName day') = fd).
Proof.
  unfold filteredForecast. intros H.
  apply list_elem_of_In, filter_In in H as [Hin Hkeep].
  apply in_map_iff in Hin as (day & <- & Hday). apply list_elem_of_In in Hday.
  cbn [ForecastDay.date ForecastDay.dayName ForecastDay.items] in *.
  exists day. split; [done|]. split; [done|]. split; [done|].
  split; [intros row; apply elem_of_filter_items|].
  split.
  { apply sorted_split. apply filter_items_sorted.
    rewrite GET_forecast in Hday.
    apply list_elem_of_lookup in Hday as [k Hk].
    apply lookup_expected_forecast in Hk as [_ ->].
    unfold expected_day. cbn [ForecastDay.items].
    apply js_sort_StronglySorted; [by apply item_cmp_total|by apply item_cmp_trans]. }
  split.
  - intros ->. destruct (_ && _); [done|]. cbn [negb] in Hkeep.
    rewrite orb_false_r in Hkeep. intros Hnil. by rewrite Hnil in Hkeep.
  - intros Hfd. destruct (String.eqb_spec fd "all") as [|_]; [done|].
    cbn [negb andb] in Hkeep.
    destruct (String.eqb_spec (day_tag (ForecastDay.dayName day)) fd); done.
Qed.
End Shown.

Lemma filteredForecast_keeps_order_witness :
  ∃ day',
    filteredForecast
      (Some (GET code_compare [samosa_daily; chai_weekdays] [samosa; chai] ∅
               monday_morning)) "all" "Wed" true !! 0%nat = Some day' ∧
    day_tag (ForecastDay.dayName day') = "Wed" ∧ ForecastDay.items day' ≠ [].
Proof.
  destruct (filteredForecast
              (Some (GET code_compare [samosa_daily; chai_weekdays] [samosa; chai] ∅
                       monday_morning)) "all" "Wed" true !! 0%nat) as [day'|] eqn:H;
    [|by vm_compute in H].
  exists day'. split; [reflexivity|].
  apply list_elem_of_lookup_2 in H.
  destruct (filteredForecast_keeps_order code_compare code_compare_total
              code_compare_trans _ _ _ _ _ _ _ _ H) as (day & _ & _ & _ & _ & _ & H6 & H7).
  split; [apply H7; discriminate|by apply H6].
Defined.

(** *** One weekday, one day *)

Lemma filter_count {A} (g : A → DayOfWeek) d (l : list A) :
  length (List.filter (fun x => bool_decide (g x = d)) l) =
  count_occ DayOfWeek_eq_dec (map g l) d.
Proof.
  induction l as [|x l IH]; [done|]. cbn [List.filter map count_occ].
  destruct (DayOfWeek_eq_dec (g x) d) as [Heq|Hne].
  - rewrite bool_decide_true by done. cbn [length]. by rewrite IH.
  - by rewrite bool_decide_false.
Qed.

Lemma count_ALL_DAYS d : count_occ DayOfWeek_eq_dec ALL_DAYS d = 1%nat.
Proof. by destruct d. Qed.

Lemma shown_day_eta (l : list ForecastDay.t) :
  map (fun day =>
         {| ForecastDay.date := ForecastDay.date day;
            ForecastDay.dayName := ForecastDay.dayName day;
            ForecastDay.items := filter_items "all" false (ForecastDay.items day) |}) l = l.
Proof.
  induction l as [|[dt dn its] l IH]; [done|]. cbn [map]. by rewrite IH.
Qed.

(** X27. With only a weekday selected, the page shows exactly one of the
    seven days of any report the route returns, unchanged: the day of
    that weekday. *)
Theorem day_filter_shows_one_day lc docs menuDocs users now d :
  ∃ day,
    filteredForecast (Some (GET lc docs menuDocs users now)) "all" (day_tag d) false
      = [day] ∧
    day ∈ forecast (GET lc docs menuDocs users now) ∧
    ForecastDay.dayName day = d.
Proof.
  unfold filteredForecast. rewrite shown_day_eta.
  rewrite (filter_ext _ (fun day => bool_decide (ForecastDay.dayName day = d))).
  2:{ intros day. rewrite day_tag_not_all, day_tag_eqb. cbn [negb andb].
      rewrite orb_true_r. by destruct (bool_decide _). }
  set (l := List.filter _ _).
  assert (Hlen : length l = 1%nat).
  { unfold l. rewrite filter_count.
    rewrite (proj1 (Permutation_count_occ DayOfWeek_eq_dec _ ALL_DAYS));
      [apply count_ALL_DAYS|].
    rewrite ForecastExtra.forecast_days. apply ForecastExtra.week_Permutation. }
  destruct l as [|day [|]] eqn:Hl; try done.
  exists day. split; [done|].
  assert (Hin : In day (List.filter
                          (fun day => bool_decide (ForecastDay.dayName day = d))
                          (forecast (GET lc docs menuDocs users now))))
    by (fold l; rewrite Hl; by left).
  apply filter_In in Hin as [Hin Hd].
  split; [by apply list_elem_of_In|]. by apply bool_decide_eq_true in Hd.
Qed.

(** *** One item and one weekday *)

Lemma demand_of_none agg item d :
  (∀ e, In e agg → ¬ (DemandEntry.itemId e = item ∧ DemandEntry.day e = d)) →
  demand_of agg item d = 0.
Proof.
  induction agg as [|e agg IH]; intros H; cbn [demand_of]; [done|].
  rewrite IH by (intros e' He'; apply H; by right).
  destruct (String.eqb_spec (DemandEntry.itemId e) item) as [Hi|]; [|done].
  destruct (decide (DemandEntry.day e = d)) as [Hd|Hd].
  - destruct (H e); [by left|done].
  - by rewrite bool_decide_false.
Qed.

Lemma keyed_le_one {A K} (k : A → K) (c : K) (l : list A) :
  NoDup (map k l) → (∀ x, In x l → k x = c) → (length l ≤ 1)%nat.
Proof.
  destruct l as [|x [|y l]]; cbn [length]; [lia|lia|].
  intros Hnd Hk. exfalso. cbn [map] in Hnd.
  apply NoDup_cons in Hnd as [Hx _]. apply Hx.
  rewrite (Hk x), (Hk y); [by left|right; by left|by left].
Qed.

Lemma NoDup_map_filter {A K} (k : A → K) (f : A → bool) (l : list A) :
  NoDup (map k l) → NoDup (map k (List.filter f l)).
Proof.
  induction l as [|x l IH]; [done|]. cbn [map List.filter].
  intros [Hx Hnd]%NoDup_cons. destruct (f x); [|by apply IH].
  cbn [map]. apply NoDup_cons. split; [|by apply IH].
  intros Hin. apply Hx. apply list_elem_of_fmap in Hin as (y & -> & Hy).
  apply list_elem_of_In, filter_In in Hy as [Hy _].
  apply list_elem_of_fmap. exists y. split; [done|by apply list_elem_of_In].
Qed.

(** X28. With an item and a weekday selected, the demand table of the
    page shows at most one record of a report the route returns: the
    record of that item and day, whose quantity is the aggregated demand;
    it shows none exactly when that demand has no record, and then the
    demand is zero. *)
Theorem filteredDemand_single lc docs menuDocs users now item d :
  item ≠ "all" →
  (filteredDemand (Some (GET lc docs menuDocs users now)) item (day_tag d) = [] ∧
   demand (GET lc docs menuDocs users now) item d = 0) ∨
  (∃ e,
     filteredDemand (Some (GET lc docs menuDocs users now)) item (day_tag d) = [e] ∧
     e ∈ aggregateDemand (GET lc docs menuDocs users now) ∧
     DemandEntry.itemId e = item ∧ DemandEntry.day e = d ∧
     DemandEntry.totalQuantity e = demand (GET lc docs menuDocs users now) item d).
Proof.
  intros Hitem. unfold filteredDemand.
  apply String.eqb_neq in Hitem. rewrite Hitem, day_tag_not_all. cbn [negb].
  set (agg := aggregateDemand (GET lc docs menuDocs users now)).
  set (l := List.filter _ (List.filter _ agg)).
  destruct (aggregate_records lc docs menuDocs users now) as [Hq Hnd]. fold agg in Hq, Hnd.
  assert (Hl : ∀ e, In e l ↔ In e agg ∧ DemandEntry.itemId e = item ∧ DemandEntry.day e = d).
  { intros e. unfold l. rewrite !filter_In, String.eqb_eq, day_tag_eqb,
      bool_decide_eq_true. tauto. }
  assert (Hlen : (length l ≤ 1)%nat).
  { apply (keyed_le_one (fun e => (DemandEntry.itemId e, DemandEntry.day e)) (item, d)).
    - unfold l. by do 2 apply NoDup_map_filter.
    - intros e He. apply Hl in He as (_ & -> & ->). done. }
  destruct l as [|e [|]] eqn:Heq; cbn [length] in Hlen; [| |lia].
  - left. split; [done|].
    rewrite <- (aggregate_demand lc docs menuDocs users now). fold agg.
    apply demand_of_none. intros e He Hkey.
    assert (Hin : In e []) by (apply Hl; tauto). done.
  - right. exists e. split; [done|].
    assert (Hin : In e [e]) by by left.
    apply Hl in Hin as (Hin & Hi & Hd). apply list_elem_of_In in Hin.
    split; [done|]. split; [done|]. split; [done|].
    rewrite (Hq e Hin). by rewrite Hi, Hd.
Qed.

Lemma filteredDemand_single_witness :
  ∃ e,
    filteredDemand
      (Some (GET code_compare [samosa_daily; chai_weekdays] [samosa; chai] ∅
               monday_morning)) "i2" "Tue" = [e] ∧
    DemandEntry.totalQuantity e = 1 ∧
    filteredDemand
      (Some (GET code_compare [samosa_daily; chai_weekdays] [samosa; chai] ∅
               monday_morning)) "i2" "Sun" = [].
Proof.
  destruct (filteredDemand_single code_compare [samosa_daily; chai_weekdays]
              [samosa; chai] ∅ monday_morning "i2" Tue) as [[H _]|(e & H1 & _ & _ & _ & H5)];
    [discriminate|by vm_compute in H|].
  exists e. split; [exact H1|]. split; [rewrite H5; by vm_compute|].
  destruct (filteredDemand_single code_compare [samosa_daily; chai_weekdays]
              [samosa; chai] ∅ monday_morning "i2" Sun) as [[H _]|(e' & H & _)];
    [discriminate|exact H|by vm_compute in H].
Defined.

(** *** The orders behind a demand figure *)

Lemma count_occ_NoDup (days : list DayOfWeek) d :
  NoDup days →
  count_occ DayOfWeek_eq_dec days d =
  if existsb (fun d' => String.eqb (day_tag d') (day_tag d)) days then 1%nat else 0%nat.
Proof.
  induction days as [|x days IH]; [done|]. intros [Hx Hnd]%NoDup_cons.
  cbn [count_occ existsb]. rewrite day_tag_eqb, IH by done.
  destruct (DayOfWeek_eq_dec x d) as [->|Hne].
  - rewrite bool_decide_true by done. cbn [orb].
    destruct (existsb _ days) eqn:He; [|done].
    apply existsb_exists in He as (y & Hy & Heq).
    rewrite day_tag_eqb in Heq. apply bool_decide_eq_true in Heq. subst y.
    destruct Hx. by apply list_elem_of_In.
  - by rewrite bool_decide_false.
Qed.

Lemma total_quantity_filter item d (l : list EnrichedAutoOrder.t) :
  (∀ o, o ∈ l → NoDup (EnrichedAutoOrder.scheduledDays o)) →
  total_quantity
    (List.filter
       (fun o => existsb (fun d' => String.eqb (day_tag d') (day_tag d))
                   (EnrichedAutoOrder.scheduledDays o))
       (List.filter (fun o => String.eqb (EnrichedAutoOrder.itemId o) item) l)) =
  demand_total l item d.
Proof.
  induction l as [|o l IH]; intros Hnd; [done|].
  cbn [List.filter demand_total]. rewrite <- IH by (intros o' Ho'; apply Hnd; by right).
  unfold order_demand. rewrite (count_occ_NoDup _ d) by (apply Hnd; by left).
  destruct (String.eqb (EnrichedAutoOrder.itemId o) item); cbn [List.filter]; [|done].
  destruct (existsb _ (EnrichedAutoOrder.scheduledDays o));
    cbn [total_quantity fold_right Z.of_nat Pos.of_succ_nat];
    by rewrite ?Z.mul_1_r, ?Z.mul_0_r.
Qed.

(** X29. With an item and a weekday selected, the orders the page lists
    are the ones behind the demand figure: when no order lists a day
    twice, their quantities add up to the aggregated demand of that item
    on that day. *)
Theorem filteredOrders_sum (data : Report) item d :
  item ≠ "all" →
  (∀ o, o ∈ autoOrders data → NoDup (EnrichedAutoOrder.scheduledDays o)) →
  total_quantity (filteredOrders (Some data) item (day_tag d)) = demand data item d.
Proof.
  intros Hitem Hnd. unfold filteredOrders, demand.
  apply String.eqb_neq in Hitem. rewrite Hitem, day_tag_not_all. cbn [negb].
  by apply total_quantity_filter.
Qed.

Lemma filteredOrders_sum_witness :
  total_quantity
    (filteredOrders
       (Some (GET code_compare [samosa_daily; chai_weekdays] [samosa; chai] ∅
                monday_morning)) "i1" "Sat") = 4.
Proof.
  rewrite (filteredOrders_sum _ "i1" Sat); [by vm_compute|discriminate|].
  intros o Ho. vm_compute in Ho.
  apply elem_of_cons in Ho as [->|Ho]; [by apply (bool_decide_unpack _)|].
  apply list_elem_of_singleton in Ho as ->. by apply (bool_decide_unpack _).
Defined.

End PageFacts.
